(** * SINTA analytics dashboard: the metrics aggregation and comparison engine

    A shallow embedding of the data transformations of [app2.py]
    (ranking, category pivot, high-leverage scorer, what-if simulation and
    the two-university comparator) together with the properties stated for
    them.

    Conventions of the embedding.
    - A pandas DataFrame is a [list] of records, one record per row, in row
      order.  A missing cell (NaN / None) is [None] of an [option] type.
    - A numeric cell is the rational number it holds ([Q]); equality of
      numbers is [==] ([Qeq]).  Pointwise formulas, comparisons and sums of
      one and the same column are written with exact operations.  Where a
      statement compares sums taken in different groupings, which binary64
      arithmetic does not preserve, the summation is a parameter [ssum], and
      [sum64] and [kahan64] are the binary64 summations, computed with the
      primitive floating-point numbers.
    - [DataFrame.sort_values] is called everywhere with its default
      [kind="quicksort"], which pandas documents as not stable.  The sort
      is therefore a parameter ([sort_kind]) characterised by what the
      library promises: the result is a permutation of the input, ordered by
      the key.  Two concrete kinds are provided, a stable one and one that
      reverses ties. *)

From Stdlib Require Import List String Ascii Bool Arith Lia.
From Stdlib Require Import QArith Qminmax Qabs.
From Stdlib Require Import Permutation Sorted.
From Stdlib Require PrimFloat FloatOps Uint63.
Import ListNotations.

Local Open Scope string_scope.
Local Open Scope list_scope.
Local Open Scope Q_scope.

(* ------------------------------------------------------------------ *)
(** ** Generic table helpers *)

(** [Series.sum()] as the exact sum of a numeric column (0 for an empty
    one).  The library adds in binary64, so its sum is this one up to
    rounding: the statements made with [Qsum] are those that rounding leaves
    true (the same column summed twice, monotonicity, a sign); where the
    grouping of the additions matters the summation is the parameter [ssum]
    of [groupby_sum_with]. *)
Definition Qsum (l : list Q) : Q := fold_right Qplus 0 l.

(** [(mask).sum()]: number of rows satisfying a boolean mask. *)
Definition count {A : Type} (p : A -> bool) (l : list A) : nat :=
  List.length (filter p l).

Definition Qgtb (x y : Q) : bool := negb (Qle_bool x y).
Definition Qltb (x y : Q) : bool := negb (Qle_bool y x).

Fixpoint insert_by {A : Type} (leb : A -> A -> bool) (x : A) (l : list A) : list A :=
  match l with
  | [] => [x]
  | y :: l' => if leb x y then x :: l else y :: insert_by leb x l'
  end.

Definition isort {A : Type} (leb : A -> A -> bool) (l : list A) : list A :=
  fold_right (insert_by leb) [] l.

(** Group keys and outer-join keys: the distinct values, in sorted order. *)
Definition sorted_unique {A : Type} (eq_dec : forall x y : A, {x = y} + {x <> y})
    (leb : A -> A -> bool) (l : list A) : list A :=
  isort leb (nodup eq_dec l).

(** [str.upper()] follows Unicode's case mapping, which no table of this
    development reproduces.  The functions that call it take the mapping as
    their parameter [upper], and what is proved of them holds for every
    mapping.  [ascii_upper] is the mapping on identifiers written in ASCII
    letters; the example tables use it. *)
Definition upper_ascii (c : ascii) : ascii :=
  let n := nat_of_ascii c in
  if ((97 <=? n) && (n <=? 122))%nat then ascii_of_nat (n - 32) else c.

Fixpoint ascii_upper (s : string) : string :=
  match s with
  | EmptyString => EmptyString
  | String c s' => String (upper_ascii c) (ascii_upper s')
  end.

(* ------------------------------------------------------------------ *)
(** ** The sort behind [sort_values] *)

(** What the default sort kind guarantees for a single numeric key: the rows
    are permuted and come out in ascending key order.  Nothing is promised
    about rows with equal keys. *)
Record sort_kind : Type := {
  ksort : forall A : Type, (A -> Q) -> list A -> list A;
  ksort_perm : forall (A : Type) (key : A -> Q) (l : list A),
      Permutation (ksort A key l) l;
  ksort_sorted : forall (A : Type) (key : A -> Q) (l : list A),
      StronglySorted (fun x y => key x <= key y) (ksort A key l)
}.

Arguments ksort s {A} key l.

(** A kind is stable when rows with the same key keep their input order. *)
Definition stable (K : sort_kind) : Prop :=
  forall (A : Type) (key : A -> Q) (l : list A) (q : Q),
    filter (fun x => Qeq_bool (key x) q) (ksort K key l)
    = filter (fun x => Qeq_bool (key x) q) l.

(** [df.sort_values(by, ascending=...)].  For a descending sort pandas
    reverses the rows, sorts ascending and reverses the outcome. *)
Definition sort_values {A : Type} (K : sort_kind) (key : A -> Q)
    (ascending : bool) (l : list A) : list A :=
  if ascending then ksort K key l else rev (ksort K key (rev l)).

(** Insertion sorts used as concrete kinds. *)
Definition leb_stable {A : Type} (key : A -> Q) (x y : A) : bool :=
  Qle_bool (key x) (key y).
Definition leb_reversing {A : Type} (key : A -> Q) (x y : A) : bool :=
  Qltb (key x) (key y).

Definition stable_sort {A : Type} (key : A -> Q) (l : list A) : list A :=
  isort (leb_stable key) l.
Definition reversing_sort {A : Type} (key : A -> Q) (l : list A) : list A :=
  isort (leb_reversing key) l.

(* ------------------------------------------------------------------ *)
(** ** Constants and mapping *)

Inductive Category : Type :=
  | Publication | Research | CommunityService | HKI | SDM | Kelembagaan.

Definition Category_eq_dec (x y : Category) : {x = y} + {x <> y}.
Proof. decide equality. Defined.

Definition Category_eqb (x y : Category) : bool :=
  if Category_eq_dec x y then true else false.

Definition label (c : Category) : string :=
  match c with
  | Publication => "Publication"
  | Research => "Research"
  | CommunityService => "Community Service"
  | HKI => "HKI"
  | SDM => "SDM"
  | Kelembagaan => "Kelembagaan"
  end.

Definition CATEGORY_LABELS (raw : string) : option Category :=
  if raw =? "Score in Publication" then Some Publication
  else if raw =? "Score in HKI" then Some HKI
  else if raw =? "Score in Research" then Some Research
  else if raw =? "Score in Community Service" then Some CommunityService
  else if raw =? "Score in SDM" then Some SDM
  else if raw =? "Score in Kelembagaan" then Some Kelembagaan
  else None.

Definition CATEGORY_ORDER : list Category :=
  [Publication; Research; CommunityService; HKI; SDM; Kelembagaan].

Definition Category_leb (x y : Category) : bool := String.leb (label x) (label y).

(* ------------------------------------------------------------------ *)
(** ** Tables of the cluster workbook *)

(** Sheet [afiliasi]. *)
Record AffRow : Type := {
  nama_afiliasi : string;
  sinta_score_overall : Q;
  sinta_score_3yr : Q
}.

(** Sheet [detail_kode]. *)
Record DetailRow : Type := {
  d_nama_afiliasi : string;
  kode : string;
  nama : string;
  kategori_score : string;
  weight : Q;
  value : Q;
  total : Q
}.

(** [detail_kode] with the added [category] column. *)
Record DetailCat : Type := {
  d_row : DetailRow;
  category : option Category
}.

(** [afiliasi] with the derived columns. *)
Record AffOut : Type := {
  a_row : AffRow;
  rank_overall : option nat;
  gap_to_top10 : option Q
}.

(** The unstacked category pivot: column labels and one row of cells per
    index entry. *)
Record Pivot : Type := {
  pv_columns : list Category;
  pv_rows : list (string * list Q)
}.

Definition pv_index (p : Pivot) : list string := map fst (pv_rows p).

(** [cat_pivot.loc[a]] when [a] is in the index. *)
Definition pv_loc (p : Pivot) (a : string) : option (list Q) :=
  option_map snd (find (fun r => (fst r =? a)%string) (pv_rows p)).

(** The cell at row [a], column [c], when both exist. *)
Definition pv_cell (p : Pivot) (a : string) (c : Category) : option Q :=
  match pv_loc p a with
  | None => None
  | Some cells =>
      option_map snd
        (find (fun cv => Category_eqb (fst cv) c) (combine (pv_columns p) cells))
  end.

(* ------------------------------------------------------------------ *)
(** ** [load_cluster_data] *)

(** [df_detail["category"] = df_detail["kategori_score"].map(CATEGORY_LABELS)] *)
Definition add_category (r : DetailRow) : DetailCat :=
  {| d_row := r; category := CATEGORY_LABELS (kategori_score r) |}.

Definition key_eq_dec (x y : string * Category) : {x = y} + {x <> y}.
Proof. decide equality; [apply Category_eq_dec | apply string_dec]. Defined.

Definition key_leb (x y : string * Category) : bool :=
  if string_dec (fst x) (fst y) then Category_leb (snd x) (snd y)
  else String.leb (fst x) (fst y).

Definition in_group (a : string) (c : Category) (r : DetailCat) : bool :=
  (d_nama_afiliasi (d_row r) =? a)%string
  && match category r with Some c' => Category_eqb c' c | None => false end.

(** The group keys of [groupby(["nama_afiliasi", "category"])]: rows whose
    category is missing belong to no group. *)
Definition group_keys (df : list DetailCat) : list (string * Category) :=
  sorted_unique key_eq_dec key_leb
    (flat_map (fun r => match category r with
                        | Some c => [(d_nama_afiliasi (d_row r), c)]
                        | None => []
                        end) df).

(** [df_detail.groupby(["nama_afiliasi", "category"])["total"].sum()] *)
Definition groupby_sum (df : list DetailCat) : list ((string * Category) * Q) :=
  map (fun k => (k, Qsum (map (fun r => total (d_row r))
                              (filter (in_group (fst k) (snd k)) df))))
      (group_keys df).

Definition series_get (s : list ((string * Category) * Q)) (a : string) (c : Category)
  : option Q :=
  option_map snd (find (fun e => if key_eq_dec (fst e) (a, c) then true else false) s).

(** [.unstack(fill_value=...)]: index = first key level, columns = second
    key level, both taken from the keys that occur. *)
Definition unstack (s : list ((string * Category) * Q)) (fill_value : Q) : Pivot :=
  let index := sorted_unique string_dec String.leb (map (fun e => fst (fst e)) s) in
  let columns := sorted_unique Category_eq_dec Category_leb (map (fun e => snd (fst e)) s) in
  {| pv_columns := columns;
     pv_rows := map (fun a =>
                  (a, map (fun c => match series_get s a c with
                                    | Some v => v
                                    | None => fill_value
                                    end) columns)) index |}.

Definition cat_pivot_of (df_detail : list DetailCat) : Pivot :=
  unstack (groupby_sum df_detail) 0.

(** [af_ranked]: sorted descending by overall score, with
    [rank_overall = index + 1]. *)
Definition af_ranked (K : sort_kind) (df_af : list AffRow) : list (AffRow * nat) :=
  let sorted := sort_values K sinta_score_overall false df_af in
  combine sorted (seq 1 (List.length sorted)).

(** [df_af.merge(af_ranked[["nama_afiliasi", "rank_overall"]],
                 on="nama_afiliasi", how="left")] *)
Definition merge_rank (df_af : list AffRow) (ranked : list (AffRow * nat))
  : list (AffRow * option nat) :=
  flat_map (fun a =>
    match filter (fun p => (nama_afiliasi (fst p) =? nama_afiliasi a)%string) ranked with
    | [] => [(a, None)]
    | ms => map (fun p => (a, Some (snd p))) ms
    end) df_af.

Definition rank_le_10 (r : option nat) : bool :=
  match r with Some k => (k <=? 10)%nat | None => false end.

Definition load_cluster_data (K : sort_kind) (afiliasi : list AffRow)
    (detail_kode : list DetailRow)
  : list AffOut * list DetailCat * Pivot * option Q :=
  let df_detail := map add_category detail_kode in
  let cat_pivot := cat_pivot_of df_detail in
  let ranked := af_ranked K afiliasi in
  let df_af := merge_rank afiliasi ranked in
  if (10 <=? List.length ranked)%nat then
    let top10_threshold := nth 9 (map (fun p => sinta_score_overall (fst p)) ranked) 0 in
    (map (fun ar => {| a_row := fst ar;
                       rank_overall := snd ar;
                       gap_to_top10 :=
                         Some (if rank_le_10 (snd ar) then 0
                               else top10_threshold - sinta_score_overall (fst ar)) |})
         df_af,
     df_detail, cat_pivot, Some top10_threshold)
  else
    (map (fun ar => {| a_row := fst ar; rank_overall := snd ar; gap_to_top10 := None |})
         df_af,
     df_detail, cat_pivot, None).

(** The four components of what [load_cluster_data] returns. *)
Definition loaded_df_af (x : list AffOut * list DetailCat * Pivot * option Q)
  : list AffOut := fst (fst (fst x)).
Definition loaded_df_detail (x : list AffOut * list DetailCat * Pivot * option Q)
  : list DetailCat := snd (fst (fst x)).
Definition loaded_cat_pivot (x : list AffOut * list DetailCat * Pivot * option Q)
  : Pivot := snd (fst x).
Definition loaded_top10_threshold (x : list AffOut * list DetailCat * Pivot * option Q)
  : option Q := snd x.

(* ------------------------------------------------------------------ *)
(** ** [get_high_leverage_metrics] *)

Record HighRow : Type := {
  h_row : DetailRow;
  h_category : option Category;
  potential_gain : Q
}.

Definition add_potential_gain (r : DetailCat) : HighRow :=
  {| h_row := d_row r;
     h_category := CATEGORY_LABELS (kategori_score (d_row r));
     potential_gain := weight (d_row r) * (1 - value (d_row r)) |}.

(** The empty frame is returned as it is; otherwise the rows get their
    [potential_gain], are sorted descending on it and cut to [top_k]. *)
Definition get_high_leverage_metrics (K : sort_kind) (df_detail : list DetailCat)
    (selected_affiliation : string) (top_k : nat) : list HighRow :=
  let df := filter (fun r => (d_nama_afiliasi (d_row r) =? selected_affiliation)%string)
                   df_detail in
  match df with
  | [] => []
  | _ => firstn top_k (sort_values K potential_gain false (map add_potential_gain df))
  end.

(* ------------------------------------------------------------------ *)
(** ** The simulation of tab 3 *)

Record SimRow : Type := {
  s_row : DetailRow;
  s_category : option Category;
  value_sim : Q;
  total_sim : Q
}.

Record CatSimRow : Type := {
  cs_category : Category;
  original_total : Q;
  simulated_total : Q;
  change : Q;
  change_percent : option Q
}.

Inductive SimOutcome : Type :=
  | NoCategoryData                     (* affiliation not in [cat_pivot.index] *)
  | EmptySelection                     (* warning: pick at least one category *)
  | Simulated (df_sim : list SimRow) (df_cat_sim : list CatSimRow).

(** [df_sim["category"].isin(sim_categories)] *)
Definition isin_categories (sim_categories : list Category) (c : option Category) : bool :=
  match c with
  | Some c' => existsb (Category_eqb c') sim_categories
  | None => false
  end.

(** [x.clip(upper=1.0)] *)
Definition clip_upper (x : Q) : Q := Qmin x 1.

Definition simulate_row (sim_categories : list Category) (delta_value : Q)
    (r : DetailCat) : SimRow :=
  let mask := isin_categories sim_categories (category r) in
  let value_sim := if mask then clip_upper (value (d_row r) + delta_value)
                   else value (d_row r) in
  {| s_row := d_row r;
     s_category := category r;
     value_sim := value_sim;
     total_sim := weight (d_row r) * value_sim |}.

Definition has_category {A : Type} (cat : A -> option Category) (c : Category) (r : A)
  : bool :=
  match cat r with Some c' => Category_eqb c' c | None => false end.

(** [df.groupby("category")[col].sum()] as a series indexed by category. *)
Definition groupby_category_sum {A : Type} (cat : A -> option Category) (col : A -> Q)
    (df : list A) : list (Category * Q) :=
  map (fun c => (c, Qsum (map col (filter (has_category cat c) df))))
      (sorted_unique Category_eq_dec Category_leb
         (flat_map (fun r => match cat r with Some c => [c] | None => [] end) df)).

Definition cat_get (s : list (Category * Q)) (c : Category) : option Q :=
  option_map snd (find (fun e => Category_eqb (fst e) c) s).

Definition fillna0 (x : option Q) : Q :=
  match x with Some v => v | None => 0 end.

(** [pd.concat([original_cat, sim_cat], axis=1).fillna(0).reset_index()]
    followed by the [change] and [change_percent] columns. *)
Definition concat_categories (original_cat sim_cat : list (Category * Q))
  : list CatSimRow :=
  map (fun c =>
         let o := fillna0 (cat_get original_cat c) in
         let s := fillna0 (cat_get sim_cat c) in
         let ch := s - o in
         {| cs_category := c;
            original_total := o;
            simulated_total := s;
            change := ch;
            change_percent := if Qgtb o 0 then Some (ch / o * 100) else None |})
      (sorted_unique Category_eq_dec Category_leb
         (map fst original_cat ++ map fst sim_cat)).

Definition simulate (df_detail : list DetailCat) (cat_pivot : Pivot)
    (selected_affiliation : string) (sim_categories : list Category) (delta_value : Q)
  : SimOutcome :=
  if existsb (String.eqb selected_affiliation) (pv_index cat_pivot) then
    let df_aff_detail :=
      map (fun r => add_category (d_row r))
          (filter (fun r => (d_nama_afiliasi (d_row r) =? selected_affiliation)%string)
                  df_detail) in
    match sim_categories with
    | [] => EmptySelection
    | _ =>
        let df_sim := map (simulate_row sim_categories delta_value) df_aff_detail in
        let original_cat :=
          groupby_category_sum category (fun r => total (d_row r)) df_aff_detail in
        let sim_cat := groupby_category_sum s_category total_sim df_sim in
        Simulated df_sim (concat_categories original_cat sim_cat)
    end
  else NoCategoryData.

(** The simulation run on a freshly loaded cluster workbook. *)
Definition run_simulation (detail_kode : list DetailRow) (selected_affiliation : string)
    (sim_categories : list Category) (delta_value : Q) : SimOutcome :=
  let df_detail := map add_category detail_kode in
  simulate df_detail (cat_pivot_of df_detail) selected_affiliation sim_categories
           delta_value.

(* ------------------------------------------------------------------ *)
(** ** The metrics-detail workbook and the comparator *)

Record MetricsRow : Type := {
  affiliation_name : string;
  code : string;
  name : option string;
  area : option string;
  m_weight : Q;
  sinta_v3_overall_value : Q;
  sinta_v3_overall_total : Q;
  sinta_v3_3yr_value : Q;
  sinta_v3_3yr_total : Q
}.

(** The score columns offered by [metric_col_map]. *)
Inductive MetricCol : Type :=
  | col_overall_total | col_3yr_total | col_overall_value.

Definition metric (metric_col : MetricCol) (r : MetricsRow) : Q :=
  match metric_col with
  | col_overall_total => sinta_v3_overall_total r
  | col_3yr_total => sinta_v3_3yr_total r
  | col_overall_value => sinta_v3_overall_value r
  end.

(** A row of [pd.merge(base, comp, on="code", how="outer")]. *)
Record MergedRow : Type := {
  mg_code : string;
  mg_name : option string;
  mg_category : option string;
  mg_score_selected : option Q;
  mg_category_b : option string;
  mg_score_compare : option Q
}.

Record ComparisonRow : Type := {
  c_code : string;
  c_name : option string;
  c_category : option string;
  score_selected : Q;
  score_compare : Q;
  diff_abs : Q;
  diff_pct : option Q
}.

Inductive Error : Type :=
  | InvalidIndexError.    (* "Reindexing only valid with uniquely valued Index objects" *)

Inductive result (A : Type) : Type :=
  | Ok (a : A)
  | Raise (e : Error).
Arguments Ok {A} a.
Arguments Raise {A} e.

Definition left_only (metric_col : MetricCol) (a : MetricsRow) : MergedRow :=
  {| mg_code := code a; mg_name := name a; mg_category := area a;
     mg_score_selected := Some (metric metric_col a);
     mg_category_b := None; mg_score_compare := None |}.

Definition right_only (metric_col : MetricCol) (b : MetricsRow) : MergedRow :=
  {| mg_code := code b; mg_name := None; mg_category := None;
     mg_score_selected := None;
     mg_category_b := area b; mg_score_compare := Some (metric metric_col b) |}.

Definition both_sides (metric_col : MetricCol) (a b : MetricsRow) : MergedRow :=
  {| mg_code := code a; mg_name := name a; mg_category := area a;
     mg_score_selected := Some (metric metric_col a);
     mg_category_b := area b; mg_score_compare := Some (metric metric_col b) |}.

(** Full outer join on [code]: one group of rows per key of either side, a
    key present on both sides giving every pairing of its rows. *)
Definition merge_outer (metric_col : MetricCol) (df1 df2 : list MetricsRow)
  : list MergedRow :=
  flat_map (fun k =>
    let ls := filter (fun r => (code r =? k)%string) df1 in
    let rs := filter (fun r => (code r =? k)%string) df2 in
    match ls, rs with
    | [], _ => map (right_only metric_col) rs
    | _, [] => map (left_only metric_col) ls
    | _, _ => flat_map (fun a => map (both_sides metric_col a) rs) ls
    end)
    (sorted_unique string_dec String.leb (map code df1 ++ map code df2)).

Fixpoint unique_codes (l : list string) : bool :=
  match l with
  | [] => true
  | c :: l' => negb (existsb (String.eqb c) l') && unique_codes l'
  end.

(** [df["code"].map(name_map)] with [name_map = df2.set_index("code")["name"]]:
    the lookup needs a uniquely valued index. *)
Definition map_name (df2 : list MetricsRow) (codes : list string)
  : result (list (option string)) :=
  if unique_codes (map code df2) then
    Ok (map (fun c => match find (fun r => (code r =? c)%string) df2 with
                      | Some r => name r
                      | None => None
                      end) codes)
  else Raise InvalidIndexError.

Definition fillna {A : Type} (x other : option A) : option A :=
  match x with Some _ => x | None => other end.

Definition finish_row (m : MergedRow) (mapped_name : option string) : ComparisonRow :=
  let sel := fillna0 (mg_score_selected m) in
  let cmp := fillna0 (mg_score_compare m) in
  let d := sel - cmp in
  {| c_code := mg_code m;
     c_name := fillna (mg_name m) mapped_name;
     c_category := fillna (mg_category m) (mg_category_b m);
     score_selected := sel;
     score_compare := cmp;
     diff_abs := d;
     diff_pct := if negb (Qeq_bool cmp 0) then Some (d / cmp * 100) else None |}.

Definition compare_universities_df (df_md : list MetricsRow) (aff1 aff2 : string)
    (metric_col : MetricCol) : result (list ComparisonRow) :=
  let df1 := filter (fun r => (affiliation_name r =? aff1)%string) df_md in
  let df2 := filter (fun r => (affiliation_name r =? aff2)%string) df_md in
  let df := merge_outer metric_col df1 df2 in
  match map_name df2 (map mg_code df) with
  | Raise e => Raise e
  | Ok names => Ok (map (fun mn => finish_row (fst mn) (snd mn)) (combine df names))
  end.

(* ------------------------------------------------------------------ *)
(** ** The comparison of tab 5 *)

Record Summary : Type := {
  better : nat;
  worse : nat;
  equal : nat
}.

(** [(df["diff_abs"] > 0).sum()], [(... < 0).sum()], [(... == 0).sum()] *)
Definition summary_of (df : list ComparisonRow) : Summary :=
  {| better := count (fun r => Qgtb (diff_abs r) 0) df;
     worse := count (fun r => Qltb (diff_abs r) 0) df;
     equal := count (fun r => Qeq_bool (diff_abs r) 0) df |}.

(** [df_comp[df_comp["category"].isin(cat_filter)]], applied only when a
    filter was chosen. *)
Definition filter_category (cat_filter : list string) (df : list ComparisonRow)
  : list ComparisonRow :=
  match cat_filter with
  | [] => df
  | _ => filter (fun r => match c_category r with
                          | Some c => existsb (String.eqb c) cat_filter
                          | None => false
                          end) df
  end.

(** What the "Bandingkan" button computes: the comparison, the optional
    category filter, the sort on [|diff_abs|], the cut to [show_n] rows, and
    then the three counters over the rows that are left.  [upper] is
    [str.upper]. *)
Definition compare_tab (upper : string -> string) (K : sort_kind)
    (df_md : list MetricsRow) (aff_a aff_b : string)
    (metric_col : MetricCol) (cat_filter : list string) (show_n : nat)
  : result (Summary * list ComparisonRow) :=
  match compare_universities_df df_md (upper aff_a) (upper aff_b) metric_col with
  | Raise e => Raise e
  | Ok df_comp =>
      let df_comp := filter_category cat_filter df_comp in
      let df_comp := sort_values K (fun r => Qabs (diff_abs r)) false df_comp in
      let df_comp := firstn show_n df_comp in
      Ok (summary_of df_comp, df_comp)
  end.

(** The category-filtered comparison set before sorting and truncation. *)
Definition filtered_comparison (upper : string -> string) (df_md : list MetricsRow)
    (aff_a aff_b : string) (metric_col : MetricCol) (cat_filter : list string)
  : result (list ComparisonRow) :=
  match compare_universities_df df_md (upper aff_a) (upper aff_b) metric_col with
  | Raise e => Raise e
  | Ok df_comp => Ok (filter_category cat_filter df_comp)
  end.

(* ------------------------------------------------------------------ *)
(** ** Vocabulary of the properties, and example tables *)

(** The rank that the merge on [nama_afiliasi] attaches to a row: the rank of
    the first ranked row of the same name. *)
Definition rank_lookup (ranked : list (AffRow * nat)) (a : AffRow) : option nat :=
  option_map snd
    (find (fun p => (nama_afiliasi (fst p) =? nama_afiliasi a)%string) ranked).

(** Example tables. *)
Definition mk_aff (n : string) (s : Q) : AffRow :=
  {| nama_afiliasi := n; sinta_score_overall := s; sinta_score_3yr := 0 |}.

Definition example_affiliations : list AffRow :=
  [mk_aff "X" 100; mk_aff "Y" 90; mk_aff "Z" 90; mk_aff "W" 80].

(** The name and rank columns of the loaded affiliation table. *)
Definition names_and_ranks (df_af : list AffOut) : list (string * option nat) :=
  map (fun x => (nama_afiliasi (a_row x), rank_overall x)) df_af.

Definition example_eleven : list AffRow :=
  [mk_aff "U01" 50; mk_aff "U02" 120; mk_aff "U03" 110; mk_aff "U04" 100;
   mk_aff "U05" 95; mk_aff "U06" 90; mk_aff "U07" 85; mk_aff "U08" 80;
   mk_aff "U09" 75; mk_aff "U10" 70; mk_aff "U11" 65].

(** [df_detail[df_detail["nama_afiliasi"] == selected_affiliation]] *)
Definition rows_of (df_detail : list DetailCat) (selected_affiliation : string)
  : list DetailCat :=
  filter (fun r => (d_nama_afiliasi (d_row r) =? selected_affiliation)%string) df_detail.

Definition mk_detail (aff kd cat : string) (w v t : Q) : DetailRow :=
  {| d_nama_afiliasi := aff; kode := kd; nama := kd; kategori_score := cat;
     weight := w; value := v; total := t |}.

Definition example_ties : list DetailCat :=
  map add_category
    [mk_detail "U" "P1" "Score in Publication" 1 (1#2) (1#2);
     mk_detail "U" "P2" "Score in Publication" 1 (1#2) (1#2);
     mk_detail "U" "P3" "Score in Publication" 2 (3#10) (6#10)].

(** A record takes part in the aggregation when its raw category maps to a
    label. *)
Definition mapped (r : DetailCat) : bool :=
  match category r with Some _ => true | None => false end.

(** Records of affiliation [a] whose category is one of [cols]. *)
Definition in_columns (a : string) (cols : list Category) (r : DetailCat) : bool :=
  (d_nama_afiliasi (d_row r) =? a)%string
  && match category r with
     | Some c' => existsb (Category_eqb c') cols
     | None => false
     end.

Definition total_of (r : DetailCat) : Q := total (d_row r).

(** Records of affiliation [a] that take part in the aggregation. *)
Definition aggregated (a : string) (r : DetailCat) : bool :=
  (d_nama_afiliasi (d_row r) =? a)%string && mapped r.

Definition is_mapped (r : DetailRow) : bool :=
  match CATEGORY_LABELS (kategori_score r) with Some _ => true | None => false end.

Definition has_label (c : Category) (r : DetailRow) : bool :=
  match CATEGORY_LABELS (kategori_score r) with
  | Some c' => Category_eqb c' c
  | None => false
  end.

(** The records of affiliation [a] that carry a known category label. *)
Definition mapped_records_of (detail_kode : list DetailRow) (a : string) : list DetailRow :=
  filter (fun r => (d_nama_afiliasi r =? a)%string && is_mapped r) detail_kode.

(** The records of affiliation [a] in category [c]. *)
Definition records_in (detail_kode : list DetailRow) (a : string) (c : Category)
  : list DetailRow :=
  filter (fun r => (d_nama_afiliasi r =? a)%string && has_label c r) detail_kode.

Definition example_sparse : list DetailRow :=
  [mk_detail "U" "P1" "Score in Publication" 1 (1#2) (1#2);
   mk_detail "V" "X9" "Score in Other" 1 1 1].

Definition example_mixed : list DetailRow :=
  [mk_detail "U" "P1" "Score in Publication" 1 (1#2) (1#2);
   mk_detail "U" "X9" "Score in Other" 1 1 7;
   mk_detail "U" "H1" "Score in HKI" 2 (1#4) (1#2);
   mk_detail "V" "R1" "Score in Research" 3 1 3].

(** The index of a series grouped by category. *)
Definition category_keys {A : Type} (cat : A -> option Category) (df : list A)
  : list Category :=
  sorted_unique Category_eq_dec Category_leb
    (flat_map (fun r => match cat r with Some c => [c] | None => [] end) df).

(** The detail records of one affiliation, as the simulation sees them. *)
Definition df_aff_detail_of (detail_kode : list DetailRow) (selected_affiliation : string)
  : list DetailCat :=
  map add_category
      (filter (fun r => (d_nama_afiliasi r =? selected_affiliation)%string) detail_kode).

Definition example_simulation : list DetailRow :=
  [mk_detail "U" "P1" "Score in Publication" 2 (1#2) 1;
   mk_detail "U" "P2" "Score in Publication" 1 (19#20) (19#20);
   mk_detail "U" "H1" "Score in HKI" 4 (1#4) 1;
   mk_detail "V" "R1" "Score in Research" 3 1 3].

Definition example_inconsistent : list DetailRow :=
  [mk_detail "U" "P1" "Score in Publication" 2 (1#2) 5;
   mk_detail "U" "H1" "Score in HKI" 1 (1#2) (1#2)].

(** The codes of the records of one affiliation, in row order. *)
Definition codes_of (df_md : list MetricsRow) (aff : string) : list string :=
  map code (filter (fun r => (affiliation_name r =? aff)%string) df_md).

(** The rows that the outer join produces for one key. *)
Definition merge_group (metric_col : MetricCol) (df1 df2 : list MetricsRow) (k : string)
  : list MergedRow :=
  match filter (fun r => (code r =? k)%string) df1,
        filter (fun r => (code r =? k)%string) df2 with
  | [], rs => map (right_only metric_col) rs
  | ls, [] => map (left_only metric_col) ls
  | ls, rs => flat_map (fun a => map (both_sides metric_col a) rs) ls
  end.

(** What a merged row holds for each side of the join. *)
Definition selected_side (metric_col : MetricCol) (df1 : list MetricsRow) (m : MergedRow)
  : Prop :=
  (exists a, In a df1 /\ code a = mg_code m
             /\ mg_score_selected m = Some (metric metric_col a)
             /\ mg_name m = name a /\ mg_category m = area a)
  \/ (~ In (mg_code m) (map code df1)
      /\ mg_score_selected m = None /\ mg_name m = None /\ mg_category m = None).

Definition compare_side (metric_col : MetricCol) (df2 : list MetricsRow) (m : MergedRow)
  : Prop :=
  (exists b, In b df2 /\ code b = mg_code m
             /\ mg_score_compare m = Some (metric metric_col b)
             /\ mg_category_b m = area b)
  \/ (~ In (mg_code m) (map code df2)
      /\ mg_score_compare m = None /\ mg_category_b m = None).

(** [df_md[df_md["affiliation_name"] == aff]] *)
Definition rows_named (df_md : list MetricsRow) (aff : string) : list MetricsRow :=
  filter (fun r => (affiliation_name r =? aff)%string) df_md.

(** [name_map[c]] for a uniquely indexed [name_map]. *)
Definition name_of_code (df2 : list MetricsRow) (c : string) : option string :=
  match find (fun r => (code r =? c)%string) df2 with
  | Some r => name r
  | None => None
  end.

Definition mk_metric (aff cd : string) (ar : option string) (t : Q) : MetricsRow :=
  {| affiliation_name := aff; code := cd; name := Some cd; area := ar; m_weight := 1;
     sinta_v3_overall_value := t; sinta_v3_overall_total := t;
     sinta_v3_3yr_value := 0; sinta_v3_3yr_total := 0 |}.

Definition example_join : list MetricsRow :=
  [mk_metric "UA" "C1" (Some "Publikasi") 5;
   mk_metric "UA" "C2" (Some "Publikasi") 3;
   mk_metric "UB" "C2" (Some "Publikasi") 4;
   mk_metric "UB" "C3" (Some "Penelitian") 2].

Definition example_dup_selected : list MetricsRow :=
  [mk_metric "UA" "C1" (Some "Publikasi") 5;
   mk_metric "UA" "C1" (Some "Publikasi") 3].

(** A holds two records of code C1; B holds one record of C1 and one of C3. *)
Definition example_dup_join : list MetricsRow :=
  [mk_metric "UA" "C1" (Some "Publikasi") 5;
   mk_metric "UA" "C1" (Some "Publikasi") 3;
   mk_metric "UA" "C2" (Some "Publikasi") 1;
   mk_metric "UB" "C1" (Some "Publikasi") 4;
   mk_metric "UB" "C3" (Some "Penelitian") 2].

Definition example_dup_compare : list MetricsRow :=
  [mk_metric "UA" "C1" (Some "Publikasi") 5;
   mk_metric "UB" "C1" (Some "Publikasi") 4;
   mk_metric "UB" "C1" (Some "Publikasi") 2].

Definition example_eleven_metrics : list MetricsRow :=
  [mk_metric "UA" "C01" None 1; mk_metric "UA" "C02" None 2;
   mk_metric "UA" "C03" None 3; mk_metric "UA" "C04" None 4;
   mk_metric "UA" "C05" None 5; mk_metric "UA" "C06" None 6;
   mk_metric "UA" "C07" None 7; mk_metric "UA" "C08" None 8;
   mk_metric "UA" "C09" None 9; mk_metric "UA" "C10" None 10;
   mk_metric "UA" "C11" None 11].

(* ------------------------------------------------------------------ *)
(** ** The ranking chart of tab 1 *)

(** [plot_overall_ranking]: the [top_n] best rows by overall score, each with
    the flag that highlights the selected affiliation. *)
Definition plot_overall_ranking (K : sort_kind) (df_af : list AffOut)
    (selected_affiliation : string) (top_n : nat) : list (AffOut * bool) :=
  let df := firstn top_n
              (sort_values K (fun r => sinta_score_overall (a_row r)) false df_af) in
  map (fun r => (r, (nama_afiliasi (a_row r) =? selected_affiliation)%string)) df.

(* ------------------------------------------------------------------ *)
(** ** The category views of tab 2 *)

(** The outcome of a floating-point division of finite numbers: a division
    by zero gives an infinity or NaN, it does not raise.  A finite quotient
    is written as the exact one: its rounding is not part of the model, and
    what is stated of a quotient (its sign, a bound by 1) holds of the
    rounded quotient as well. *)
Inductive Float : Type :=
  | Finite (q : Q)
  | PosInf
  | NegInf
  | NaN.

Definition fdiv (x y : Q) : Float :=
  if Qeq_bool y 0 then
    if Qgtb x 0 then PosInf else if Qltb x 0 then NegInf else NaN
  else Finite (x / y).

Definition fmul (f : Float) (c : Q) : Float :=
  match f with
  | Finite q => Finite (q * c)
  | PosInf => if Qgtb c 0 then PosInf else if Qltb c 0 then NegInf else NaN
  | NegInf => if Qgtb c 0 then NegInf else if Qltb c 0 then PosInf else NaN
  | NaN => NaN
  end.

Fixpoint index_of (c : Category) (l : list Category) : nat :=
  match l with
  | [] => 0
  | x :: l' => if Category_eqb x c then 0 else S (index_of c l')
  end.

(** The code of a label in
    [pd.Categorical(..., categories=CATEGORY_ORDER, ordered=True)]. *)
Definition category_code (c : Category) : Q :=
  inject_Z (Z.of_nat (index_of c CATEGORY_ORDER)).

Record BreakdownRow : Type := {
  b_category : Category;
  b_total : Q;
  share_percent : Float
}.

(** [plot_category_breakdown]: [None] is the warning shown when the
    affiliation has no row in the pivot. *)
Definition plot_category_breakdown (K : sort_kind) (cat_pivot : Pivot)
    (selected_affiliation : string) : option (list BreakdownRow) :=
  if existsb (String.eqb selected_affiliation) (pv_index cat_pivot) then
    match pv_loc cat_pivot selected_affiliation with
    | None => None
    | Some row =>
        let df_cat := combine (pv_columns cat_pivot) row in
        let sum := Qsum (map snd df_cat) in
        Some (sort_values K (fun r => category_code (b_category r)) true
                (map (fun ct => {| b_category := fst ct;
                                   b_total := snd ct;
                                   share_percent := fmul (fdiv (snd ct) sum) 100 |})
                     df_cat))
    end
  else None.

Record CategoryRankRow : Type := {
  cr_nama_afiliasi : string;
  cr_total : Q;
  rank_in_category : nat
}.

(** [cat_pivot[[c]].reset_index()]: the index and one column. *)
Definition pivot_column (p : Pivot) (c : Category) : list (string * Q) :=
  flat_map (fun row =>
              match find (fun cv => Category_eqb (fst cv) c)
                         (combine (pv_columns p) (snd row)) with
              | Some cv => [(fst row, snd cv)]
              | None => []
              end) (pv_rows p).

(** [s.rank(ascending=False, method="min")]: one more than the number of
    strictly larger values. *)
Definition rank_min (s : list Q) (x : Q) : nat :=
  S (count (fun y => Qgtb y x) s).

(** The comparison of one category across affiliations: [None] is the
    message shown when the category is not a column of the pivot. *)
Definition compare_category (K : sort_kind) (cat_pivot : Pivot)
    (cat_to_compare : Category) : option (list CategoryRankRow) :=
  if existsb (Category_eqb cat_to_compare) (pv_columns cat_pivot) then
    let col := pivot_column cat_pivot cat_to_compare in
    let df_compare :=
      map (fun at_ => {| cr_nama_afiliasi := fst at_;
                         cr_total := snd at_;
                         rank_in_category := rank_min (map snd col) (snd at_) |}) col in
    let df_compare := sort_values K cr_total false df_compare in
    let top_k_cat := Nat.min 20 (List.length df_compare) in
    Some (firstn top_k_cat df_compare)
  else None.

(* ------------------------------------------------------------------ *)
(** ** The simulation table as displayed *)

(** [df_cat_sim.sort_values("category")] on the ordered categorical. *)
Definition sort_by_category (K : sort_kind) (df_cat_sim : list CatSimRow)
  : list CatSimRow :=
  sort_values K (fun r => category_code (cs_category r)) true df_cat_sim.

Definition simulation_table (K : sort_kind) (detail_kode : list DetailRow)
    (selected_affiliation : string) (sim_categories : list Category) (delta_value : Q)
  : SimOutcome :=
  match run_simulation detail_kode selected_affiliation sim_categories delta_value with
  | Simulated df_sim df_cat_sim => Simulated df_sim (sort_by_category K df_cat_sim)
  | other => other
  end.

(* ------------------------------------------------------------------ *)
(** ** Styling of the comparison table *)

Definition green : string := "background-color: #c6efce".
Definition red : string := "background-color: #ffc7ce".

(** The columns of [df_show]. *)
Definition df_show_columns : list string :=
  ["code"; "name"; "category"; "score_selected"; "score_compare"; "diff_abs";
   "diff_pct"].

(** [color_diff]: one style per column of the row. *)
Definition color_diff (row : ComparisonRow) : list string :=
  let diff := diff_abs row in
  let color := if Qgtb diff 0 then green
               else if Qltb diff 0 then red
               else EmptyString in
  map (fun col =>
         if existsb (String.eqb col)
                    ["score_selected"; "score_compare"; "diff_abs"; "diff_pct"]
         then color else EmptyString) df_show_columns.

(** The finite value of a share, 0 standing for a non-finite one. *)
(** The columns of the pivot in display order. *)
Definition columns_in_order (cols : list Category) : list Category :=
  filter (fun c => existsb (Category_eqb c) cols) CATEGORY_ORDER.

(** The summed [total] of the records of affiliation [a] in category [c]. *)
Definition group_total (df : list DetailCat) (a : string) (c : Category) : Q :=
  Qsum (map total_of (filter (in_group a c) df)).

(** The breakdown row of category [c] for affiliation [a]. *)
Definition breakdown_row (df : list DetailCat) (a : string) (cols : list Category)
    (c : Category) : BreakdownRow :=
  {| b_category := c;
     b_total := group_total df a c;
     share_percent :=
       fmul (fdiv (group_total df a c) (Qsum (map (group_total df a) cols))) 100 |}.

(** The comparison row of affiliation [a] in category [c]. *)
Definition category_rank_row (df : list DetailCat) (index : list string) (c : Category)
    (a : string) : CategoryRankRow :=
  {| cr_nama_afiliasi := a;
     cr_total := group_total df a c;
     rank_in_category :=
       rank_min (map (fun a' => group_total df a' c) index) (group_total df a c) |}.


(** The area and the score that the first record of code [c] carries. *)
Definition area_of_code (df : list MetricsRow) (c : string) : option string :=
  match find (fun r => (code r =? c)%string) df with
  | Some r => area r
  | None => None
  end.

Definition score_of_code (metric_col : MetricCol) (df : list MetricsRow) (c : string) : Q :=
  match find (fun r => (code r =? c)%string) df with
  | Some r => metric metric_col r
  | None => 0
  end.

(* ------------------------------------------------------------------ *)
(** ** The metrics-detail tab *)

Fixpoint drop_duplicates_from {A : Type} (eqb : A -> A -> bool) (seen l : list A)
  : list A :=
  match l with
  | [] => []
  | x :: l' =>
      if existsb (eqb x) seen then drop_duplicates_from eqb seen l'
      else x :: drop_duplicates_from eqb (x :: seen) l'
  end.

(** [df.drop_duplicates()]: the first occurrence of every row, in order. *)
Definition drop_duplicates {A : Type} (eqb : A -> A -> bool) (l : list A) : list A :=
  drop_duplicates_from eqb [] l.

Definition pair_eqb (x y : string * string) : bool :=
  (fst x =? fst y)%string && (snd x =? snd y)%string.

(** [code_cat_map[["code", "category"]]]: the distinct (kode, raw category)
    pairs of the detail sheet, with the label of the raw category. *)
Definition code_cat_map (df_detail : list DetailCat) : list (string * option Category) :=
  map (fun p => (fst p, CATEGORY_LABELS (snd p)))
      (drop_duplicates pair_eqb
         (map (fun r => (kode (d_row r), kategori_score (d_row r))) df_detail)).

Record MetricsCat : Type := {
  mc_row : MetricsRow;
  mc_category : option Category
}.

(** [df_md_aff.merge(code_cat_map[["code", "category"]], on="code", how="left")] *)
Definition merge_category (df_md_aff : list MetricsRow)
    (ccm : list (string * option Category)) : list MetricsCat :=
  flat_map (fun r =>
    match filter (fun e => (fst e =? code r)%string) ccm with
    | [] => [{| mc_row := r; mc_category := None |}]
    | ms => map (fun e => {| mc_row := r; mc_category := snd e |}) ms
    end) df_md_aff.

(** A sort on a column that may hold NaN: the rows with a value are sorted,
    the rows without one come last, in their input order. *)
Definition sort_values_na {A : Type} (K : sort_kind) (key : A -> option Q)
    (ascending : bool) (l : list A) : list A :=
  sort_values K (fun x => fillna0 (key x)) ascending
              (filter (fun x => match key x with Some _ => true | None => false end) l)
  ++ filter (fun x => match key x with Some _ => false | None => true end) l.

Record ShareRow : Type := {
  sh_row : MetricsCat;
  overall_share : Q
}.

Record RatioRow : Type := {
  rt_row : ShareRow;
  row_recent_ratio : option Q
}.

Record MetricsTab : Type := {
  total_overall : Q;
  total_3yr : Q;
  recent_ratio : option Q;
  df_md_aff : list ShareRow;
  top_overall : list ShareRow;
  recent_top : list RatioRow
}.

Definition overall_total_of (r : MetricsCat) : Q := sinta_v3_overall_total (mc_row r).
Definition total_3yr_of (r : MetricsCat) : Q := sinta_v3_3yr_total (mc_row r).

(** What tab 4 computes for the selected affiliation; [None] is the warning
    shown when the metrics-detail sheet has no row for it.  [upper] is
    [str.upper]. *)
Definition metrics_tab (upper : string -> string) (K : sort_kind)
    (df_md : list MetricsRow)
    (df_detail : list DetailCat) (selected_affiliation : string) : option MetricsTab :=
  let aff_upper := upper selected_affiliation in
  match filter (fun r => (affiliation_name r =? aff_upper)%string) df_md with
  | [] => None
  | rows =>
      let merged := merge_category rows (code_cat_map df_detail) in
      let total_overall := Qsum (map overall_total_of merged) in
      let total_3yr := Qsum (map total_3yr_of merged) in
      let with_share :=
        map (fun r => {| sh_row := r;
                         overall_share := overall_total_of r / Qmax total_overall 1 |})
            merged in
      let with_ratio :=
        map (fun r => {| rt_row := r;
                         row_recent_ratio :=
                           if Qgtb (overall_total_of (sh_row r)) 0
                           then Some (total_3yr_of (sh_row r)
                                      / overall_total_of (sh_row r))
                           else None |}) with_share in
      Some {| total_overall := total_overall;
              total_3yr := total_3yr;
              recent_ratio := if Qgtb total_overall 0
                              then Some (total_3yr / total_overall * 100) else None;
              df_md_aff := with_share;
              top_overall :=
                firstn 15 (sort_values K (fun r => overall_total_of (sh_row r)) false
                                       with_share);
              recent_top :=
                firstn 15
                  (sort_values_na K row_recent_ratio false
                     (filter (fun r => Qgtb (total_3yr_of (sh_row (rt_row r))) 0)
                             with_ratio)) |}
  end.

(* ------------------------------------------------------------------ *)
(** ** Default selections *)

Definition BINUS : string := "Universitas Bina Nusantara".

(** [sorted(df_af["nama_afiliasi"].unique().tolist())] *)
Definition affiliations (df_af : list AffOut) : list string :=
  sorted_unique string_dec String.leb (map (fun r => nama_afiliasi (a_row r)) df_af).

(** [l.index(x)] when [x in l]. *)
Fixpoint list_index (x : string) (l : list string) : option nat :=
  match l with
  | [] => None
  | y :: l' => if (y =? x)%string then Some 0%nat
               else option_map S (list_index x l')
  end.

Definition default_aff (affiliations : list string) : nat :=
  match list_index BINUS affiliations with
  | Some i => i
  | None => 0
  end.

Definition default_b_idx (affiliations : list string) : nat :=
  match list_index BINUS affiliations with
  | Some idx_binus => Nat.max 0 (idx_binus - 1)
  | None => 0
  end.

(** The per-row recent ratio of tab 4. *)
Definition with_recent_ratio (r : ShareRow) : RatioRow :=
  {| rt_row := r;
     row_recent_ratio :=
       if Qgtb (overall_total_of (sh_row r)) 0
       then Some (total_3yr_of (sh_row r) / overall_total_of (sh_row r))
       else None |}.

(** The order in which a descending sort with NaN last leaves two keys. *)
Definition na_order (kx ky : option Q) : Prop :=
  match kx, ky with
  | Some a, Some b => b <= a
  | None, Some _ => False
  | _, None => True
  end.

Definition mk_recent (aff cd : string) (overall recent : Q) : MetricsRow :=
  {| affiliation_name := aff; code := cd; name := Some cd; area := None; m_weight := 1;
     sinta_v3_overall_value := overall; sinta_v3_overall_total := overall;
     sinta_v3_3yr_value := recent; sinta_v3_3yr_total := recent |}.

(** Four indicators of UB: ratios 1/2 and 1, one indicator without an
    overall total, and one without a 3-year total. *)
Definition example_recent : list MetricsRow :=
  [mk_recent "UB" "C1" 10 5;
   mk_recent "UB" "C2" 0 2;
   mk_recent "UB" "C3" 4 4;
   mk_recent "UB" "C4" 3 0].

Definition example_with_binus : list AffRow :=
  [mk_aff "Universitas Indonesia" 100;
   mk_aff "Universitas Bina Nusantara" 90;
   mk_aff "Institut Teknologi Bandung" 95].

(** An affiliation whose labelled records all have total 0. *)
Definition example_zero : list DetailRow :=
  [mk_detail "U" "P1" "Score in Publication" 1 0 0;
   mk_detail "U" "H1" "Score in HKI" 2 0 0].

(** Two indicators of UA whose overall totals add up to less than 1. *)
Definition example_small : list MetricsRow :=
  [mk_metric "UA" "C1" (Some "Publikasi") (1#4);
   mk_metric "UA" "C2" (Some "Publikasi") (1#2)].

Definition example_cluster_detail : list DetailRow :=
  [mk_detail "U" "C1" "Score in Publication" 1 (1#2) (1#2);
   mk_detail "V" "C1" "Score in Publication" 1 (1#4) (1#4);
   mk_detail "U" "C2" "Score in HKI" 2 (1#2) 1].

(* ------------------------------------------------------------------ *)
(** ** The aggregation as the library sums it *)

(** The numbers of a workbook are binary64 numbers and [sum()] adds them in
    binary64: every addition is rounded, so that the outcome depends on the
    order of the additions and on the summation algorithm, and need not be
    the exact sum [Qsum].  [groupby_sum_with ssum] is the aggregation of
    [load_cluster_data] with the summation [ssum] in the place of the exact
    sum; [groupby_sum] and [cat_pivot_of] are its instances at [Qsum]. *)
Definition groupby_sum_with (ssum : list Q -> Q) (df : list DetailCat)
  : list ((string * Category) * Q) :=
  map (fun k => (k, ssum (map (fun r => total (d_row r))
                              (filter (in_group (fst k) (snd k)) df))))
      (group_keys df).

Definition cat_pivot_with (ssum : list Q -> Q) (df_detail : list DetailCat) : Pivot :=
  unstack (groupby_sum_with ssum df_detail) 0.

(** The cell of a group: the sum of its totals, or the fill value of
    [unstack] when the group has no record. *)
Definition group_cell (ssum : list Q -> Q) (g : list Q) : Q :=
  match g with
  | [] => 0
  | _ => ssum g
  end.

(** The rational number that a finite binary64 number stands for. *)
Definition SF2Q (x : SpecFloat.spec_float) : Q :=
  match x with
  | SpecFloat.S754_finite s m e =>
      let q := match e with
               | Z0 => inject_Z (Zpos m)
               | Zpos p => inject_Z (Zpos m * 2 ^ Zpos p)
               | Zneg p => Qmake (Zpos m) (2 ^ p)
               end in
      if s then Qopp q else q
  | _ => 0
  end.

Definition F2Q (x : PrimFloat.float) : Q := Qred (SF2Q (FloatOps.Prim2SF x)).

Definition Z2F (z : Z) : PrimFloat.float :=
  match z with
  | Z0 => PrimFloat.zero
  | Zpos p => PrimFloat.of_uint63 (Uint63.of_Z (Zpos p))
  | Zneg p => PrimFloat.opp (PrimFloat.of_uint63 (Uint63.of_Z (Zpos p)))
  end.

(** The binary64 number nearest to a rational whose numerator and denominator
    are binary64 numbers below [2^63], the division being then the only
    rounding.  A binary64 number [m / 2^k] with [k < 63] is mapped to
    itself. *)
Definition Q2F (q : Q) : PrimFloat.float :=
  PrimFloat.div (Z2F (Qnum q)) (Z2F (Zpos (Qden q))).

(** A number as a cell of the workbook holds it. *)
Definition b64 (q : Q) : Q := F2Q (Q2F q).

(** [sum()] in binary64, adding from left to right. *)
Definition sum64 (l : list Q) : Q :=
  F2Q (fold_left PrimFloat.add (map Q2F l) PrimFloat.zero).

(** [sum()] in binary64 with Kahan's compensation, the summation of the
    grouped sums in recent versions of the library. *)
Definition kahan_step (st : PrimFloat.float * PrimFloat.float) (val : PrimFloat.float)
  : PrimFloat.float * PrimFloat.float :=
  let y := PrimFloat.sub val (snd st) in
  let t := PrimFloat.add (fst st) y in
  (t, PrimFloat.sub (PrimFloat.sub t (fst st)) y).

Definition kahan64 (l : list Q) : Q :=
  F2Q (fst (fold_left kahan_step (map Q2F l) (PrimFloat.zero, PrimFloat.zero))).

(** The unit roundoff of binary64, [2^-53]. *)
Definition unit_roundoff : Q := 1 # 9007199254740992.

(** Totals 0.1 and 0.4 in Publication and 0.2 in HKI, as binary64 numbers. *)
Definition example_rounding : list DetailRow :=
  [mk_detail "U" "P1" "Score in Publication" 1 (b64 (1#10)) (b64 (1#10));
   mk_detail "U" "H1" "Score in HKI" 1 (b64 (2#10)) (b64 (2#10));
   mk_detail "U" "P2" "Score in Publication" 1 (b64 (4#10)) (b64 (4#10))].

(** Totals whose binary64 sums are exact. *)
Definition example_dyadic : list DetailRow :=
  [mk_detail "U" "P1" "Score in Publication" 1 (1#2) (1#2);
   mk_detail "U" "P2" "Score in Publication" 1 (1#4) (1#4);
   mk_detail "U" "X9" "Score in Other" 1 1 7;
   mk_detail "U" "H1" "Score in HKI" 1 (1#8) (1#8)].

(* ------------------------------------------------------------------ *)
(** * Properties *)

(** ** Insertion sort and the two concrete sort kinds *)

Section InsertionSort.
Context {A : Type}.
Variable leb : A -> A -> bool.

Lemma insert_by_perm (x : A) (l : list A) :
  Permutation (insert_by leb x l) (x :: l).
Proof.
  induction l as [|y l IH]; simpl.
  - apply Permutation_refl.
  - destruct (leb x y).
    + apply Permutation_refl.
    + rewrite IH. apply perm_swap.
Qed.

Lemma isort_perm (l : list A) : Permutation (isort leb l) l.
Proof.
  induction l as [|x l IH]; simpl.
  - constructor.
  - rewrite insert_by_perm. now constructor.
Qed.

Variable R : A -> A -> Prop.
Hypothesis R_trans : forall x y z, R x y -> R y z -> R x z.
Hypothesis leb_true : forall x y, leb x y = true -> R x y.
Hypothesis leb_false : forall x y, leb x y = false -> R y x.

Lemma insert_by_sorted (x : A) (l : list A) :
  StronglySorted R l -> StronglySorted R (insert_by leb x l).
Proof.
  induction 1 as [|y l Hs IH Hy]; simpl.
  - repeat constructor.
  - destruct (leb x y) eqn:E.
    + constructor; [now constructor|].
      constructor; [now apply leb_true|].
      eapply Forall_impl; [|exact Hy].
      intros z Hz. eapply R_trans; [apply leb_true; exact E | exact Hz].
    + constructor; [exact IH|].
      eapply Permutation_Forall; [symmetry; apply insert_by_perm|].
      constructor; [now apply leb_false | exact Hy].
Qed.

Lemma isort_sorted (l : list A) : StronglySorted R (isort leb l).
Proof.
  induction l as [|x l IH]; simpl.
  - constructor.
  - now apply insert_by_sorted.
Qed.
End InsertionSort.

Lemma Qle_bool_false (x y : Q) : Qle_bool x y = false -> y <= x.
Proof.
  intros H. destruct (Qlt_le_dec y x) as [Hlt|Hle].
  - now apply Qlt_le_weak.
  - apply Qle_bool_iff in Hle. congruence.
Qed.

Lemma Qle_bool_false_lt (x y : Q) : Qle_bool x y = false -> y < x.
Proof.
  intros H. destruct (Qlt_le_dec y x) as [Hlt|Hle]; [exact Hlt|].
  apply Qle_bool_iff in Hle. congruence.
Qed.

Lemma stable_sort_sorted {A : Type} (key : A -> Q) (l : list A) :
  StronglySorted (fun x y => key x <= key y) (stable_sort key l).
Proof.
  apply isort_sorted.
  - intros x y z. apply Qle_trans.
  - intros x y H. now apply Qle_bool_iff.
  - intros x y H. now apply Qle_bool_false.
Qed.

Lemma reversing_sort_sorted {A : Type} (key : A -> Q) (l : list A) :
  StronglySorted (fun x y => key x <= key y) (reversing_sort key l).
Proof.
  apply isort_sorted.
  - intros x y z. apply Qle_trans.
  - intros x y H. unfold leb_reversing, Qltb in H.
    apply negb_true_iff in H. now apply Qle_bool_false.
  - intros x y H. unfold leb_reversing, Qltb in H.
    apply negb_false_iff in H. now apply Qle_bool_iff.
Qed.

(** The stable kind: ties keep their input order. *)
Definition stable_kind : sort_kind :=
  {| ksort := fun A key l => stable_sort key l;
     ksort_perm := fun A key l => isort_perm (leb_stable key) l;
     ksort_sorted := fun A key l => stable_sort_sorted key l |}.

(** A kind that is as legitimate for the library contract, and reverses
    ties. *)
Definition reversing_kind : sort_kind :=
  {| ksort := fun A key l => reversing_sort key l;
     ksort_perm := fun A key l => isort_perm (leb_reversing key) l;
     ksort_sorted := fun A key l => reversing_sort_sorted key l |}.

Lemma Qeq_bool_key_ne (x y q : Q) : Qeq_bool x q = true -> y < x -> Qeq_bool y q = false.
Proof.
  intros Hx Hlt. apply Qeq_bool_iff in Hx.
  destruct (Qeq_bool y q) eqn:E; [|reflexivity].
  apply Qeq_bool_iff in E. rewrite Hx, E in Hlt. now apply Qlt_irrefl in Hlt.
Qed.

Lemma insert_stable_filter {A : Type} (key : A -> Q) (q : Q) (x : A) (l : list A) :
  filter (fun z => Qeq_bool (key z) q) (insert_by (leb_stable key) x l)
  = filter (fun z => Qeq_bool (key z) q) (x :: l).
Proof.
  induction l as [|y l IH]; [reflexivity|].
  cbn [insert_by]. unfold leb_stable at 1.
  destruct (Qle_bool (key x) (key y)) eqn:E; [reflexivity|].
  apply Qle_bool_false_lt in E.
  cbn [filter] in *. rewrite IH.
  destruct (Qeq_bool (key x) q) eqn:Ex; [|reflexivity].
  now rewrite (Qeq_bool_key_ne _ _ _ Ex E).
Qed.

Lemma stable_kind_stable : stable stable_kind.
Proof.
  intros A key l q. cbn [ksort stable_kind]. unfold stable_sort.
  induction l as [|x l IH]; [reflexivity|].
  cbn [isort fold_right]. fold (isort (leb_stable key) l).
  rewrite insert_stable_filter. cbn [filter]. now rewrite IH.
Qed.

(** ** Facts about [sort_values] *)

Lemma sort_values_perm {A : Type} (K : sort_kind) (key : A -> Q) (asc : bool)
    (l : list A) :
  Permutation (sort_values K key asc l) l.
Proof.
  unfold sort_values. destruct asc.
  - apply ksort_perm.
  - rewrite <- Permutation_rev, ksort_perm. symmetry. apply Permutation_rev.
Qed.

Lemma sort_values_length {A : Type} (K : sort_kind) (key : A -> Q) (asc : bool)
    (l : list A) :
  List.length (sort_values K key asc l) = List.length l.
Proof. apply Permutation_length, sort_values_perm. Qed.

Lemma StronglySorted_app_inv {A : Type} (R : A -> A -> Prop) (l1 l2 : list A) :
  StronglySorted R l1 -> StronglySorted R l2 ->
  (forall x y, In x l1 -> In y l2 -> R x y) ->
  StronglySorted R (l1 ++ l2).
Proof.
  induction 1 as [|x l1 Hs IH Hx]; intros H2 Hc; simpl; [exact H2|].
  constructor.
  - apply IH; [exact H2|]. intros a b Ha Hb. apply Hc; [now right | exact Hb].
  - apply Forall_app. split; [exact Hx|].
    apply Forall_forall. intros y Hy. apply Hc; [now left | exact Hy].
Qed.

Lemma StronglySorted_rev {A : Type} (R : A -> A -> Prop) (l : list A) :
  StronglySorted R l -> StronglySorted (fun x y => R y x) (rev l).
Proof.
  induction 1 as [|x l Hs IH Hx]; simpl; [constructor|].
  apply StronglySorted_app_inv; [exact IH | repeat constructor |].
  intros a b Ha [Hb|[]]. subst b.
  apply in_rev in Ha. rewrite Forall_forall in Hx. now apply Hx.
Qed.

Lemma sort_values_descending {A : Type} (K : sort_kind) (key : A -> Q) (l : list A) :
  StronglySorted (fun x y => key y <= key x) (sort_values K key false l).
Proof.
  unfold sort_values.
  apply (StronglySorted_rev (fun x y => key x <= key y)), ksort_sorted.
Qed.

Lemma sort_values_stable {A : Type} (K : sort_kind) (key : A -> Q) (q : Q) (l : list A) :
  stable K ->
  filter (fun x => Qeq_bool (key x) q) (sort_values K key false l)
  = filter (fun x => Qeq_bool (key x) q) l.
Proof.
  intros HK. unfold sort_values.
  rewrite filter_rev, HK, filter_rev. apply rev_involutive.
Qed.

Lemma StronglySorted_nth_error {A : Type} (R : A -> A -> Prop) (l : list A) :
  StronglySorted R l ->
  forall i j x y, (i < j)%nat -> nth_error l i = Some x -> nth_error l j = Some y ->
                  R x y.
Proof.
  induction 1 as [|a l Hs IH Ha]; intros i j x y Hij Hi Hj.
  - destruct i; discriminate.
  - destruct j as [|j]; [lia|]. cbn in Hj.
    destruct i as [|i]; cbn in Hi.
    + injection Hi as ->. rewrite Forall_forall in Ha.
      apply Ha. eapply nth_error_In; eassumption.
    + eapply IH; [|eassumption|eassumption]. lia.
Qed.

(** Row order survives a filter. *)
Lemma filter_keeps_order {A : Type} (p : A -> bool) (l : list A) (i j : nat) (x y : A) :
  (i < j)%nat -> nth_error l i = Some x -> nth_error l j = Some y ->
  p x = true -> p y = true ->
  exists i' j', (i' < j')%nat /\ nth_error (filter p l) i' = Some x
                /\ nth_error (filter p l) j' = Some y.
Proof.
  revert i j. induction l as [|a l IH]; intros i j Hij Hi Hj Hx Hy.
  - destruct i; discriminate.
  - destruct j as [|j]; [lia|]. cbn in Hj.
    destruct i as [|i]; cbn in Hi.
    + injection Hi as ->. cbn. rewrite Hx.
      assert (Hin : In y (filter p l)).
      { apply filter_In. split; [eapply nth_error_In; eassumption | exact Hy]. }
      apply In_nth_error in Hin. destruct Hin as [n Hn].
      exists 0%nat, (S n). repeat split; [lia | exact Hn].
    + destruct (IH i j) as (i' & j' & Hlt & Hi' & Hj'); try assumption; [lia|].
      cbn. destruct (p a).
      * exists (S i'), (S j'). repeat split; [lia | exact Hi' | exact Hj'].
      * exists i', j'. repeat split; assumption.
Qed.

Lemma NoDup_order_unique {A : Type} (l : list A) (i j i' j' : nat) (x y : A) :
  NoDup l -> (i < j)%nat ->
  nth_error l i = Some x -> nth_error l j = Some y ->
  nth_error l i' = Some y -> nth_error l j' = Some x ->
  (j' < i')%nat.
Proof.
  intros Hnd Hij Hi Hj Hi' Hj'.
  pose proof (proj1 (NoDup_nth_error l) Hnd) as Hinj.
  assert (i = j').
  { apply Hinj; [apply nth_error_Some; congruence | congruence]. }
  assert (j = i').
  { apply Hinj; [apply nth_error_Some; congruence | congruence]. }
  lia.
Qed.

(** ** Ranking: the merge of the ranks back into [df_af] *)

Lemma filter_none {A : Type} (p : A -> bool) (l : list A) :
  (forall x, In x l -> p x = false) -> filter p l = [].
Proof.
  induction l as [|a l IH]; intros H; [reflexivity|].
  cbn. rewrite (H a (or_introl eq_refl)). apply IH.
  intros x Hx. apply H. now right.
Qed.

Lemma filter_unique_name (ranked : list (AffRow * nat)) (p : AffRow * nat) :
  NoDup (map (fun q => nama_afiliasi (fst q)) ranked) -> In p ranked ->
  filter (fun q => (nama_afiliasi (fst q) =? nama_afiliasi (fst p))%string) ranked = [p]
  /\ find (fun q => (nama_afiliasi (fst q) =? nama_afiliasi (fst p))%string) ranked
     = Some p.
Proof.
  induction ranked as [|q l IH]; intros Hnd Hin; [destruct Hin|].
  cbn [map] in Hnd. apply NoDup_cons_iff in Hnd. destruct Hnd as [Hq Hnd].
  cbn [filter find]. destruct Hin as [->|Hin].
  - rewrite String.eqb_refl. split; [|reflexivity]. f_equal.
    apply filter_none. intros r Hr.
    destruct (String.eqb_spec (nama_afiliasi (fst r)) (nama_afiliasi (fst p)))
      as [E|E]; [|reflexivity].
    exfalso. apply Hq. rewrite <- E.
    apply (in_map (fun q => nama_afiliasi (fst q))). exact Hr.
  - destruct (String.eqb_spec (nama_afiliasi (fst q)) (nama_afiliasi (fst p)))
      as [E|E].
    + exfalso. apply Hq. rewrite E.
      apply (in_map (fun q => nama_afiliasi (fst q))). exact Hin.
    + now apply IH.
Qed.

Lemma merge_rank_cons (a : AffRow) (l : list AffRow) (ranked : list (AffRow * nat)) :
  merge_rank (a :: l) ranked
  = match filter (fun p => (nama_afiliasi (fst p) =? nama_afiliasi a)%string) ranked with
    | [] => [(a, None)]
    | ms => map (fun p => (a, Some (snd p))) ms
    end ++ merge_rank l ranked.
Proof. reflexivity. Qed.

Lemma merge_rank_eq (ranked : list (AffRow * nat)) (l : list AffRow) :
  NoDup (map (fun q => nama_afiliasi (fst q)) ranked) ->
  (forall a, In a l -> In a (map fst ranked)) ->
  merge_rank l ranked = map (fun a => (a, rank_lookup ranked a)) l.
Proof.
  intros Hnd.
  induction l as [|a l IH]; intros Hin; [reflexivity|].
  rewrite merge_rank_cons, IH by (intros b Hb; apply Hin; now right).
  destruct (proj1 (in_map_iff _ _ _) (Hin a (or_introl eq_refl))) as (p & Hp & Hpin).
  destruct (filter_unique_name ranked p Hnd Hpin) as [Hf Hfind].
  rewrite Hp in Hf, Hfind. unfold rank_lookup. cbn [map].
  rewrite Hf, Hfind. reflexivity.
Qed.

Lemma in_combine_seq {A : Type} (l : list A) (st k : nat) (a : A) :
  In (a, k) (combine l (seq st (List.length l))) ->
  (st <= k)%nat /\ nth_error l (k - st) = Some a.
Proof.
  revert st. induction l as [|b l IH]; intros st H; [destruct H|].
  cbn in H. destruct H as [H|H].
  - injection H as -> ->. rewrite Nat.sub_diag. now split.
  - apply IH in H. destruct H as [Hle Hn]. split; [lia|].
    replace (k - st)%nat with (S (k - S st)) by lia. exact Hn.
Qed.

Lemma combine_seq_in {A : Type} (l : list A) (st i : nat) (a : A) :
  nth_error l i = Some a -> In (a, (st + i)%nat) (combine l (seq st (List.length l))).
Proof.
  revert st i. induction l as [|b l IH]; intros st i H; [destruct i; discriminate|].
  destruct i as [|i]; cbn in H |- *.
  - injection H as ->. left. f_equal. lia.
  - right. replace (st + S i)%nat with (S st + i)%nat by lia. now apply IH.
Qed.

Section Ranking.
Variable K : sort_kind.
Variable afiliasi : list AffRow.
Hypothesis names_unique : NoDup (map nama_afiliasi afiliasi).

Let sorted : list AffRow := sort_values K sinta_score_overall false afiliasi.
Let ranked : list (AffRow * nat) := af_ranked K afiliasi.

Lemma sorted_perm : Permutation sorted afiliasi.
Proof. apply sort_values_perm. Qed.

Lemma sorted_names_unique : NoDup (map nama_afiliasi sorted).
Proof.
  eapply Permutation_NoDup; [|exact names_unique].
  symmetry. apply Permutation_map, sorted_perm.
Qed.

Lemma ranked_fst : map fst ranked = sorted.
Proof.
  unfold ranked, af_ranked. fold sorted.
  generalize 1%nat. induction sorted as [|a l IH]; intros st; [reflexivity|].
  cbn. now rewrite IH.
Qed.

Lemma ranked_names_unique : NoDup (map (fun q => nama_afiliasi (fst q)) ranked).
Proof.
  rewrite <- (map_map fst nama_afiliasi), ranked_fst. apply sorted_names_unique.
Qed.

Lemma name_injective (a b : AffRow) :
  In a afiliasi -> In b afiliasi -> nama_afiliasi a = nama_afiliasi b -> a = b.
Proof.
  intros Ha Hb E.
  apply In_nth_error in Ha. destruct Ha as [i Hi].
  apply In_nth_error in Hb. destruct Hb as [j Hj].
  assert (i = j).
  { apply (proj1 (NoDup_nth_error _) names_unique).
    - rewrite length_map. apply nth_error_Some. congruence.
    - rewrite !nth_error_map, Hi, Hj. cbn. now rewrite E. }
  subst j. congruence.
Qed.

Lemma merged_eq :
  merge_rank afiliasi ranked = map (fun a => (a, rank_lookup ranked a)) afiliasi.
Proof.
  apply merge_rank_eq; [apply ranked_names_unique|].
  intros a Ha. rewrite ranked_fst.
  eapply Permutation_in; [symmetry; apply sorted_perm | exact Ha].
Qed.

(** The rank of a row is its 1-based position in the sorted table. *)
Lemma rank_lookup_position (a : AffRow) (k : nat) :
  In a afiliasi ->
  (rank_lookup ranked a = Some k <-> (1 <= k)%nat /\ nth_error sorted (k - 1) = Some a).
Proof.
  intros Ha. unfold rank_lookup. split.
  - intros H.
    destruct (find _ ranked) as [[b kb]|] eqn:F; [|discriminate].
    cbn in H. injection H as ->.
    apply find_some in F. destruct F as [Hin E]. cbn in E.
    apply String.eqb_eq in E.
    assert (b = a).
    { apply name_injective; [|exact Ha|exact E].
      eapply Permutation_in; [apply sorted_perm|].
      rewrite <- ranked_fst. apply (in_map fst) in Hin. exact Hin. }
    subst b. unfold ranked, af_ranked in Hin. fold sorted in Hin.
    now apply in_combine_seq in Hin.
  - intros [Hk Hn].
    assert (Hin : In (a, k) ranked).
    { unfold ranked, af_ranked. fold sorted.
      replace k with (1 + (k - 1))%nat at 1 by lia. now apply combine_seq_in. }
    destruct (filter_unique_name ranked (a, k) ranked_names_unique Hin) as [_ F].
    cbn [fst] in F. rewrite F. reflexivity.
Qed.

Lemma rank_lookup_defined (a : AffRow) :
  In a afiliasi -> exists k, rank_lookup ranked a = Some k.
Proof.
  intros Ha.
  assert (Hs : In a sorted).
  { eapply Permutation_in; [symmetry; apply sorted_perm | exact Ha]. }
  apply In_nth_error in Hs. destruct Hs as [i Hi].
  exists (S i). apply rank_lookup_position; [exact Ha|].
  split; [lia|]. now replace (S i - 1)%nat with i by lia.
Qed.

Lemma ranks_of_sorted :
  map (rank_lookup ranked) sorted = map Some (seq 1 (List.length sorted)).
Proof.
  apply nth_error_ext. intros i.
  rewrite !nth_error_map, nth_error_seq.
  destruct (nth_error sorted i) as [a|] eqn:E; cbn [option_map].
  - assert (Hlt : (i < List.length sorted)%nat) by (apply nth_error_Some; congruence).
    apply Nat.ltb_lt in Hlt. rewrite Hlt. cbn [option_map]. f_equal.
    apply rank_lookup_position.
    + eapply Permutation_in; [apply sorted_perm|]. eapply nth_error_In; eassumption.
    + split; [lia|]. now replace (1 + i - 1)%nat with i by lia.
  - apply nth_error_None in E. apply Nat.ltb_ge in E. now rewrite E.
Qed.

End Ranking.

(** The shape of what [load_cluster_data] returns for the affiliation table. *)
Lemma load_cluster_data_rows (K : sort_kind) (afiliasi : list AffRow)
    (detail_kode : list DetailRow) :
  NoDup (map nama_afiliasi afiliasi) ->
  let thr := nth 9 (map sinta_score_overall
                        (sort_values K sinta_score_overall false afiliasi)) 0 in
  loaded_df_af (load_cluster_data K afiliasi detail_kode)
  = map (fun a =>
           {| a_row := a;
              rank_overall := rank_lookup (af_ranked K afiliasi) a;
              gap_to_top10 :=
                if (10 <=? List.length afiliasi)%nat
                then Some (if rank_le_10 (rank_lookup (af_ranked K afiliasi) a) then 0
                           else thr - sinta_score_overall a)
                else None |}) afiliasi
  /\ loaded_top10_threshold (load_cluster_data K afiliasi detail_kode)
     = if (10 <=? List.length afiliasi)%nat then Some thr else None.
Proof.
  intros Hnd thr. unfold load_cluster_data.
  rewrite (merged_eq K afiliasi Hnd).
  assert (Hlen : List.length (af_ranked K afiliasi) = List.length afiliasi).
  { rewrite <- (length_map fst), ranked_fst. apply sort_values_length. }
  assert (Hthr : map (fun p : AffRow * nat => sinta_score_overall (fst p))
                     (af_ranked K afiliasi)
                 = map sinta_score_overall
                       (sort_values K sinta_score_overall false afiliasi)).
  { rewrite <- (map_map fst sinta_score_overall), ranked_fst. reflexivity. }
  rewrite Hlen, Hthr. fold thr.
  destruct (10 <=? List.length afiliasi)%nat;
    unfold loaded_df_af, loaded_top10_threshold; cbn [fst snd];
    rewrite map_map; split; reflexivity.
Qed.

Lemma load_cluster_data_row_in (K : sort_kind) (afiliasi : list AffRow)
    (detail_kode : list DetailRow) (x : AffOut) :
  NoDup (map nama_afiliasi afiliasi) ->
  In x (loaded_df_af (load_cluster_data K afiliasi detail_kode)) ->
  In (a_row x) afiliasi
  /\ rank_overall x = rank_lookup (af_ranked K afiliasi) (a_row x)
  /\ gap_to_top10 x =
       if (10 <=? List.length afiliasi)%nat
       then Some (if rank_le_10 (rank_overall x) then 0
                  else nth 9 (map sinta_score_overall
                                  (sort_values K sinta_score_overall false afiliasi)) 0
                       - sinta_score_overall (a_row x))
       else None.
Proof.
  intros Hnd Hin.
  rewrite (proj1 (load_cluster_data_rows K afiliasi detail_kode Hnd)) in Hin.
  apply in_map_iff in Hin. destruct Hin as (a & <- & Ha). cbn. auto.
Qed.

(* ------------------------------------------------------------------ *)
(** ** Ranking engine *)

Ltac solve_NoDup :=
  repeat (apply NoDup_cons; [cbn; intuition discriminate|]); apply NoDup_nil.

(** C3 (as amended).  For a table of N affiliations with pairwise distinct
    names, [load_cluster_data] keeps the rows in input order and gives them
    ranks that are a bijection onto 1..N, a smaller rank never going with a
    smaller overall score.  Rows with equal scores are ranked in input order
    whenever the sort behind [sort_values] is stable; with the stable kind
    the table X=100, Y=90, Z=90, W=80 gets ranks 1, 2, 3, 4. *)
Theorem rank_overall_bijection (K : sort_kind) (afiliasi : list AffRow)
    (detail_kode : list DetailRow) :
  NoDup (map nama_afiliasi afiliasi) ->
  map a_row (loaded_df_af (load_cluster_data K afiliasi detail_kode)) = afiliasi
  /\ Permutation
       (map rank_overall (loaded_df_af (load_cluster_data K afiliasi detail_kode)))
       (map Some (seq 1 (List.length afiliasi)))
  /\ (forall x y kx ky,
        In x (loaded_df_af (load_cluster_data K afiliasi detail_kode)) ->
        In y (loaded_df_af (load_cluster_data K afiliasi detail_kode)) ->
        rank_overall x = Some kx -> rank_overall y = Some ky -> (kx < ky)%nat ->
        sinta_score_overall (a_row y) <= sinta_score_overall (a_row x))
  /\ (stable K ->
      forall i j x y,
        (i < j)%nat ->
        nth_error (loaded_df_af (load_cluster_data K afiliasi detail_kode)) i = Some x ->
        nth_error (loaded_df_af (load_cluster_data K afiliasi detail_kode)) j = Some y ->
        sinta_score_overall (a_row x) == sinta_score_overall (a_row y) ->
        exists kx ky,
          rank_overall x = Some kx /\ rank_overall y = Some ky /\ (kx < ky)%nat)
  /\ names_and_ranks
       (loaded_df_af (load_cluster_data stable_kind example_affiliations detail_kode))
     = [("X", Some 1%nat); ("Y", Some 2%nat); ("Z", Some 3%nat); ("W", Some 4%nat)].
Proof.
  intros Hnd.
  pose proof (load_cluster_data_rows K afiliasi detail_kode Hnd) as [Hrows _].
  cbv zeta in Hrows.
  split; [|split; [|split; [|split]]].
  - rewrite Hrows, map_map. cbn [a_row]. apply map_id.
  - rewrite Hrows, map_map. cbn [rank_overall].
    rewrite <- (sort_values_length K sinta_score_overall false afiliasi).
    rewrite <- (ranks_of_sorted K afiliasi Hnd).
    apply Permutation_map. symmetry. apply sort_values_perm.
  - intros x y kx ky Hx Hy Hkx Hky Hlt.
    destruct (load_cluster_data_row_in K afiliasi detail_kode x Hnd Hx) as (Hax & Hrx & _).
    destruct (load_cluster_data_row_in K afiliasi detail_kode y Hnd Hy) as (Hay & Hry & _).
    rewrite Hrx in Hkx. rewrite Hry in Hky.
    apply (rank_lookup_position K afiliasi Hnd _ _ Hax) in Hkx.
    apply (rank_lookup_position K afiliasi Hnd _ _ Hay) in Hky.
    destruct Hkx as [Hx1 Hxn]. destruct Hky as [Hy1 Hyn].
    apply (StronglySorted_nth_error _ _ (sort_values_descending K sinta_score_overall afiliasi)
             (kx - 1) (ky - 1) (a_row x) (a_row y)); [lia | exact Hxn | exact Hyn].
  - intros HK i j x y Hij Hi Hj Heq.
    pose proof (nth_error_In _ _ Hi) as Hx. pose proof (nth_error_In _ _ Hj) as Hy.
    destruct (load_cluster_data_row_in K afiliasi detail_kode x Hnd Hx) as (Hax & Hrx & _).
    destruct (load_cluster_data_row_in K afiliasi detail_kode y Hnd Hy) as (Hay & Hry & _).
    destruct (rank_lookup_defined K afiliasi Hnd _ Hax) as [kx Hkx].
    destruct (rank_lookup_defined K afiliasi Hnd _ Hay) as [ky Hky].
    exists kx, ky. rewrite Hrx, Hry. split; [exact Hkx|]. split; [exact Hky|].
    apply (rank_lookup_position K afiliasi Hnd _ _ Hax) in Hkx.
    apply (rank_lookup_position K afiliasi Hnd _ _ Hay) in Hky.
    destruct Hkx as [Hx1 Hxn]. destruct Hky as [Hy1 Hyn].
    (* the two rows in the input table *)
    assert (Hia : nth_error afiliasi i = Some (a_row x)).
    { rewrite Hrows in Hi. rewrite nth_error_map in Hi.
      destruct (nth_error afiliasi i); [|discriminate].
      cbn in Hi. injection Hi as <-. reflexivity. }
    assert (Hja : nth_error afiliasi j = Some (a_row y)).
    { rewrite Hrows in Hj. rewrite nth_error_map in Hj.
      destruct (nth_error afiliasi j); [|discriminate].
      cbn in Hj. injection Hj as <-. reflexivity. }
    set (p := fun a : AffRow =>
                Qeq_bool (sinta_score_overall a) (sinta_score_overall (a_row x))).
    assert (Hpx : p (a_row x) = true) by (apply Qeq_bool_iff; reflexivity).
    assert (Hpy : p (a_row y) = true) by (apply Qeq_bool_iff; symmetry; exact Heq).
    destruct (filter_keeps_order p afiliasi i j _ _ Hij Hia Hja Hpx Hpy)
      as (i' & j' & Hij' & Hi' & Hj').
    assert (Hndf : NoDup (filter p afiliasi)).
    { apply NoDup_filter. eapply NoDup_map_inv. exact Hnd. }
    destruct (Nat.lt_trichotomy kx ky) as [Hlt|[Heqk|Hgt]]; [exact Hlt| |].
    + exfalso. subst ky. rewrite Hxn in Hyn. injection Hyn as Hxy.
      rewrite <- Hxy in Hja.
      assert (i = j); [|lia].
      apply (proj1 (NoDup_nth_error _) (NoDup_map_inv _ _ Hnd));
        [apply nth_error_Some; congruence | congruence].
    + exfalso.
      assert (Hk : (ky - 1 < kx - 1)%nat) by lia.
      destruct (filter_keeps_order p _ _ _ _ _ Hk Hyn Hxn Hpy Hpx)
        as (i2 & j2 & Hij2 & Hi2 & Hj2).
      unfold p in Hi2, Hj2.
      rewrite (sort_values_stable K sinta_score_overall _ afiliasi HK) in Hi2, Hj2.
      fold p in Hi2, Hj2.
      pose proof (NoDup_order_unique _ _ _ _ _ _ _ Hndf Hij' Hi' Hj' Hi2 Hj2). lia.
  - vm_compute. reflexivity.
Qed.

(** With the tie-reversing kind, which meets the library contract as well,
    the example table is ranked X=1, Z=2, Y=3, W=4: the code as written does
    not determine the order of Y and Z. *)
Lemma rank_overall_ties_counterexample :
  names_and_ranks (loaded_df_af (load_cluster_data reversing_kind example_affiliations []))
  = [("X", Some 1%nat); ("Y", Some 3%nat); ("Z", Some 2%nat); ("W", Some 4%nat)]
  /\ ~ (forall K : sort_kind,
          names_and_ranks (loaded_df_af (load_cluster_data K example_affiliations []))
          = [("X", Some 1%nat); ("Y", Some 2%nat); ("Z", Some 3%nat); ("W", Some 4%nat)]).
Proof.
  assert (H : names_and_ranks
                (loaded_df_af (load_cluster_data reversing_kind example_affiliations []))
              = [("X", Some 1%nat); ("Y", Some 3%nat); ("Z", Some 2%nat); ("W", Some 4%nat)])
    by (vm_compute; reflexivity).
  split; [exact H|].
  intros Hall. rewrite (Hall reversing_kind) in H. discriminate H.
Qed.

Lemma rank_overall_bijection_witness :
  NoDup (map nama_afiliasi example_affiliations)
  /\ stable stable_kind
  /\ exists kx ky,
       rank_overall {| a_row := mk_aff "Y" 90; rank_overall := Some 2%nat;
                       gap_to_top10 := None |} = Some kx
       /\ rank_overall {| a_row := mk_aff "Z" 90; rank_overall := Some 3%nat;
                          gap_to_top10 := None |} = Some ky
       /\ (kx < ky)%nat.
Proof.
  assert (Hnd : NoDup (map nama_afiliasi example_affiliations)) by solve_NoDup.
  split; [exact Hnd|]. split; [exact stable_kind_stable|].
  destruct (rank_overall_bijection stable_kind example_affiliations [] Hnd)
    as (_ & _ & _ & Hst & _).
  apply (Hst stable_kind_stable 1%nat 2%nat); [lia | reflexivity | reflexivity |].
  reflexivity.
Defined.



(* ------------------------------------------------------------------ *)
(** ** High-leverage scorer *)

Lemma in_firstn {A : Type} (n : nat) (l : list A) (x : A) :
  In x (firstn n l) -> In x l.
Proof.
  intros H. rewrite <- (firstn_skipn n l). apply in_or_app. now left.
Qed.

Lemma get_high_leverage_metrics_eq (K : sort_kind) (df_detail : list DetailCat)
    (selected_affiliation : string) (top_k : nat) :
  get_high_leverage_metrics K df_detail selected_affiliation top_k
  = firstn top_k
      (sort_values K potential_gain false
         (map add_potential_gain (rows_of df_detail selected_affiliation))).
Proof.
  unfold get_high_leverage_metrics. fold (rows_of df_detail selected_affiliation).
  destruct (rows_of df_detail selected_affiliation) as [|r l] eqn:E; [|reflexivity].
  cbn [map].
  pose proof (sort_values_perm K potential_gain false (@nil HighRow)) as Hp.
  apply Permutation_sym, Permutation_nil in Hp. rewrite Hp.
  now rewrite firstn_nil.
Qed.

(** C8 (as amended).  The scorer returns the first [min top_k n] rows of the
    affiliation's [n] records sorted descending on
    [potential_gain = weight * (1 - value)], the gain being computed for
    every record without any clamping.  Rows with equal gain come in input
    order whenever the sort behind [sort_values] is stable.  Weight 2 and
    value 3/10 give a gain of 14/10. *)
Theorem high_leverage_spec (K : sort_kind) (df_detail : list DetailCat)
    (selected_affiliation : string) (top_k : nat) :
  List.length (get_high_leverage_metrics K df_detail selected_affiliation top_k)
  = Nat.min top_k (List.length (rows_of df_detail selected_affiliation))
  /\ (forall r, In r (get_high_leverage_metrics K df_detail selected_affiliation top_k) ->
        potential_gain r = weight (h_row r) * (1 - value (h_row r))
        /\ In (h_row r) (map d_row (rows_of df_detail selected_affiliation)))
  /\ (exists rest,
        Permutation
          (get_high_leverage_metrics K df_detail selected_affiliation top_k ++ rest)
          (map add_potential_gain (rows_of df_detail selected_affiliation))
        /\ StronglySorted (fun x y => potential_gain y <= potential_gain x)
             (get_high_leverage_metrics K df_detail selected_affiliation top_k ++ rest))
  /\ (stable K ->
      forall q, exists rest,
        filter (fun r => Qeq_bool (potential_gain r) q)
               (get_high_leverage_metrics K df_detail selected_affiliation top_k) ++ rest
        = filter (fun r => Qeq_bool (potential_gain r) q)
                 (map add_potential_gain (rows_of df_detail selected_affiliation)))
  /\ potential_gain (add_potential_gain
                       (add_category (mk_detail "U" "P3" "Score in Publication"
                                                2 (3#10) (6#10))))
     == 14#10.
Proof.
  rewrite get_high_leverage_metrics_eq.
  set (df := map add_potential_gain (rows_of df_detail selected_affiliation)).
  set (sorted := sort_values K potential_gain false df).
  assert (Hperm : Permutation sorted df) by apply sort_values_perm.
  split; [|split; [|split; [|split]]].
  - rewrite length_firstn. unfold sorted. rewrite sort_values_length.
    unfold df. now rewrite length_map.
  - intros r Hr. apply in_firstn in Hr.
    apply (Permutation_in _ Hperm) in Hr. unfold df in Hr.
    apply in_map_iff in Hr. destruct Hr as (d & <- & Hd).
    split; [reflexivity|]. cbn [h_row add_potential_gain]. now apply in_map.
  - exists (skipn top_k sorted). rewrite firstn_skipn.
    split; [exact Hperm | apply sort_values_descending].
  - intros HK q. exists (filter (fun r => Qeq_bool (potential_gain r) q) (skipn top_k sorted)).
    rewrite <- filter_app, firstn_skipn. unfold sorted.
    now apply sort_values_stable.
  - vm_compute. reflexivity.
Qed.

Lemma high_leverage_spec_witness :
  stable stable_kind
  /\ exists rest,
       filter (fun r => Qeq_bool (potential_gain r) (1#2))
              (get_high_leverage_metrics stable_kind example_ties "U" 2) ++ rest
       = filter (fun r => Qeq_bool (potential_gain r) (1#2))
                (map add_potential_gain (rows_of example_ties "U")).
Proof.
  split; [exact stable_kind_stable|].
  destruct (high_leverage_spec stable_kind example_ties "U" 2) as (_ & _ & _ & Hst & _).
  exact (Hst stable_kind_stable (1#2)).
Defined.

(** Two records with the same gain, P1 before P2 in the input: the
    tie-reversing kind returns P2 before P1. *)
Lemma high_leverage_ties_counterexample :
  map (fun r => kode (h_row r))
      (get_high_leverage_metrics reversing_kind example_ties "U" 30)
  = ["P3"; "P2"; "P1"]
  /\ ~ (forall K : sort_kind,
          map (fun r => kode (h_row r))
              (get_high_leverage_metrics K example_ties "U" 30)
          = ["P3"; "P1"; "P2"]).
Proof.
  assert (H : map (fun r => kode (h_row r))
                  (get_high_leverage_metrics reversing_kind example_ties "U" 30)
              = ["P3"; "P2"; "P1"]) by (vm_compute; reflexivity).
  split; [exact H|].
  intros Hall. rewrite (Hall reversing_kind) in H. discriminate H.
Qed.

(* ------------------------------------------------------------------ *)
(** ** Category aggregator *)

Lemma Category_eqb_eq (x y : Category) : Category_eqb x y = true <-> x = y.
Proof.
  unfold Category_eqb. destruct (Category_eq_dec x y); split; congruence.
Qed.

Lemma Category_eqb_refl (x : Category) : Category_eqb x x = true.
Proof. now apply Category_eqb_eq. Qed.

Lemma sorted_unique_In {A : Type} (eq_dec : forall x y : A, {x = y} + {x <> y})
    (leb : A -> A -> bool) (l : list A) (x : A) :
  In x (sorted_unique eq_dec leb l) <-> In x l.
Proof.
  unfold sorted_unique. split; intros H.
  - apply (nodup_In eq_dec).
    eapply Permutation_in; [apply isort_perm | exact H].
  - eapply Permutation_in; [symmetry; apply isort_perm|].
    now apply nodup_In.
Qed.

Lemma sorted_unique_NoDup {A : Type} (eq_dec : forall x y : A, {x = y} + {x <> y})
    (leb : A -> A -> bool) (l : list A) :
  NoDup (sorted_unique eq_dec leb l).
Proof.
  unfold sorted_unique.
  eapply Permutation_NoDup; [symmetry; apply isort_perm | apply NoDup_nodup].
Qed.

Lemma group_keys_In (df : list DetailCat) (a : string) (c : Category) :
  In (a, c) (group_keys df)
  <-> exists r, In r df /\ d_nama_afiliasi (d_row r) = a /\ category r = Some c.
Proof.
  unfold group_keys. rewrite sorted_unique_In, in_flat_map. split.
  - intros (r & Hr & Hin). exists r. split; [exact Hr|].
    destruct (category r); [|destruct Hin].
    destruct Hin as [E|[]]. injection E as <- <-. now split.
  - intros (r & Hr & <- & Hc). exists r. split; [exact Hr|].
    rewrite Hc. now left.
Qed.

Lemma in_group_true (a : string) (c : Category) (r : DetailCat) :
  in_group a c r = true <-> d_nama_afiliasi (d_row r) = a /\ category r = Some c.
Proof.
  unfold in_group. rewrite andb_true_iff, String.eqb_eq.
  destruct (category r) as [c'|].
  - rewrite Category_eqb_eq. split; intros [H1 H2]; split; congruence.
  - split; intros [H1 H2]; discriminate.
Qed.

Lemma find_key {A B : Type} (eqb : A -> A -> bool) (f : A -> B) (keys : list A) (k : A) :
  (forall x y, eqb x y = true <-> x = y) ->
  find (fun e => eqb (fst e) k) (map (fun x => (x, f x)) keys)
  = if existsb (fun x => eqb x k) keys then Some (k, f k) else None.
Proof.
  intros Heqb. induction keys as [|x keys IH]; [reflexivity|].
  cbn. destruct (eqb x k) eqn:E.
  - apply Heqb in E. now subst x.
  - exact IH.
Qed.

Lemma series_get_groupby (df : list DetailCat) (a : string) (c : Category) :
  fillna0 (series_get (groupby_sum df) a c)
  = Qsum (map total_of (filter (in_group a c) df)).
Proof.
  unfold series_get, groupby_sum.
  rewrite (find_key (fun x y => if key_eq_dec x y then true else false)
                    (fun k => Qsum (map (fun r => total (d_row r))
                                        (filter (in_group (fst k) (snd k)) df)))).
  2:{ intros x y. destruct (key_eq_dec x y); split; congruence. }
  destruct (existsb _ (group_keys df)) eqn:E; [reflexivity|].
  cbn. rewrite filter_none; [reflexivity|].
  intros r Hr. destruct (in_group a c r) eqn:G; [|reflexivity].
  apply in_group_true in G. destruct G as [Ha Hc].
  assert (Hin : In (a, c) (group_keys df)).
  { apply group_keys_In. exists r. auto. }
  assert (Ht : existsb (fun x => if key_eq_dec x (a, c) then true else false)
                       (group_keys df) = true).
  { apply existsb_exists. exists (a, c). split; [exact Hin|].
    now destruct (key_eq_dec (a, c) (a, c)). }
  congruence.
Qed.

Lemma cat_pivot_columns (df : list DetailCat) (c : Category) :
  In c (pv_columns (cat_pivot_of df))
  <-> exists r, In r df /\ category r = Some c.
Proof.
  unfold cat_pivot_of, unstack. cbn [pv_columns].
  rewrite sorted_unique_In, in_map_iff. split.
  - intros (e & <- & He). unfold groupby_sum in He.
    apply in_map_iff in He. destruct He as (k & <- & Hk). cbn [fst snd].
    destruct k as [a c']. apply group_keys_In in Hk.
    destruct Hk as (r & Hr & _ & Hc). now exists r.
  - intros (r & Hr & Hc).
    exists ((d_nama_afiliasi (d_row r), c),
            Qsum (map (fun r' => total (d_row r'))
                      (filter (in_group (d_nama_afiliasi (d_row r)) c) df))).
    split; [reflexivity|]. unfold groupby_sum.
    apply (in_map (fun k => (k, Qsum (map (fun r' => total (d_row r'))
                                          (filter (in_group (fst k) (snd k)) df))))
                  (group_keys df) (d_nama_afiliasi (d_row r), c)).
    apply group_keys_In. now exists r.
Qed.

Lemma cat_pivot_index (df : list DetailCat) (a : string) :
  In a (pv_index (cat_pivot_of df))
  <-> exists r, In r df /\ d_nama_afiliasi (d_row r) = a /\ mapped r = true.
Proof.
  unfold pv_index, cat_pivot_of, unstack. cbn [pv_rows].
  rewrite map_map. cbn [fst]. rewrite map_id.
  rewrite sorted_unique_In, in_map_iff. split.
  - intros (e & <- & He). unfold groupby_sum in He.
    apply in_map_iff in He. destruct He as (k & <- & Hk). cbn [fst snd].
    destruct k as [a' c]. apply group_keys_In in Hk.
    destruct Hk as (r & Hr & Ha & Hc). exists r. unfold mapped. rewrite Hc. auto.
  - intros (r & Hr & Ha & Hm). unfold mapped in Hm.
    destruct (category r) as [c|] eqn:Hc; [|discriminate].
    exists ((a, c), Qsum (map (fun r' => total (d_row r')) (filter (in_group a c) df))).
    split; [reflexivity|]. unfold groupby_sum.
    apply (in_map (fun k => (k, Qsum (map (fun r' => total (d_row r'))
                                          (filter (in_group (fst k) (snd k)) df))))
                  (group_keys df) (a, c)).
    apply group_keys_In. now exists r.
Qed.

Lemma cat_pivot_index_NoDup (df : list DetailCat) : NoDup (pv_index (cat_pivot_of df)).
Proof.
  unfold pv_index, cat_pivot_of, unstack. cbn [pv_rows].
  rewrite map_map. cbn [fst]. rewrite map_id. apply sorted_unique_NoDup.
Qed.

Lemma cat_pivot_columns_NoDup (df : list DetailCat) :
  NoDup (pv_columns (cat_pivot_of df)).
Proof. unfold cat_pivot_of, unstack. cbn [pv_columns]. apply sorted_unique_NoDup. Qed.

(** The cells of a row that exists. *)
Lemma cat_pivot_loc (df : list DetailCat) (a : string) :
  pv_loc (cat_pivot_of df) a
  = if existsb (fun x => (x =? a)%string) (pv_index (cat_pivot_of df))
    then Some (map (fun c => Qsum (map total_of (filter (in_group a c) df)))
                   (pv_columns (cat_pivot_of df)))
    else None.
Proof.
  unfold pv_loc, pv_index, cat_pivot_of, unstack. cbn [pv_rows pv_columns].
  rewrite map_map. cbn [fst]. rewrite map_id.
  rewrite (find_key String.eqb); [|apply String.eqb_eq].
  destruct (existsb _ _); [|reflexivity]. cbn [option_map snd]. f_equal.
  apply map_ext. intros c. apply series_get_groupby.
Qed.

Lemma Qsum_filter_or {A : Type} (t : A -> Q) (p q : A -> bool) (l : list A) :
  (forall r, p r = true -> q r = true -> False) ->
  Qsum (map t (filter p l)) + Qsum (map t (filter q l))
  == Qsum (map t (filter (fun r => p r || q r) l)).
Proof.
  intros Hd. induction l as [|r l IH]; [cbn; ring|].
  cbn [filter]. destruct (p r) eqn:P, (q r) eqn:R; cbn [orb map Qsum fold_right].
  - exfalso. eauto.
  - fold (Qsum (map t (filter p l))). fold (Qsum (map t (filter (fun r => p r || q r) l))).
    rewrite <- IH. ring.
  - fold (Qsum (map t (filter q l))). fold (Qsum (map t (filter (fun r => p r || q r) l))).
    rewrite <- IH. ring.
  - exact IH.
Qed.

Lemma in_columns_cons (a : string) (c0 : Category) (cols : list Category) (r : DetailCat) :
  in_columns a (c0 :: cols) r = in_group a c0 r || in_columns a cols r.
Proof.
  unfold in_columns, in_group.
  destruct (d_nama_afiliasi (d_row r) =? a)%string; [|reflexivity].
  destruct (category r); reflexivity.
Qed.

(** Summing a row of the pivot column by column is summing the records of
    the affiliation whose category is one of the columns. *)
Lemma row_sum_columns (df : list DetailCat) (a : string) (cols : list Category) :
  NoDup cols ->
  Qsum (map (fun c => Qsum (map total_of (filter (in_group a c) df))) cols)
  == Qsum (map total_of (filter (in_columns a cols) df)).
Proof.
  induction 1 as [|c0 cols Hc0 Hnd IH].
  - cbn. rewrite filter_none; [reflexivity|].
    intros r _. unfold in_columns. destruct (category r); cbn; apply andb_false_r.
  - cbn [map Qsum fold_right].
    fold (Qsum (map (fun c => Qsum (map total_of (filter (in_group a c) df))) cols)).
    rewrite IH, Qsum_filter_or.
    + rewrite (filter_ext _ _ (in_columns_cons a c0 cols)). reflexivity.
    + intros r Hg Hc. apply in_group_true in Hg. destruct Hg as [_ Hg].
      unfold in_columns in Hc. rewrite Hg in Hc.
      apply andb_true_iff in Hc. destruct Hc as [_ Hc].
      apply existsb_exists in Hc. destruct Hc as (c & Hin & E).
      apply Category_eqb_eq in E. subst c. contradiction.
Qed.

Lemma in_columns_pivot (df : list DetailCat) (a : string) :
  filter (in_columns a (pv_columns (cat_pivot_of df))) df = filter (aggregated a) df.
Proof.
  apply filter_ext_in. intros r Hr. unfold in_columns, aggregated, mapped.
  destruct (category r) as [c|] eqn:Hc; [|reflexivity]. f_equal.
  apply existsb_exists. exists c. split; [|apply Category_eqb_refl].
  apply cat_pivot_columns. now exists r.
Qed.

Lemma filter_map_comm {A B : Type} (f : A -> B) (p : B -> bool) (l : list A) :
  filter p (map f l) = map f (filter (fun x => p (f x)) l).
Proof.
  induction l as [|x l IH]; [reflexivity|].
  cbn. destruct (p (f x)); cbn; now rewrite IH.
Qed.

Lemma loaded_cat_pivot_eq (K : sort_kind) (afiliasi : list AffRow)
    (detail_kode : list DetailRow) :
  loaded_cat_pivot (load_cluster_data K afiliasi detail_kode)
  = cat_pivot_of (map add_category detail_kode).
Proof.
  unfold load_cluster_data, loaded_cat_pivot.
  destruct (10 <=? _)%nat; reflexivity.
Qed.

Lemma filter_in_group_mapped (a : string) (c : Category) (df : list DetailCat) :
  filter (in_group a c) df = filter (in_group a c) (filter mapped df).
Proof.
  induction df as [|r df IH]; [reflexivity|].
  cbn [filter]. unfold mapped at 1.
  destruct (category r) eqn:Hc; cbn [filter].
  - now rewrite IH.
  - assert (Hg : in_group a c r = false).
    { unfold in_group. rewrite Hc. apply andb_false_r. }
    now rewrite Hg.
Qed.

Lemma combine_map_self {A B : Type} (g : A -> B) (l : list A) :
  combine l (map g l) = map (fun x => (x, g x)) l.
Proof. induction l as [|x l IH]; [reflexivity|]. cbn. now rewrite IH. Qed.

Lemma existsb_eqb_In {A : Type} (eqb : A -> A -> bool) (l : list A) (k : A) :
  (forall x y, eqb x y = true <-> x = y) ->
  existsb (fun x => eqb x k) l = true <-> In k l.
Proof.
  intros Heqb. rewrite existsb_exists. split.
  - intros (x & Hx & E). apply Heqb in E. now subst x.
  - intros H. exists k. split; [exact H | now apply Heqb].
Qed.

Lemma totals_in_group (detail_kode : list DetailRow) (a : string) (c : Category) :
  map total_of (filter (in_group a c) (map add_category detail_kode))
  = map total (records_in detail_kode a c).
Proof.
  rewrite filter_map_comm, map_map. unfold records_in. reflexivity.
Qed.

Lemma cat_pivot_cell (detail_kode : list DetailRow) (a : string) (c : Category) :
  In a (pv_index (cat_pivot_of (map add_category detail_kode))) ->
  In c (pv_columns (cat_pivot_of (map add_category detail_kode))) ->
  pv_cell (cat_pivot_of (map add_category detail_kode)) a c
  = Some (Qsum (map total (records_in detail_kode a c))).
Proof.
  intros Ha Hc. unfold pv_cell. rewrite cat_pivot_loc.
  apply (existsb_eqb_In String.eqb _ _ String.eqb_eq) in Ha. rewrite Ha.
  rewrite combine_map_self, (find_key Category_eqb); [|apply Category_eqb_eq].
  apply (existsb_eqb_In Category_eqb _ _ Category_eqb_eq) in Hc. rewrite Hc.
  cbn [option_map snd]. now rewrite totals_in_group.
Qed.

(** C4 (as amended).  The category pivot built at load time has exactly one
    row for every affiliation that has at least one record with a known
    category label, and exactly one column for every category that occurs
    among the labelled records (always one of the six enumerated ones).
    Every cell of that rows-by-columns grid is present and holds the summed
    [total] of the records of that affiliation in that category: 0 when
    there is none. *)
Theorem cat_pivot_dense (K : sort_kind) (afiliasi : list AffRow)
    (detail_kode : list DetailRow) :
  NoDup (pv_index (loaded_cat_pivot (load_cluster_data K afiliasi detail_kode)))
  /\ (forall a,
        In a (pv_index (loaded_cat_pivot (load_cluster_data K afiliasi detail_kode)))
        <-> exists r, In r detail_kode /\ d_nama_afiliasi r = a /\ is_mapped r = true)
  /\ NoDup (pv_columns (loaded_cat_pivot (load_cluster_data K afiliasi detail_kode)))
  /\ (forall c,
        In c (pv_columns (loaded_cat_pivot (load_cluster_data K afiliasi detail_kode)))
        <-> exists r, In r detail_kode /\ CATEGORY_LABELS (kategori_score r) = Some c)
  /\ (forall c,
        In c (pv_columns (loaded_cat_pivot (load_cluster_data K afiliasi detail_kode))) ->
        In c CATEGORY_ORDER)
  /\ (forall a c,
        In a (pv_index (loaded_cat_pivot (load_cluster_data K afiliasi detail_kode))) ->
        In c (pv_columns (loaded_cat_pivot (load_cluster_data K afiliasi detail_kode))) ->
        pv_cell (loaded_cat_pivot (load_cluster_data K afiliasi detail_kode)) a c
        = Some (Qsum (map total (records_in detail_kode a c)))
        /\ (records_in detail_kode a c = [] ->
            pv_cell (loaded_cat_pivot (load_cluster_data K afiliasi detail_kode)) a c
            = Some 0)).
Proof.
  rewrite loaded_cat_pivot_eq.
  split; [apply cat_pivot_index_NoDup|].
  split.
  { intros a. rewrite cat_pivot_index. split.
    - intros (r & Hr & Ha & Hm). apply in_map_iff in Hr.
      destruct Hr as (d & <- & Hd). exists d. auto.
    - intros (d & Hd & Ha & Hm). exists (add_category d).
      split; [now apply in_map|]. auto. }
  split; [apply cat_pivot_columns_NoDup|].
  split.
  { intros c. rewrite cat_pivot_columns. split.
    - intros (r & Hr & Hc). apply in_map_iff in Hr.
      destruct Hr as (d & <- & Hd). exists d. auto.
    - intros (d & Hd & Hc). exists (add_category d).
      split; [now apply in_map|]. exact Hc. }
  split.
  { intros c _. destruct c; cbn; tauto. }
  intros a c Ha Hc.
  pose proof (cat_pivot_cell detail_kode a c Ha Hc) as Hcell.
  split; [exact Hcell|].
  intros Hnone. rewrite Hcell, Hnone. reflexivity.
Qed.

Lemma cat_pivot_dense_witness :
  In "U" (pv_index (loaded_cat_pivot (load_cluster_data stable_kind [] example_sparse)))
  /\ In Publication
        (pv_columns (loaded_cat_pivot (load_cluster_data stable_kind [] example_sparse)))
  /\ pv_cell (loaded_cat_pivot (load_cluster_data stable_kind [] example_sparse))
             "U" Publication
     = Some (Qsum (map total (records_in example_sparse "U" Publication))).
Proof.
  assert (Ha : In "U" (pv_index (loaded_cat_pivot
                                   (load_cluster_data stable_kind [] example_sparse))))
    by (vm_compute; auto).
  assert (Hc : In Publication
                  (pv_columns (loaded_cat_pivot
                                 (load_cluster_data stable_kind [] example_sparse))))
    by (vm_compute; auto).
  split; [exact Ha|]. split; [exact Hc|].
  destruct (cat_pivot_dense stable_kind [] example_sparse) as (_ & _ & _ & _ & _ & H).
  exact (proj1 (H "U" Publication Ha Hc)).
Defined.

(** One labelled record of U in Publication and one record of V with an
    unknown raw category: the pivot has the single column Publication, no
    column for the other five categories, and no row for V. *)
Lemma cat_pivot_dense_counterexample :
  pv_columns (loaded_cat_pivot (load_cluster_data stable_kind [] example_sparse))
  = [Publication]
  /\ pv_rows (loaded_cat_pivot (load_cluster_data stable_kind [] example_sparse))
     = [("U", [1#2])]
  /\ pv_cell (loaded_cat_pivot (load_cluster_data stable_kind [] example_sparse))
             "U" Research = None
  /\ pv_loc (loaded_cat_pivot (load_cluster_data stable_kind [] example_sparse)) "V"
     = None
  /\ ~ (forall c, In c CATEGORY_ORDER ->
          In c (pv_columns
                  (loaded_cat_pivot (load_cluster_data stable_kind [] example_sparse)))).
Proof.
  split; [vm_compute; reflexivity|].
  split; [vm_compute; reflexivity|].
  split; [vm_compute; reflexivity|].
  split; [vm_compute; reflexivity|].
  intros H. specialize (H Research). vm_compute in H.
  destruct H as [H|[]]; [tauto | discriminate H].
Qed.

(** *** The aggregation under an arbitrary summation *)

Lemma Qsum_ext_in {A : Type} (f g : A -> Q) (l : list A) :
  (forall x, In x l -> f x == g x) -> Qsum (map f l) == Qsum (map g l).
Proof.
  induction l as [|x l IH]; intros H; [reflexivity|].
  cbn [map Qsum fold_right]. fold (Qsum (map f l)). fold (Qsum (map g l)).
  rewrite (H x (or_introl eq_refl)), IH; [reflexivity|].
  intros y Hy. apply H. now right.
Qed.

Lemma cat_pivot_with_index (ssum : list Q -> Q) (df : list DetailCat) :
  pv_index (cat_pivot_with ssum df) = pv_index (cat_pivot_of df).
Proof.
  unfold pv_index, cat_pivot_with, cat_pivot_of, unstack, groupby_sum_with, groupby_sum.
  cbn [pv_rows]. rewrite !map_map. reflexivity.
Qed.

Lemma cat_pivot_with_columns (ssum : list Q -> Q) (df : list DetailCat) :
  pv_columns (cat_pivot_with ssum df) = pv_columns (cat_pivot_of df).
Proof.
  unfold cat_pivot_with, cat_pivot_of, unstack, groupby_sum_with, groupby_sum.
  cbn [pv_columns]. rewrite !map_map. reflexivity.
Qed.

Lemma series_get_groupby_with (ssum : list Q -> Q) (df : list DetailCat) (a : string)
    (c : Category) :
  fillna0 (series_get (groupby_sum_with ssum df) a c)
  = group_cell ssum (map total_of (filter (in_group a c) df)).
Proof.
  unfold series_get, groupby_sum_with.
  rewrite (find_key (fun x y => if key_eq_dec x y then true else false)
                    (fun k => ssum (map (fun r => total (d_row r))
                                        (filter (in_group (fst k) (snd k)) df)))).
  2:{ intros x y. destruct (key_eq_dec x y); split; congruence. }
  destruct (existsb _ (group_keys df)) eqn:E.
  - cbn [option_map snd fillna0 fst].
    apply existsb_exists in E. destruct E as (k & Hk & E).
    destruct (key_eq_dec k (a, c)) as [->|]; [|discriminate].
    apply group_keys_In in Hk. destruct Hk as (r & Hr & Ha & Hc).
    assert (Hin : In r (filter (in_group a c) df)).
    { apply filter_In. split; [exact Hr|]. now apply in_group_true. }
    destruct (filter (in_group a c) df) as [|r0 l]; [destruct Hin | reflexivity].
  - cbn. rewrite filter_none; [reflexivity|].
    intros r Hr. destruct (in_group a c r) eqn:G; [|reflexivity].
    apply in_group_true in G. destruct G as [Ha Hc].
    assert (Hin : In (a, c) (group_keys df)).
    { apply group_keys_In. exists r. auto. }
    assert (Ht : existsb (fun x => if key_eq_dec x (a, c) then true else false)
                         (group_keys df) = true).
    { apply existsb_exists. exists (a, c). split; [exact Hin|].
      now destruct (key_eq_dec (a, c) (a, c)). }
    congruence.
Qed.

(** The cells of a row that exists, whatever the summation. *)
Lemma cat_pivot_with_loc (ssum : list Q -> Q) (df : list DetailCat) (a : string) :
  pv_loc (cat_pivot_with ssum df) a
  = if existsb (fun x => (x =? a)%string) (pv_index (cat_pivot_of df))
    then Some (map (fun c => group_cell ssum (map total_of (filter (in_group a c) df)))
                   (pv_columns (cat_pivot_of df)))
    else None.
Proof.
  rewrite <- (cat_pivot_with_index ssum), <- (cat_pivot_with_columns ssum).
  unfold pv_loc, pv_index, cat_pivot_with, unstack. cbn [pv_rows pv_columns].
  rewrite map_map. cbn [fst]. rewrite map_id.
  rewrite (find_key String.eqb); [|apply String.eqb_eq].
  destruct (existsb _ _); [|reflexivity]. cbn [option_map snd]. f_equal.
  apply map_ext. intros c. apply series_get_groupby_with.
Qed.

Lemma cat_pivot_with_drops_unmapped (ssum : list Q -> Q) (df : list DetailCat) :
  cat_pivot_with ssum df = cat_pivot_with ssum (filter mapped df).
Proof.
  unfold cat_pivot_with. f_equal. unfold groupby_sum_with.
  assert (Hk : group_keys df = group_keys (filter mapped df)).
  { unfold group_keys. f_equal.
    induction df as [|r df IH]; [reflexivity|].
    cbn [filter flat_map]. unfold mapped at 1.
    destruct (category r) eqn:Hc; cbn [flat_map app]; rewrite ?Hc, IH; reflexivity. }
  rewrite <- Hk. apply map_ext. intros k. do 3 f_equal.
  apply filter_in_group_mapped.
Qed.

Lemma Qsum_sub {A : Type} (f g : A -> Q) (l : list A) :
  Qsum (map f l) - Qsum (map g l) == Qsum (map (fun x => f x - g x) l).
Proof.
  induction l as [|x l IH]; cbn; [ring|].
  fold (Qsum (map f l)). fold (Qsum (map g l)). fold (Qsum (map (fun x => f x - g x) l)).
  rewrite <- IH. ring.
Qed.

Lemma Qsum_zero {A : Type} (f : A -> Q) (l : list A) :
  (forall x, In x l -> f x == 0) -> Qsum (map f l) == 0.
Proof.
  induction l as [|x l IH]; intros H; [reflexivity|].
  cbn [map Qsum fold_right]. fold (Qsum (map f l)).
  rewrite (H x (or_introl eq_refl)), IH; [ring|].
  intros y Hy. apply H. now right.
Qed.

Lemma Qsum_le_in {A : Type} (f g : A -> Q) (l : list A) :
  (forall x, In x l -> f x <= g x) -> Qsum (map f l) <= Qsum (map g l).
Proof.
  induction l as [|x l IH]; intros H; [apply Qle_refl|].
  cbn [map Qsum fold_right]. fold (Qsum (map f l)). fold (Qsum (map g l)).
  apply Qplus_le_compat; [apply H; now left|]. apply IH. intros y Hy. apply H. now right.
Qed.

Lemma Qsum_scale_l {A : Type} (f : A -> Q) (c : Q) (l : list A) :
  Qsum (map (fun x => c * f x) l) == c * Qsum (map f l).
Proof.
  induction l as [|x l IH]; cbn; [ring|].
  fold (Qsum (map (fun x => c * f x) l)). fold (Qsum (map f l)). rewrite IH. ring.
Qed.

Lemma Qabs_Qsum_le {A : Type} (f : A -> Q) (l : list A) :
  Qabs (Qsum (map f l)) <= Qsum (map (fun x => Qabs (f x)) l).
Proof.
  induction l as [|x l IH]; [cbn; discriminate|].
  cbn [map Qsum fold_right]. fold (Qsum (map f l)).
  fold (Qsum (map (fun x => Qabs (f x)) l)).
  eapply Qle_trans; [apply Qabs_triangle|]. apply Qplus_le_compat; [apply Qle_refl | exact IH].
Qed.

(** Summing any column group by group is summing it over the records of the
    affiliation whose category is one of the columns. *)
Lemma row_sum_columns_of (t : DetailCat -> Q) (df : list DetailCat) (a : string)
    (cols : list Category) :
  NoDup cols ->
  Qsum (map (fun c => Qsum (map t (filter (in_group a c) df))) cols)
  == Qsum (map t (filter (in_columns a cols) df)).
Proof.
  induction 1 as [|c0 cols Hc0 Hnd IH].
  - cbn. rewrite filter_none; [reflexivity|].
    intros r _. unfold in_columns. destruct (category r); cbn; apply andb_false_r.
  - cbn [map Qsum fold_right].
    fold (Qsum (map (fun c => Qsum (map t (filter (in_group a c) df))) cols)).
    rewrite IH, Qsum_filter_or.
    + rewrite (filter_ext _ _ (in_columns_cons a c0 cols)). reflexivity.
    + intros r Hg Hc. apply in_group_true in Hg. destruct Hg as [_ Hg].
      unfold in_columns in Hc. rewrite Hg in Hc.
      apply andb_true_iff in Hc. destruct Hc as [_ Hc].
      apply existsb_exists in Hc. destruct Hc as (c & Hin & E).
      apply Category_eqb_eq in E. subst c. contradiction.
Qed.

(** C6 (as amended).  Whatever summation [ssum] the library uses, the pivot is
    computed without error from the records with a known category label
    alone; an affiliation has a row exactly when it has such a record; and
    each cell of the row is the library's sum of the [total] of the
    affiliation's records of that category (0 when there is none).  The
    cells of the row add up to the sum of [total] over the affiliation's
    labelled records plus the rounding errors of the cells: the two sums are
    equal whenever the sum of every group is exact, as it is for the exact
    summation that [load_cluster_data] stands for, and they differ by at
    most [eps] times the summed magnitudes of the totals when the sum of
    every group is within [eps] times the summed magnitudes of the group. *)
Theorem category_totals_sum (ssum : list Q -> Q) (K : sort_kind) (afiliasi : list AffRow)
    (detail_kode : list DetailRow) (a : string) :
  loaded_cat_pivot (load_cluster_data K afiliasi detail_kode)
  = cat_pivot_with Qsum (map add_category detail_kode)
  /\ cat_pivot_with ssum (map add_category detail_kode)
     = cat_pivot_with ssum (map add_category (filter is_mapped detail_kode))
  /\ (pv_loc (cat_pivot_with ssum (map add_category detail_kode)) a = None
      <-> mapped_records_of detail_kode a = [])
  /\ forall cells,
       pv_loc (cat_pivot_with ssum (map add_category detail_kode)) a = Some cells ->
       cells = map (fun c => group_cell ssum (map total (records_in detail_kode a c)))
                   (pv_columns (cat_pivot_with ssum (map add_category detail_kode)))
       /\ Qsum cells - Qsum (map total (mapped_records_of detail_kode a))
          == Qsum (map (fun c =>
                          group_cell ssum (map total (records_in detail_kode a c))
                          - Qsum (map total (records_in detail_kode a c)))
                       (pv_columns (cat_pivot_with ssum (map add_category detail_kode))))
       /\ ((forall c, records_in detail_kode a c <> [] ->
                      ssum (map total (records_in detail_kode a c))
                      == Qsum (map total (records_in detail_kode a c))) ->
           Qsum cells == Qsum (map total (mapped_records_of detail_kode a)))
       /\ (forall eps,
             (forall c, records_in detail_kode a c <> [] ->
                        Qabs (ssum (map total (records_in detail_kode a c))
                              - Qsum (map total (records_in detail_kode a c)))
                        <= eps * Qsum (map (fun d => Qabs (total d))
                                           (records_in detail_kode a c))) ->
             Qabs (Qsum cells - Qsum (map total (mapped_records_of detail_kode a)))
             <= eps * Qsum (map (fun d => Qabs (total d))
                                (mapped_records_of detail_kode a))).
Proof.
  split; [rewrite loaded_cat_pivot_eq; reflexivity|].
  set (df := map add_category detail_kode).
  assert (Hagg : map total_of (filter (aggregated a) df)
                 = map total (mapped_records_of detail_kode a)).
  { unfold df. rewrite filter_map_comm, map_map. reflexivity. }
  assert (Hidx : In a (pv_index (cat_pivot_of df)) <-> mapped_records_of detail_kode a <> []).
  { rewrite cat_pivot_index. split.
    - intros (r & Hr & Ha & Hm) Hnil.
      assert (Hin : In r (filter (aggregated a) df)).
      { apply filter_In. split; [exact Hr|]. unfold aggregated.
        rewrite Hm, Ha. now rewrite String.eqb_refl. }
      apply (in_map total_of) in Hin. rewrite Hagg, Hnil in Hin. destruct Hin.
    - intros Hne. destruct (mapped_records_of detail_kode a) as [|d l] eqn:E;
        [congruence|].
      assert (Hd : In d (mapped_records_of detail_kode a)) by (rewrite E; now left).
      apply filter_In in Hd. destruct Hd as [Hd Hp].
      apply andb_true_iff in Hp. destruct Hp as [Hn Hm]. apply String.eqb_eq in Hn.
      exists (add_category d). split; [now apply in_map|]. split; [exact Hn | exact Hm]. }
  assert (Hcell : forall c,
             group_cell ssum (map total_of (filter (in_group a c) df))
             = group_cell ssum (map total (records_in detail_kode a c))).
  { intros c. unfold df. now rewrite totals_in_group. }
  assert (Hexact : Qsum (map (fun c => Qsum (map total (records_in detail_kode a c)))
                             (pv_columns (cat_pivot_of df)))
                   == Qsum (map total (mapped_records_of detail_kode a))).
  { transitivity (Qsum (map (fun c => Qsum (map total_of (filter (in_group a c) df)))
                            (pv_columns (cat_pivot_of df)))).
    { apply Qsum_ext_in. intros c _. unfold df. now rewrite totals_in_group. }
    rewrite row_sum_columns by apply cat_pivot_columns_NoDup.
    rewrite <- Hagg, <- (in_columns_pivot df a). reflexivity. }
  split; [|split].
  - rewrite cat_pivot_with_drops_unmapped. unfold df. now rewrite filter_map_comm.
  - rewrite cat_pivot_with_loc.
    destruct (existsb (fun x => (x =? a)%string) (pv_index (cat_pivot_of df))) eqn:E.
    + apply (existsb_eqb_In String.eqb _ _ String.eqb_eq) in E. apply Hidx in E.
      split; [discriminate | contradiction].
    + split; [|reflexivity]. intros _.
      destruct (mapped_records_of detail_kode a) as [|d l] eqn:El; [reflexivity|].
      assert (Hin : In a (pv_index (cat_pivot_of df))) by (apply Hidx; discriminate).
      apply (existsb_eqb_In String.eqb _ _ String.eqb_eq) in Hin. congruence.
  - intros cells Hloc. rewrite cat_pivot_with_loc in Hloc.
    destruct (existsb _ _); [|discriminate]. injection Hloc as <-.
    rewrite cat_pivot_with_columns.
    rewrite (map_ext _ _ Hcell).
    assert (Herr : Qsum (map (fun c => group_cell ssum
                                          (map total (records_in detail_kode a c)))
                             (pv_columns (cat_pivot_of df)))
                   - Qsum (map total (mapped_records_of detail_kode a))
                   == Qsum (map (fun c =>
                                   group_cell ssum (map total (records_in detail_kode a c))
                                   - Qsum (map total (records_in detail_kode a c)))
                                (pv_columns (cat_pivot_of df)))).
    { rewrite <- Hexact. apply Qsum_sub. }
    split; [reflexivity|]. split; [exact Herr|]. split.
    2:{ intros eps Heps. rewrite Herr.
        eapply Qle_trans; [apply Qabs_Qsum_le|].
        apply Qle_trans with
          (Qsum (map (fun c => eps * Qsum (map (fun d => Qabs (total d))
                                               (records_in detail_kode a c)))
                     (pv_columns (cat_pivot_of df)))).
        - apply Qsum_le_in. intros c _.
          destruct (records_in detail_kode a c) as [|d l] eqn:E.
          + cbn. rewrite Qmult_0_r. discriminate.
          + assert (Hne : records_in detail_kode a c <> []) by (rewrite E; discriminate).
            specialize (Heps c Hne). rewrite E in Heps. exact Heps.
        - rewrite Qsum_scale_l. apply Qle_lteq. right.
          apply Qmult_comp; [reflexivity|].
          transitivity (Qsum (map (fun c => Qsum (map (fun r => Qabs (total_of r))
                                                      (filter (in_group a c) df)))
                                  (pv_columns (cat_pivot_of df)))).
          { apply Qsum_ext_in. intros c _. unfold df.
            rewrite filter_map_comm, map_map. reflexivity. }
          rewrite row_sum_columns_of by apply cat_pivot_columns_NoDup.
          rewrite in_columns_pivot. unfold df.
          rewrite filter_map_comm, map_map. reflexivity. }
    intros Hex.
    assert (Hz : Qsum (map (fun c =>
                              group_cell ssum (map total (records_in detail_kode a c))
                              - Qsum (map total (records_in detail_kode a c)))
                           (pv_columns (cat_pivot_of df))) == 0).
    { apply Qsum_zero. intros c _.
      destruct (records_in detail_kode a c) as [|d l] eqn:E; [cbn; ring|].
      assert (Hne : records_in detail_kode a c <> []) by (rewrite E; discriminate).
      specialize (Hex c Hne). rewrite E in Hex.
      cbn [map group_cell]. cbn [map] in Hex. rewrite Hex. ring. }
    rewrite Hz in Herr.
    apply Qplus_inj_r with (z := - Qsum (map total (mapped_records_of detail_kode a))).
    rewrite Qplus_opp_r. exact Herr.
Qed.

Lemma category_totals_sum_witness :
  (forall c, records_in example_dyadic "U" c <> [] ->
             sum64 (map total (records_in example_dyadic "U" c))
             == Qsum (map total (records_in example_dyadic "U" c)))
  /\ pv_loc (cat_pivot_with sum64 (map add_category example_dyadic)) "U"
     = Some [1#8; 3#4]
  /\ Qsum [1#8; 3#4] == Qsum (map total (mapped_records_of example_dyadic "U"))
  /\ (forall c, records_in example_rounding "U" c <> [] ->
                Qabs (sum64 (map total (records_in example_rounding "U" c))
                      - Qsum (map total (records_in example_rounding "U" c)))
                <= unit_roundoff * Qsum (map (fun d => Qabs (total d))
                                             (records_in example_rounding "U" c)))
  /\ pv_loc (cat_pivot_with sum64 (map add_category example_rounding)) "U"
     = Some [b64 (2#10); 1#2]
  /\ Qabs (Qsum [b64 (2#10); 1#2]
           - Qsum (map total (mapped_records_of example_rounding "U")))
     <= unit_roundoff * Qsum (map (fun d => Qabs (total d))
                                  (mapped_records_of example_rounding "U")).
Proof.
  assert (Hex : forall c, records_in example_dyadic "U" c <> [] ->
                          sum64 (map total (records_in example_dyadic "U" c))
                          == Qsum (map total (records_in example_dyadic "U" c)))
    by (intros c _; destruct c; vm_compute; reflexivity).
  assert (H : pv_loc (cat_pivot_with sum64 (map add_category example_dyadic)) "U"
              = Some [1#8; 3#4]) by (vm_compute; reflexivity).
  assert (Heps : forall c, records_in example_rounding "U" c <> [] ->
                   Qabs (sum64 (map total (records_in example_rounding "U" c))
                         - Qsum (map total (records_in example_rounding "U" c)))
                   <= unit_roundoff * Qsum (map (fun d => Qabs (total d))
                                                (records_in example_rounding "U" c)))
    by (intros c _; destruct c; vm_compute; discriminate).
  assert (H' : pv_loc (cat_pivot_with sum64 (map add_category example_rounding)) "U"
               = Some [b64 (2#10); 1#2]) by (vm_compute; reflexivity).
  split; [exact Hex|]. split; [exact H|].
  destruct (category_totals_sum sum64 stable_kind [] example_dyadic "U")
    as (_ & _ & _ & Hcells).
  split; [exact (proj1 (proj2 (proj2 (Hcells _ H))) Hex)|].
  split; [exact Heps|]. split; [exact H'|].
  destruct (category_totals_sum sum64 stable_kind [] example_rounding "U")
    as (_ & _ & _ & Hcells').
  exact (proj2 (proj2 (proj2 (Hcells' _ H'))) unit_roundoff Heps).
Defined.

(** Totals 0.1 and 0.4 in Publication and 0.2 in HKI, all binary64 numbers:
    the cells are 0.2 and 0.5 under either binary64 summation, and they add
    up to 0.7 (exactly, to 0.2 + 0.5), which is not the sum of the three
    totals, neither the exact one nor the binary64 one
    (0.7000000000000001). *)
Lemma category_totals_sum_counterexample :
  Forall (fun d => b64 (total d) = total d) example_rounding
  /\ pv_columns (cat_pivot_with sum64 (map add_category example_rounding))
     = [HKI; Publication]
  /\ pv_loc (cat_pivot_with sum64 (map add_category example_rounding)) "U"
     = Some [b64 (2#10); 1#2]
  /\ pv_loc (cat_pivot_with kahan64 (map add_category example_rounding)) "U"
     = Some [b64 (2#10); 1#2]
  /\ ~ Qsum [b64 (2#10); 1#2]
       == Qsum (map total (mapped_records_of example_rounding "U"))
  /\ sum64 [b64 (2#10); 1#2] = b64 (7#10)
  /\ sum64 (map total (mapped_records_of example_rounding "U"))
     = 6305039478318695 # 9007199254740992
  /\ kahan64 (map total (mapped_records_of example_rounding "U"))
     = 6305039478318695 # 9007199254740992
  /\ ~ sum64 [b64 (2#10); 1#2]
       == sum64 (map total (mapped_records_of example_rounding "U")).
Proof.
  split; [repeat constructor|].
  split; [vm_compute; reflexivity|].
  split; [vm_compute; reflexivity|].
  split; [vm_compute; reflexivity|].
  split; [intros H; vm_compute in H; discriminate H|].
  split; [vm_compute; reflexivity|].
  split; [vm_compute; reflexivity|].
  split; [vm_compute; reflexivity|].
  intros H. vm_compute in H. discriminate H.
Qed.

(* ------------------------------------------------------------------ *)
(** ** Simulation engine *)

Lemma category_keys_In {A : Type} (cat : A -> option Category) (df : list A)
    (c : Category) :
  In c (category_keys cat df) <-> exists r, In r df /\ cat r = Some c.
Proof.
  unfold category_keys. rewrite sorted_unique_In, in_flat_map. split.
  - intros (r & Hr & Hin). exists r. split; [exact Hr|].
    destruct (cat r); [|destruct Hin]. destruct Hin as [->|[]]. reflexivity.
  - intros (r & Hr & Hc). exists r. split; [exact Hr|]. rewrite Hc. now left.
Qed.

Lemma groupby_category_keys {A : Type} (cat : A -> option Category) (col : A -> Q)
    (df : list A) :
  map fst (groupby_category_sum cat col df) = category_keys cat df.
Proof.
  unfold groupby_category_sum. fold (category_keys cat df).
  rewrite map_map. cbn [fst]. apply map_id.
Qed.

Lemma has_category_true {A : Type} (cat : A -> option Category) (c : Category) (r : A) :
  has_category cat c r = true <-> cat r = Some c.
Proof.
  unfold has_category. destruct (cat r) as [c'|].
  - rewrite Category_eqb_eq. split; congruence.
  - split; discriminate.
Qed.

(** The total of a category in a grouped series, 0 standing for a category
    that is not in the series. *)
Lemma cat_get_groupby {A : Type} (cat : A -> option Category) (col : A -> Q)
    (df : list A) (c : Category) :
  fillna0 (cat_get (groupby_category_sum cat col df) c)
  = Qsum (map col (filter (has_category cat c) df)).
Proof.
  unfold cat_get, groupby_category_sum. fold (category_keys cat df).
  rewrite (find_key Category_eqb); [|apply Category_eqb_eq].
  destruct (existsb _ (category_keys cat df)) eqn:E; [reflexivity|].
  cbn. rewrite filter_none; [reflexivity|].
  intros r Hr. destruct (has_category cat c r) eqn:G; [|reflexivity].
  apply has_category_true in G.
  assert (Hin : In c (category_keys cat df)) by (apply category_keys_In; now exists r).
  apply (existsb_eqb_In Category_eqb _ _ Category_eqb_eq) in Hin. congruence.
Qed.

Lemma run_simulation_eq (detail_kode : list DetailRow) (selected_affiliation : string)
    (c0 : Category) (sim_categories : list Category) (delta_value : Q) :
  In selected_affiliation (pv_index (cat_pivot_of (map add_category detail_kode))) ->
  run_simulation detail_kode selected_affiliation (c0 :: sim_categories) delta_value
  = Simulated
      (map (simulate_row (c0 :: sim_categories) delta_value)
           (df_aff_detail_of detail_kode selected_affiliation))
      (concat_categories
         (groupby_category_sum category total_of
            (df_aff_detail_of detail_kode selected_affiliation))
         (groupby_category_sum s_category total_sim
            (map (simulate_row (c0 :: sim_categories) delta_value)
                 (df_aff_detail_of detail_kode selected_affiliation)))).
Proof.
  intros Hin. unfold run_simulation, simulate.
  assert (E : existsb (String.eqb selected_affiliation)
                      (pv_index (cat_pivot_of (map add_category detail_kode))) = true).
  { apply existsb_exists. exists selected_affiliation.
    split; [exact Hin | apply String.eqb_refl]. }
  rewrite E.
  assert (Hdf : map (fun r => add_category (d_row r))
                    (filter (fun r => (d_nama_afiliasi (d_row r) =? selected_affiliation)%string)
                            (map add_category detail_kode))
                = df_aff_detail_of detail_kode selected_affiliation).
  { rewrite filter_map_comm, map_map. reflexivity. }
  rewrite Hdf. reflexivity.
Qed.

Lemma run_simulation_empty (detail_kode : list DetailRow) (selected_affiliation : string)
    (delta_value : Q) :
  In selected_affiliation (pv_index (cat_pivot_of (map add_category detail_kode))) ->
  run_simulation detail_kode selected_affiliation [] delta_value = EmptySelection.
Proof.
  intros Hin. unfold run_simulation, simulate.
  assert (E : existsb (String.eqb selected_affiliation)
                      (pv_index (cat_pivot_of (map add_category detail_kode))) = true).
  { apply existsb_exists. exists selected_affiliation.
    split; [exact Hin | apply String.eqb_refl]. }
  now rewrite E.
Qed.

Lemma simulated_rows_in_category (sim_categories : list Category) (delta_value : Q)
    (df : list DetailCat) (c : Category) :
  filter (has_category s_category c) (map (simulate_row sim_categories delta_value) df)
  = map (simulate_row sim_categories delta_value) (filter (has_category category c) df).
Proof. rewrite filter_map_comm. reflexivity. Qed.

Lemma concat_categories_In (original_cat sim_cat : list (Category * Q)) (row : CatSimRow) :
  In row (concat_categories original_cat sim_cat) ->
  (In (cs_category row) (map fst original_cat) \/ In (cs_category row) (map fst sim_cat))
  /\ original_total row = fillna0 (cat_get original_cat (cs_category row))
  /\ simulated_total row = fillna0 (cat_get sim_cat (cs_category row))
  /\ change row = simulated_total row - original_total row
  /\ change_percent row
     = if Qgtb (original_total row) 0
       then Some (change row / original_total row * 100) else None.
Proof.
  unfold concat_categories. intros H. apply in_map_iff in H.
  destruct H as (c & <- & Hc). cbn.
  apply sorted_unique_In, in_app_or in Hc. repeat split; try reflexivity. exact Hc.
Qed.

Lemma concat_categories_has (original_cat sim_cat : list (Category * Q)) (c : Category) :
  In c (map fst original_cat) ->
  exists row, In row (concat_categories original_cat sim_cat) /\ cs_category row = c.
Proof.
  intros Hc. unfold concat_categories.
  eexists. split.
  - apply in_map_iff. exists c. split; [reflexivity|].
    apply sorted_unique_In, in_or_app. now left.
  - reflexivity.
Qed.

Lemma filter_filter {A : Type} (p q : A -> bool) (l : list A) :
  filter p (filter q l) = filter (fun x => q x && p x) l.
Proof.
  induction l as [|x l IH]; [reflexivity|].
  cbn. destruct (q x); cbn; [destruct (p x)|]; now rewrite IH.
Qed.

Lemma df_aff_in_category (detail_kode : list DetailRow) (selected_affiliation : string)
    (c : Category) :
  filter (has_category category c) (df_aff_detail_of detail_kode selected_affiliation)
  = map add_category (records_in detail_kode selected_affiliation c).
Proof.
  unfold df_aff_detail_of, records_in.
  rewrite filter_map_comm, filter_filter. reflexivity.
Qed.

Lemma Qgtb_true_iff (x y : Q) : Qgtb x y = true <-> y < x.
Proof.
  unfold Qgtb. rewrite negb_true_iff. split.
  - apply Qle_bool_false_lt.
  - intros H. destruct (Qle_bool x y) eqn:E; [|reflexivity].
    apply Qle_bool_iff in E. exfalso. exact (Qlt_not_le _ _ H E).
Qed.

Lemma Forall2_map_self {A B : Type} (P : A -> B -> Prop) (f : A -> B) (l : list A) :
  (forall x, In x l -> P x (f x)) -> Forall2 P l (map f l).
Proof.
  induction l as [|x l IH]; intros H; [constructor|].
  cbn. constructor; [apply H; now left|]. apply IH. intros y Hy. apply H. now right.
Qed.

(** The mask of the simulation selects exactly the records whose mapped
    category is one of the chosen ones. *)
Lemma isin_categories_Some (sim_categories : list Category) (c : Category) :
  isin_categories sim_categories (Some c) = true <-> In c sim_categories.
Proof.
  unfold isin_categories. rewrite existsb_exists. split.
  - intros (x & Hx & E). apply Category_eqb_eq in E. now subst x.
  - intros H. exists c. split; [exact H | apply Category_eqb_refl].
Qed.

Lemma category_with_records_grouped (detail_kode : list DetailRow)
    (selected_affiliation : string) (c : Category) :
  records_in detail_kode selected_affiliation c <> [] ->
  In c (map fst (groupby_category_sum category total_of
                   (df_aff_detail_of detail_kode selected_affiliation))).
Proof.
  intros Hc. rewrite groupby_category_keys. apply category_keys_In.
  destruct (records_in detail_kode selected_affiliation c) as [|d l] eqn:E; [congruence|].
  assert (Hd : In (add_category d)
                  (filter (has_category category c)
                          (df_aff_detail_of detail_kode selected_affiliation))).
  { rewrite df_aff_in_category, E. now left. }
  apply filter_In in Hd. destruct Hd as [Hd Hp]. apply has_category_true in Hp.
  now exists (add_category d).
Qed.

(** C7.  A simulation run (an affiliation present in the pivot, a non-empty
    selection) returns a result in which every record whose mapped category
    is one of the selected categories has
    [value_sim = min(1, value + delta_value)] and every other record (mapped
    to an unselected category, or not mapped at all) has [value_sim = value],
    with [total_sim = weight * value_sim] throughout; every category having
    records appears, with [change = simulated_total - original_total] and
    [change_percent = change / original_total * 100] when
    [original_total > 0], undefined otherwise.  This holds for every
    [delta_value], in particular every non-negative one. *)
Theorem simulation_spec (detail_kode : list DetailRow) (selected_affiliation : string)
    (sim_categories : list Category) (delta_value : Q) :
  In selected_affiliation (pv_index (cat_pivot_of (map add_category detail_kode))) ->
  sim_categories <> [] ->
  exists df_sim df_cat_sim,
    run_simulation detail_kode selected_affiliation sim_categories delta_value
    = Simulated df_sim df_cat_sim
    /\ Forall2 (fun d s =>
                  s_row s = d
                  /\ s_category s = CATEGORY_LABELS (kategori_score d)
                  /\ (forall c, CATEGORY_LABELS (kategori_score d) = Some c ->
                                 In c sim_categories ->
                                 value_sim s == Qmin 1 (value d + delta_value))
                  /\ ((forall c, CATEGORY_LABELS (kategori_score d) = Some c ->
                                  ~ In c sim_categories) ->
                      value_sim s = value d)
                  /\ total_sim s = weight d * value_sim s)
               (filter (fun r => (d_nama_afiliasi r =? selected_affiliation)%string)
                       detail_kode)
               df_sim
    /\ (forall c, records_in detail_kode selected_affiliation c <> [] ->
                  exists row, In row df_cat_sim /\ cs_category row = c)
    /\ (forall row, In row df_cat_sim ->
          original_total row
          = Qsum (map total (records_in detail_kode selected_affiliation (cs_category row)))
          /\ simulated_total row
             = Qsum (map total_sim
                         (filter (has_category s_category (cs_category row)) df_sim))
          /\ change row = simulated_total row - original_total row
          /\ (0 < original_total row ->
              change_percent row = Some (change row / original_total row * 100))
          /\ (~ 0 < original_total row -> change_percent row = None)).
Proof.
  intros Hin Hne.
  destruct sim_categories as [|c0 cats]; [congruence|].
  rewrite (run_simulation_eq _ _ _ _ _ Hin).
  eexists. eexists. split; [reflexivity|].
  split; [|split].
  - unfold df_aff_detail_of. rewrite map_map.
    apply Forall2_map_self. intros d _.
    cbn [simulate_row add_category s_row s_category value_sim total_sim d_row category].
    repeat split.
    + intros c Hc Hsel. rewrite Hc, (proj2 (isin_categories_Some _ c) Hsel).
      unfold clip_upper. apply Q.min_comm.
    + intros Hout.
      destruct (isin_categories (c0 :: cats) (CATEGORY_LABELS (kategori_score d))) eqn:Hm;
        [|reflexivity].
      destruct (CATEGORY_LABELS (kategori_score d)) as [c|]; [|discriminate].
      apply isin_categories_Some in Hm. now destruct (Hout c eq_refl).
  - intros c Hc. apply concat_categories_has.
    now apply category_with_records_grouped.
  - intros row Hrow. apply concat_categories_In in Hrow.
    destruct Hrow as (_ & Ho & Hs & Hch & Hpct).
    rewrite cat_get_groupby in Ho. rewrite cat_get_groupby in Hs.
    rewrite df_aff_in_category, map_map in Ho.
    split; [exact Ho|]. split; [exact Hs|]. split; [exact Hch|].
    rewrite Hpct. split.
    + intros Hpos. apply Qgtb_true_iff in Hpos. now rewrite Hpos.
    + intros Hnpos. destruct (Qgtb (original_total row) 0) eqn:E; [|reflexivity].
      apply Qgtb_true_iff in E. contradiction.
Qed.

Lemma simulation_spec_witness :
  In "U" (pv_index (cat_pivot_of (map add_category example_simulation)))
  /\ [Publication] <> []
  /\ exists df_sim df_cat_sim,
       run_simulation example_simulation "U" [Publication] (1#10)
       = Simulated df_sim df_cat_sim
       /\ map (fun s => (kode (s_row s), value_sim s)) df_sim
          = [("P1", 12#20); ("P2", 1); ("H1", 1#4)]
       /\ Forall2 (fun d s =>
                     (forall c, CATEGORY_LABELS (kategori_score d) = Some c ->
                                In c [Publication] ->
                                value_sim s == Qmin 1 (value d + (1#10)))
                     /\ ((forall c, CATEGORY_LABELS (kategori_score d) = Some c ->
                                     ~ In c [Publication]) ->
                         value_sim s = value d))
                  (filter (fun r => (d_nama_afiliasi r =? "U")%string) example_simulation)
                  df_sim
       /\ (forall c, records_in example_simulation "U" c <> [] ->
                     exists row, In row df_cat_sim /\ cs_category row = c).
Proof.
  assert (Hin : In "U" (pv_index (cat_pivot_of (map add_category example_simulation))))
    by (vm_compute; auto).
  assert (Hne : [Publication] <> []) by discriminate.
  split; [exact Hin|]. split; [exact Hne|].
  destruct (simulation_spec example_simulation "U" [Publication] (1#10) Hin Hne)
    as (df_sim & df_cat_sim & Hrun & Hrows & Happ & _).
  exists df_sim, df_cat_sim. split; [exact Hrun|].
  split.
  - assert (Hc : run_simulation example_simulation "U" [Publication] (1#10)
                 = Simulated
                     (map (simulate_row [Publication] (1#10))
                          (df_aff_detail_of example_simulation "U"))
                     (concat_categories
                        (groupby_category_sum category total_of
                           (df_aff_detail_of example_simulation "U"))
                        (groupby_category_sum s_category total_sim
                           (map (simulate_row [Publication] (1#10))
                                (df_aff_detail_of example_simulation "U")))))
      by reflexivity.
    rewrite Hc in Hrun. injection Hrun as <- _. vm_compute. reflexivity.
  - split; [|exact Happ].
    eapply Forall2_impl; [|exact Hrows].
    intros d s (_ & _ & H1 & H2 & _). split; assumption.
Defined.

(** C2 (as amended).  With an empty selection nothing is computed: the run
    stops at the warning that asks for at least one category.  With a
    non-empty selection, a category that has records, is not selected, and
    whose records satisfy [total = weight * value], appears in the result
    with [simulated_total] equal to [original_total] and [change] equal
    to 0. *)
Theorem simulation_untouched_category (detail_kode : list DetailRow)
    (selected_affiliation : string) (sim_categories : list Category) (delta_value : Q)
    (c : Category) :
  In selected_affiliation (pv_index (cat_pivot_of (map add_category detail_kode))) ->
  run_simulation detail_kode selected_affiliation [] delta_value = EmptySelection
  /\ (sim_categories <> [] ->
      ~ In c sim_categories ->
      records_in detail_kode selected_affiliation c <> [] ->
      (forall d, In d (records_in detail_kode selected_affiliation c) ->
                 total d == weight d * value d) ->
      exists df_sim df_cat_sim row,
        run_simulation detail_kode selected_affiliation sim_categories delta_value
        = Simulated df_sim df_cat_sim
        /\ In row df_cat_sim
        /\ cs_category row = c
        /\ simulated_total row == original_total row
        /\ change row == 0).
Proof.
  intros Hin. split; [now apply run_simulation_empty|].
  intros Hne Hc Hrec Htot.
  destruct sim_categories as [|c0 cats]; [congruence|].
  rewrite (run_simulation_eq _ _ _ _ _ Hin).
  destruct (concat_categories_has
              (groupby_category_sum category total_of
                 (df_aff_detail_of detail_kode selected_affiliation))
              (groupby_category_sum s_category total_sim
                 (map (simulate_row (c0 :: cats) delta_value)
                      (df_aff_detail_of detail_kode selected_affiliation)))
              c (category_with_records_grouped _ _ _ Hrec)) as (row & Hrow & Hcat).
  eexists. eexists. exists row.
  split; [reflexivity|]. split; [exact Hrow|]. split; [exact Hcat|].
  apply concat_categories_In in Hrow.
  destruct Hrow as (_ & Ho & Hs & Hch & _).
  rewrite cat_get_groupby in Ho. rewrite cat_get_groupby in Hs.
  rewrite simulated_rows_in_category, map_map in Hs.
  rewrite Hcat in Ho, Hs. rewrite df_aff_in_category, map_map in Ho, Hs.
  assert (Heq : simulated_total row == original_total row).
  { rewrite Ho, Hs. apply Qsum_ext_in. intros d Hd.
    cbn [simulate_row add_category total_sim total_of d_row category].
    assert (Hm : isin_categories (c0 :: cats) (CATEGORY_LABELS (kategori_score d)) = false).
    { unfold records_in in Hd. apply filter_In in Hd. destruct Hd as [_ Hd].
      apply andb_true_iff in Hd. destruct Hd as [_ Hd]. unfold has_label in Hd.
      destruct (CATEGORY_LABELS (kategori_score d)) as [c'|]; [|discriminate].
      apply Category_eqb_eq in Hd. subst c'. unfold isin_categories.
      destruct (existsb (Category_eqb c) (c0 :: cats)) eqn:E; [|reflexivity].
      apply existsb_exists in E. destruct E as (x & Hx & E).
      apply Category_eqb_eq in E. subst x. contradiction. }
    rewrite Hm. symmetry. now apply Htot. }
  split; [exact Heq|]. rewrite Hch, Heq. ring.
Qed.

Lemma simulation_untouched_category_witness :
  In "U" (pv_index (cat_pivot_of (map add_category example_simulation)))
  /\ [Publication] <> []
  /\ ~ In HKI [Publication]
  /\ records_in example_simulation "U" HKI <> []
  /\ (forall d, In d (records_in example_simulation "U" HKI) ->
                total d == weight d * value d)
  /\ exists df_sim df_cat_sim row,
       run_simulation example_simulation "U" [Publication] (1#10)
       = Simulated df_sim df_cat_sim
       /\ In row df_cat_sim
       /\ cs_category row = HKI
       /\ simulated_total row == original_total row
       /\ change row == 0.
Proof.
  assert (Hin : In "U" (pv_index (cat_pivot_of (map add_category example_simulation))))
    by (vm_compute; auto).
  assert (Hne : [Publication] <> []) by discriminate.
  assert (Hc : ~ In HKI [Publication]) by (intros [H|[]]; discriminate H).
  assert (Hrec : records_in example_simulation "U" HKI <> []) by (vm_compute; discriminate).
  assert (Htot : forall d, In d (records_in example_simulation "U" HKI) ->
                           total d == weight d * value d).
  { intros d [<-|[]]. vm_compute. reflexivity. }
  split; [exact Hin|]. split; [exact Hne|]. split; [exact Hc|].
  split; [exact Hrec|]. split; [exact Htot|].
  exact (proj2 (simulation_untouched_category example_simulation "U" [Publication]
                  (1#10) HKI Hin) Hne Hc Hrec Htot).
Defined.

(** A Publication record whose supplied [total] (5) is not
    [weight * value] (1), simulated with only HKI selected: the untouched
    Publication category moves from 5 to 1.  And with an empty selection
    there is no result at all. *)
Lemma simulation_untouched_counterexample :
  (exists df_sim df_cat_sim row,
     run_simulation example_inconsistent "U" [HKI] (1#10) = Simulated df_sim df_cat_sim
     /\ In row df_cat_sim
     /\ cs_category row = Publication
     /\ original_total row == 5
     /\ simulated_total row == 1
     /\ ~ change row == 0)
  /\ run_simulation example_inconsistent "U" [] (1#10) = EmptySelection.
Proof.
  split; [|vm_compute; reflexivity].
  eexists. eexists. eexists.
  split; [vm_compute; reflexivity|].
  split; [right; left; reflexivity|].
  split; [reflexivity|].
  split; [vm_compute; reflexivity|].
  split; [vm_compute; reflexivity|].
  intros H. vm_compute in H. discriminate H.
Qed.

(* ------------------------------------------------------------------ *)
(** ** Comparator *)

Lemma unique_codes_NoDup (l : list string) : unique_codes l = true <-> NoDup l.
Proof.
  induction l as [|c l IH]; cbn.
  - split; [constructor | reflexivity].
  - rewrite andb_true_iff, negb_true_iff, IH, NoDup_cons_iff.
    assert (H : existsb (String.eqb c) l = false <-> ~ In c l).
    { split.
      - intros E Hin. assert (Ht : existsb (String.eqb c) l = true).
        { apply existsb_exists. exists c. split; [exact Hin | apply String.eqb_refl]. }
        congruence.
      - intros Hn. destruct (existsb (String.eqb c) l) eqn:E; [|reflexivity].
        apply existsb_exists in E. destruct E as (x & Hx & E).
        apply String.eqb_eq in E. subst x. contradiction. }
    now rewrite H.
Qed.

Lemma merge_outer_groups (metric_col : MetricCol) (df1 df2 : list MetricsRow) :
  merge_outer metric_col df1 df2
  = flat_map (merge_group metric_col df1 df2)
             (sorted_unique string_dec String.leb (map code df1 ++ map code df2)).
Proof.
  unfold merge_outer. apply flat_map_ext. intros k. unfold merge_group.
  destruct (filter _ df1), (filter _ df2); reflexivity.
Qed.

Lemma filter_code_In (df : list MetricsRow) (k : string) (r : MetricsRow) :
  In r (filter (fun r => (code r =? k)%string) df) <-> In r df /\ code r = k.
Proof. rewrite filter_In, String.eqb_eq. reflexivity. Qed.

Lemma filter_code_nil (df : list MetricsRow) (k : string) :
  filter (fun r => (code r =? k)%string) df = [] <-> ~ In k (map code df).
Proof.
  split.
  - intros E Hin. apply in_map_iff in Hin. destruct Hin as (r & Hc & Hr).
    assert (H : In r (filter (fun r => (code r =? k)%string) df))
      by (apply filter_code_In; auto).
    rewrite E in H. destruct H.
  - intros Hn. apply filter_none. intros r Hr.
    destruct (String.eqb_spec (code r) k) as [E|E]; [|reflexivity].
    exfalso. apply Hn. rewrite <- E. now apply in_map.
Qed.

Lemma merge_group_row (metric_col : MetricCol) (df1 df2 : list MetricsRow) (k : string)
    (m : MergedRow) :
  In m (merge_group metric_col df1 df2 k) ->
  mg_code m = k /\ selected_side metric_col df1 m /\ compare_side metric_col df2 m.
Proof.
  unfold merge_group, selected_side, compare_side.
  destruct (filter (fun r => (code r =? k)%string) df1) as [|a ls] eqn:E1;
    destruct (filter (fun r => (code r =? k)%string) df2) as [|b rs] eqn:E2;
    intros Hm.
  - destruct Hm.
  - apply in_map_iff in Hm. destruct Hm as (b' & <- & Hb).
    rewrite <- E2 in Hb. apply filter_code_In in Hb. destruct Hb as [Hb Hk].
    apply filter_code_nil in E1. cbn. rewrite Hk.
    split; [reflexivity|]. split.
    + right. auto.
    + left. exists b'. auto.
  - apply in_map_iff in Hm. destruct Hm as (a' & <- & Ha).
    rewrite <- E1 in Ha. apply filter_code_In in Ha. destruct Ha as [Ha Hk].
    apply filter_code_nil in E2. cbn. rewrite Hk.
    split; [reflexivity|]. split.
    + left. exists a'. auto.
    + right. auto.
  - apply in_flat_map in Hm. destruct Hm as (a' & Ha & Hm).
    apply in_map_iff in Hm. destruct Hm as (b' & <- & Hb).
    rewrite <- E1 in Ha. apply filter_code_In in Ha. destruct Ha as [Ha Hka].
    rewrite <- E2 in Hb. apply filter_code_In in Hb. destruct Hb as [Hb Hkb].
    cbn. rewrite Hka.
    split; [reflexivity|]. split.
    + left. exists a'. auto.
    + left. exists b'. auto.
Qed.

Lemma merge_group_nonempty (metric_col : MetricCol) (df1 df2 : list MetricsRow)
    (k : string) :
  In k (map code df1 ++ map code df2) ->
  exists m, In m (merge_group metric_col df1 df2 k).
Proof.
  intros Hk. unfold merge_group.
  destruct (filter (fun r => (code r =? k)%string) df1) as [|a ls] eqn:E1;
    destruct (filter (fun r => (code r =? k)%string) df2) as [|b rs] eqn:E2.
  - exfalso. apply filter_code_nil in E1. apply filter_code_nil in E2.
    apply in_app_or in Hk. tauto.
  - eexists. left. reflexivity.
  - eexists. left. reflexivity.
  - eexists. cbn. left. reflexivity.
Qed.

Lemma merge_outer_codes (metric_col : MetricCol) (df1 df2 : list MetricsRow) (c : string) :
  In c (map mg_code (merge_outer metric_col df1 df2))
  <-> In c (map code df1) \/ In c (map code df2).
Proof.
  rewrite merge_outer_groups, <- in_app_iff, in_map_iff. split.
  - intros (m & <- & Hm). apply in_flat_map in Hm. destruct Hm as (k & Hk & Hm).
    apply merge_group_row in Hm. destruct Hm as (-> & _).
    now apply sorted_unique_In in Hk.
  - intros Hc. destruct (merge_group_nonempty metric_col df1 df2 c Hc) as (m & Hm).
    exists m. split; [now apply merge_group_row in Hm|].
    apply in_flat_map. exists c. split; [now apply sorted_unique_In | exact Hm].
Qed.

Lemma filter_code_unique (df : list MetricsRow) (k : string) :
  NoDup (map code df) ->
  (List.length (filter (fun r => (code r =? k)%string) df) <= 1)%nat.
Proof.
  induction df as [|r df IH]; intros Hnd; [cbn; lia|].
  cbn [map] in Hnd. apply NoDup_cons_iff in Hnd. destruct Hnd as [Hr Hnd].
  cbn [filter]. destruct (String.eqb_spec (code r) k) as [E|E].
  - assert (Hnil : filter (fun r => (code r =? k)%string) df = []).
    { apply filter_code_nil. now rewrite <- E. }
    rewrite Hnil. cbn. lia.
  - now apply IH.
Qed.

(** With unique codes on both sides every key gives exactly one merged row. *)
Lemma merge_outer_unique (metric_col : MetricCol) (df1 df2 : list MetricsRow) :
  NoDup (map code df1) -> NoDup (map code df2) ->
  map mg_code (merge_outer metric_col df1 df2)
  = sorted_unique string_dec String.leb (map code df1 ++ map code df2).
Proof.
  intros H1 H2. rewrite merge_outer_groups.
  assert (Hall : forall k,
             In k (sorted_unique string_dec String.leb (map code df1 ++ map code df2)) ->
             map mg_code (merge_group metric_col df1 df2 k) = [k]).
  { intros k Hk. apply sorted_unique_In in Hk.
    pose proof (filter_code_unique df1 k H1) as L1.
    pose proof (filter_code_unique df2 k H2) as L2.
    pose proof (merge_group_nonempty metric_col df1 df2 k Hk) as (m0 & Hm0).
    assert (Hcodes : forall m, In m (merge_group metric_col df1 df2 k) -> mg_code m = k).
    { intros m Hm. now apply merge_group_row in Hm. }
    revert Hm0 Hcodes. unfold merge_group.
    destruct (filter (fun r => (code r =? k)%string) df1) as [|a [|a' ls]];
      destruct (filter (fun r => (code r =? k)%string) df2) as [|b [|b' rs]];
      cbn in L1, L2; try lia; intros Hm0 Hcodes; cbn [map flat_map app];
      [destruct Hm0 | | | ]; (f_equal; apply Hcodes; cbn [map flat_map app]; now left). }
  induction (sorted_unique string_dec String.leb (map code df1 ++ map code df2))
    as [|k ks IH]; [reflexivity|].
  cbn [flat_map]. rewrite map_app, Hall by now left.
  cbn. f_equal. apply IH. intros k' Hk'. apply Hall. now right.
Qed.

Lemma compare_universities_df_ok (df_md : list MetricsRow) (aff1 aff2 : string)
    (metric_col : MetricCol) :
  NoDup (codes_of df_md aff2) ->
  compare_universities_df df_md aff1 aff2 metric_col
  = Ok (map (fun m => finish_row m (name_of_code (rows_named df_md aff2) (mg_code m)))
            (merge_outer metric_col (rows_named df_md aff1) (rows_named df_md aff2))).
Proof.
  intros Hnd. unfold compare_universities_df, map_name.
  fold (rows_named df_md aff1). fold (rows_named df_md aff2).
  apply unique_codes_NoDup in Hnd. unfold codes_of in Hnd.
  fold (rows_named df_md aff2) in Hnd. rewrite Hnd.
  rewrite map_map, combine_map_self, map_map. reflexivity.
Qed.

Lemma compare_universities_df_raise (df_md : list MetricsRow) (aff1 aff2 : string)
    (metric_col : MetricCol) :
  ~ NoDup (codes_of df_md aff2) ->
  compare_universities_df df_md aff1 aff2 metric_col = Raise InvalidIndexError.
Proof.
  intros Hnd. unfold compare_universities_df, map_name.
  fold (rows_named df_md aff2).
  destruct (unique_codes (map code (rows_named df_md aff2))) eqn:E; [|reflexivity].
  exfalso. apply Hnd. now apply unique_codes_NoDup.
Qed.

Lemma rows_named_In (df_md : list MetricsRow) (aff : string) (r : MetricsRow) :
  In r (rows_named df_md aff) <-> In r df_md /\ affiliation_name r = aff.
Proof. unfold rows_named. rewrite filter_In, String.eqb_eq. reflexivity. Qed.

Lemma Qeq_bool_false_iff (x y : Q) : Qeq_bool x y = false <-> ~ x == y.
Proof.
  split.
  - intros E H. apply Qeq_bool_iff in H. congruence.
  - intros H. destruct (Qeq_bool x y) eqn:E; [|reflexivity].
    apply Qeq_bool_iff in E. contradiction.
Qed.

Lemma filter_all {A : Type} (p : A -> bool) (l : list A) :
  (forall x, In x l -> p x = true) -> filter p l = l.
Proof.
  induction l as [|x l IH]; intros H; [reflexivity|].
  cbn. rewrite (H x (or_introl eq_refl)). f_equal. apply IH.
  intros y Hy. apply H. now right.
Qed.

(** The rows of one key within the outer join: the keys are pairwise
    distinct, so the rows carrying a key are the rows of its group. *)
Lemma merge_outer_rows_of_code (metric_col : MetricCol) (df1 df2 : list MetricsRow)
    (c : string) :
  filter (fun m => (mg_code m =? c)%string) (merge_outer metric_col df1 df2)
  = merge_group metric_col df1 df2 c.
Proof.
  rewrite merge_outer_groups.
  assert (Hother : forall k, k <> c ->
             filter (fun m => (mg_code m =? c)%string) (merge_group metric_col df1 df2 k)
             = []).
  { intros k Hk. apply filter_none. intros m Hm. apply merge_group_row in Hm.
    destruct Hm as (-> & _). now apply String.eqb_neq. }
  assert (Hsame : filter (fun m => (mg_code m =? c)%string)
                         (merge_group metric_col df1 df2 c)
                  = merge_group metric_col df1 df2 c).
  { apply filter_all. intros m Hm. apply merge_group_row in Hm.
    destruct Hm as (-> & _). apply String.eqb_refl. }
  assert (Habsent : ~ In c (sorted_unique string_dec String.leb (map code df1 ++ map code df2))
                    -> merge_group metric_col df1 df2 c = []).
  { intros Hn. rewrite sorted_unique_In, in_app_iff in Hn. unfold merge_group.
    assert (H1 : filter (fun r => (code r =? c)%string) df1 = [])
      by (apply filter_code_nil; tauto).
    assert (H2 : filter (fun r => (code r =? c)%string) df2 = [])
      by (apply filter_code_nil; tauto).
    now rewrite H1, H2. }
  pose proof (sorted_unique_NoDup string_dec String.leb (map code df1 ++ map code df2))
    as Hnd.
  induction (sorted_unique string_dec String.leb (map code df1 ++ map code df2))
    as [|k ks IH].
  - cbn. symmetry. apply Habsent. intros [].
  - apply NoDup_cons_iff in Hnd. destruct Hnd as [Hk Hnd].
    cbn [flat_map]. rewrite filter_app.
    destruct (string_dec k c) as [E|E].
    + subst k. rewrite Hsame.
      assert (Hrest : filter (fun m => (mg_code m =? c)%string)
                             (flat_map (merge_group metric_col df1 df2) ks) = []).
      { apply filter_none. intros m Hm. apply in_flat_map in Hm.
        destruct Hm as (k & Hks & Hm). apply merge_group_row in Hm.
        destruct Hm as (-> & _). apply String.eqb_neq. intros ->. contradiction. }
      rewrite Hrest. apply app_nil_r.
    + rewrite (Hother k E). cbn [app]. apply IH; [|exact Hnd].
      intros Hn. apply Habsent. intros [Hc|Hc]; [contradiction | now apply Hn].
Qed.

(** The group of a key when the right side holds it at most once: one row
    per left record of the key, or the single right record alone. *)
Lemma merge_group_scores (metric_col : MetricCol) (df1 df2 : list MetricsRow) (c : string) :
  NoDup (map code df2) ->
  (In c (map code df1) ->
   map (fun m => fillna0 (mg_score_selected m)) (merge_group metric_col df1 df2 c)
   = map (metric metric_col) (filter (fun r => (code r =? c)%string) df1))
  /\ (~ In c (map code df1) -> In c (map code df2) ->
      List.length (merge_group metric_col df1 df2 c) = 1%nat).
Proof.
  intros Hnd. pose proof (filter_code_unique df2 c Hnd) as L2.
  unfold merge_group. split.
  - intros Hc.
    destruct (filter (fun r => (code r =? c)%string) df1) as [|a ls] eqn:E1.
    { apply filter_code_nil in E1. contradiction. }
    destruct (filter (fun r => (code r =? c)%string) df2) as [|b [|b' rs]];
      cbn in L2; try lia.
    + rewrite map_map. reflexivity.
    + generalize (a :: ls). intros l.
      induction l as [|x l IH]; [reflexivity|]. cbn. f_equal. exact IH.
  - intros Hn Hc.
    apply filter_code_nil in Hn. rewrite Hn.
    destruct (filter (fun r => (code r =? c)%string) df2) as [|b [|b' rs]] eqn:E2;
      cbn in L2; try lia; [|reflexivity].
    apply filter_code_nil in E2. contradiction.
Qed.

(** C5 (as amended).  When the codes of B's records are pairwise distinct the
    comparator returns a table whose codes are exactly the codes present for
    A or for B; each row has the score of a record with that code on either
    side, or 0 when the code is absent from that side; [diff_abs] is
    [score_selected - score_compare]; and [diff_pct] is undefined exactly
    when [score_compare] is 0.  When the codes of A's records are pairwise
    distinct as well, every code appears exactly once.  In general a code
    held by A appears once per record of A with that code, the rows carrying
    the scores of these records in their order, and a code held by B alone
    appears once. *)
Theorem comparator_outer_join (df_md : list MetricsRow) (aff1 aff2 : string)
    (metric_col : MetricCol) :
  NoDup (codes_of df_md aff2) ->
  exists rows,
    compare_universities_df df_md aff1 aff2 metric_col = Ok rows
    /\ (forall c, In c (map c_code rows)
                  <-> In c (codes_of df_md aff1) \/ In c (codes_of df_md aff2))
    /\ (NoDup (codes_of df_md aff1) -> NoDup (map c_code rows))
    /\ (forall r, In r rows ->
          ((exists a, In a df_md /\ affiliation_name a = aff1 /\ code a = c_code r
                      /\ score_selected r = metric metric_col a)
           \/ (~ In (c_code r) (codes_of df_md aff1) /\ score_selected r = 0))
          /\ ((exists b, In b df_md /\ affiliation_name b = aff2 /\ code b = c_code r
                         /\ score_compare r = metric metric_col b)
              \/ (~ In (c_code r) (codes_of df_md aff2) /\ score_compare r = 0))
          /\ diff_abs r = score_selected r - score_compare r
          /\ (diff_pct r = None <-> score_compare r == 0)
          /\ (~ score_compare r == 0 ->
              diff_pct r = Some (diff_abs r / score_compare r * 100)))
    /\ (forall c, In c (codes_of df_md aff1) ->
          map score_selected (filter (fun r => (c_code r =? c)%string) rows)
          = map (metric metric_col)
                (filter (fun a => (code a =? c)%string) (rows_named df_md aff1)))
    /\ (forall c, ~ In c (codes_of df_md aff1) -> In c (codes_of df_md aff2) ->
          List.length (filter (fun r => (c_code r =? c)%string) rows) = 1%nat).
Proof.
  intros Hnd. rewrite (compare_universities_df_ok _ _ _ _ Hnd).
  eexists. split; [reflexivity|].
  set (df1 := rows_named df_md aff1). set (df2 := rows_named df_md aff2).
  assert (Hcodes : map c_code
                     (map (fun m => finish_row m (name_of_code df2 (mg_code m)))
                          (merge_outer metric_col df1 df2))
                   = map mg_code (merge_outer metric_col df1 df2)).
  { rewrite map_map. reflexivity. }
  assert (Hrows : forall c,
             filter (fun r => (c_code r =? c)%string)
                    (map (fun m => finish_row m (name_of_code df2 (mg_code m)))
                         (merge_outer metric_col df1 df2))
             = map (fun m => finish_row m (name_of_code df2 (mg_code m)))
                   (merge_group metric_col df1 df2 c)).
  { intros c. rewrite filter_map_comm. cbn [finish_row c_code].
    now rewrite merge_outer_rows_of_code. }
  split; [|split; [|split; [|split]]].
  - intros c. rewrite Hcodes. apply merge_outer_codes.
  - intros Hnd1. rewrite Hcodes, merge_outer_unique; [apply sorted_unique_NoDup | |];
      assumption.
  - intros r Hr. apply in_map_iff in Hr. destruct Hr as (m & <- & Hm).
    rewrite merge_outer_groups in Hm. apply in_flat_map in Hm.
    destruct Hm as (k & _ & Hm). apply merge_group_row in Hm.
    destruct Hm as (_ & Hsel & Hcmp).
    cbn [finish_row c_code score_selected score_compare diff_abs diff_pct].
    split; [|split; [|split; [reflexivity|split]]].
    + destruct Hsel as [(a & Ha & Hc & Hs & _)|(Hn & Hs & _)].
      * left. exists a. apply rows_named_In in Ha. destruct Ha as [Ha Hn].
        rewrite Hs. cbn. auto.
      * right. rewrite Hs. cbn. auto.
    + destruct Hcmp as [(b & Hb & Hc & Hs & _)|(Hn & Hs & _)].
      * left. exists b. apply rows_named_In in Hb. destruct Hb as [Hb Hn].
        rewrite Hs. cbn. auto.
      * right. rewrite Hs. cbn. auto.
    + destruct (Qeq_bool (fillna0 (mg_score_compare m)) 0) eqn:E; cbn [negb].
      * apply Qeq_bool_iff in E. split; [intros _; exact E | reflexivity].
      * apply Qeq_bool_false_iff in E. split; [discriminate | contradiction].
    + intros Hnz. apply Qeq_bool_false_iff in Hnz. now rewrite Hnz.
  - intros c Hc. rewrite Hrows, map_map. cbn [finish_row score_selected].
    exact (proj1 (merge_group_scores metric_col df1 df2 c Hnd) Hc).
  - intros c Hn Hc. rewrite Hrows, length_map.
    exact (proj2 (merge_group_scores metric_col df1 df2 c Hnd) Hn Hc).
Qed.

Lemma comparator_outer_join_witness :
  NoDup (codes_of example_join "UB")
  /\ NoDup (codes_of example_join "UA")
  /\ (exists rows,
        compare_universities_df example_join "UA" "UB" col_overall_total = Ok rows
        /\ NoDup (map c_code rows))
  /\ NoDup (codes_of example_dup_join "UB")
  /\ In "C1" (codes_of example_dup_join "UA")
  /\ ~ In "C3" (codes_of example_dup_join "UA")
  /\ In "C3" (codes_of example_dup_join "UB")
  /\ exists rows,
       compare_universities_df example_dup_join "UA" "UB" col_overall_total = Ok rows
       /\ map score_selected (filter (fun r => (c_code r =? "C1")%string) rows) = [5; 3]
       /\ List.length (filter (fun r => (c_code r =? "C3")%string) rows) = 1%nat.
Proof.
  assert (HB : NoDup (codes_of example_join "UB")) by solve_NoDup.
  assert (HA : NoDup (codes_of example_join "UA")) by solve_NoDup.
  assert (HB' : NoDup (codes_of example_dup_join "UB")) by solve_NoDup.
  assert (H1 : In "C1" (codes_of example_dup_join "UA")) by (left; reflexivity).
  assert (H3 : ~ In "C3" (codes_of example_dup_join "UA")).
  { intros H. repeat (destruct H as [H|H]; [discriminate H|]). exact H. }
  assert (H3' : In "C3" (codes_of example_dup_join "UB")) by (right; left; reflexivity).
  split; [exact HB|]. split; [exact HA|]. split.
  { destruct (comparator_outer_join example_join "UA" "UB" col_overall_total HB)
      as (rows & Hok & _ & Hnd & _).
    exists rows. split; [exact Hok | exact (Hnd HA)]. }
  split; [exact HB'|]. split; [exact H1|]. split; [exact H3|]. split; [exact H3'|].
  destruct (comparator_outer_join example_dup_join "UA" "UB" col_overall_total HB')
    as (rows & Hok & _ & _ & _ & Hmany & Hone).
  exists rows. split; [exact Hok|]. split; [exact (Hmany "C1" H1) | exact (Hone "C3" H3 H3')].
Defined.

(** A has two records with code C1 and B has none: the comparison returns
    two rows for C1. *)
Lemma comparator_outer_join_counterexample :
  exists rows,
    compare_universities_df example_dup_selected "UA" "UB" col_overall_total = Ok rows
    /\ map c_code rows = ["C1"; "C1"]
    /\ ~ NoDup (map c_code rows).
Proof.
  eexists. split; [vm_compute; reflexivity|].
  split; [reflexivity|].
  intros H. apply NoDup_cons_iff in H. destruct H as [H _]. apply H. now left.
Qed.

(** C10.  The comparator raises an error exactly when two of B's records
    share a code: the name back-fill looks codes up in a mapping indexed by
    B's codes.  With A = UA holding one record and B = UB holding two
    records of code C1 the call raises instead of returning a join. *)
Theorem comparator_partial_on_duplicates :
  (forall df_md aff1 aff2 metric_col,
     ~ NoDup (codes_of df_md aff2) ->
     compare_universities_df df_md aff1 aff2 metric_col = Raise InvalidIndexError)
  /\ (forall df_md aff1 aff2 metric_col,
        NoDup (codes_of df_md aff2) ->
        exists rows, compare_universities_df df_md aff1 aff2 metric_col = Ok rows)
  /\ List.length (rows_named example_dup_compare "UA") = 1%nat
  /\ codes_of example_dup_compare "UB" = ["C1"; "C1"]
  /\ compare_universities_df example_dup_compare "UA" "UB" col_overall_total
     = Raise InvalidIndexError.
Proof.
  split; [|split; [|split; [|split]]].
  - intros. now apply compare_universities_df_raise.
  - intros df_md aff1 aff2 metric_col Hnd.
    rewrite (compare_universities_df_ok _ _ _ _ Hnd). eexists. reflexivity.
  - reflexivity.
  - reflexivity.
  - vm_compute. reflexivity.
Qed.

Lemma comparator_partial_on_duplicates_witness :
  ~ NoDup (codes_of example_dup_compare "UB")
  /\ compare_universities_df example_dup_compare "UA" "UB" col_3yr_total
     = Raise InvalidIndexError
  /\ NoDup (codes_of example_join "UB")
  /\ exists rows,
       compare_universities_df example_join "UA" "UB" col_3yr_total = Ok rows.
Proof.
  assert (Hd : ~ NoDup (codes_of example_dup_compare "UB")).
  { intros H. apply NoDup_cons_iff in H. destruct H as [H _]. apply H. now left. }
  assert (Hu : NoDup (codes_of example_join "UB")) by solve_NoDup.
  split; [exact Hd|]. split.
  - exact (proj1 comparator_partial_on_duplicates _ "UA" "UB" col_3yr_total Hd).
  - split; [exact Hu|].
    exact (proj1 (proj2 comparator_partial_on_duplicates) _ "UA" "UB" col_3yr_total Hu).
Defined.

(* ------------------------------------------------------------------ *)
(** ** Comparison summary *)

Lemma count_perm {A : Type} (p : A -> bool) (l l' : list A) :
  Permutation l l' -> count p l = count p l'.
Proof.
  unfold count. induction 1 as [|x l l' _ IH|x y l|l l' l'' _ IH1 _ IH2]; cbn.
  - reflexivity.
  - destruct (p x); cbn; now rewrite IH.
  - destruct (p x), (p y); reflexivity.
  - congruence.
Qed.

Lemma count_app {A : Type} (p : A -> bool) (l l' : list A) :
  count p (l ++ l') = (count p l + count p l')%nat.
Proof. unfold count. now rewrite filter_app, length_app. Qed.

Lemma count_firstn_le {A : Type} (p : A -> bool) (n : nat) (l : list A) :
  (count p (firstn n l) <= count p l)%nat.
Proof.
  rewrite <- (firstn_skipn n l) at 2. rewrite count_app. lia.
Qed.

(** Every row is counted by exactly one of the three counters. *)
Lemma summary_total (df : list ComparisonRow) :
  (better (summary_of df) + worse (summary_of df) + equal (summary_of df))%nat
  = List.length df.
Proof.
  unfold summary_of, count. cbn [better worse equal].
  induction df as [|r df IH]; [reflexivity|].
  cbn [filter List.length].
  destruct (Qcompare_spec (diff_abs r) 0) as [E|L|G].
  - assert (H1 : Qgtb (diff_abs r) 0 = false).
    { unfold Qgtb. apply negb_false_iff, Qle_bool_iff. rewrite E. apply Qle_refl. }
    assert (H2 : Qltb (diff_abs r) 0 = false).
    { unfold Qltb. apply negb_false_iff, Qle_bool_iff. rewrite E. apply Qle_refl. }
    assert (H3 : Qeq_bool (diff_abs r) 0 = true) by now apply Qeq_bool_iff.
    rewrite H1, H2, H3. cbn [List.length]. lia.
  - assert (H1 : Qgtb (diff_abs r) 0 = false).
    { unfold Qgtb. apply negb_false_iff, Qle_bool_iff. now apply Qlt_le_weak. }
    assert (H2 : Qltb (diff_abs r) 0 = true) by now apply Qgtb_true_iff.
    assert (H3 : Qeq_bool (diff_abs r) 0 = false).
    { apply Qeq_bool_false_iff. intros E. rewrite E in L. now apply Qlt_irrefl in L. }
    rewrite H1, H2, H3. cbn [List.length]. lia.
  - assert (H1 : Qgtb (diff_abs r) 0 = true) by now apply Qgtb_true_iff.
    assert (H2 : Qltb (diff_abs r) 0 = false).
    { unfold Qltb. apply negb_false_iff, Qle_bool_iff. now apply Qlt_le_weak. }
    assert (H3 : Qeq_bool (diff_abs r) 0 = false).
    { apply Qeq_bool_false_iff. intros E. rewrite E in G. now apply Qlt_irrefl in G. }
    rewrite H1, H2, H3. cbn [List.length]. lia.
Qed.

Lemma summary_of_perm (l l' : list ComparisonRow) :
  Permutation l l' -> summary_of l = summary_of l'.
Proof.
  intros H. unfold summary_of.
  now rewrite (count_perm _ _ _ H), (count_perm _ _ _ H), (count_perm _ _ _ H).
Qed.

(** The counters over the rows that are shown against the counters over the
    whole filtered comparison. *)
Lemma shown_summary (K : sort_kind) (full : list ComparisonRow) (show_n : nat) :
  let shown := firstn show_n (sort_values K (fun r => Qabs (diff_abs r)) false full) in
  (better (summary_of shown) <= better (summary_of full))%nat
  /\ (worse (summary_of shown) <= worse (summary_of full))%nat
  /\ (equal (summary_of shown) <= equal (summary_of full))%nat
  /\ (better (summary_of shown) + worse (summary_of shown) + equal (summary_of shown))%nat
     = Nat.min show_n (List.length full)
  /\ ((List.length full <= show_n)%nat -> summary_of shown = summary_of full).
Proof.
  intros shown.
  pose proof (sort_values_perm K (fun r => Qabs (diff_abs r)) false full) as Hp.
  rewrite <- (summary_of_perm _ _ Hp).
  repeat split.
  - apply count_firstn_le.
  - apply count_firstn_le.
  - apply count_firstn_le.
  - rewrite summary_total. unfold shown.
    now rewrite length_firstn, sort_values_length.
  - intros Hlen. unfold shown. rewrite firstn_all2; [reflexivity|].
    now rewrite sort_values_length.
Qed.

Lemma compare_tab_eq (upper : string -> string) (K : sort_kind) (df_md : list MetricsRow)
    (aff_a aff_b : string)
    (metric_col : MetricCol) (cat_filter : list string) (show_n : nat) :
  compare_tab upper K df_md aff_a aff_b metric_col cat_filter show_n
  = match filtered_comparison upper df_md aff_a aff_b metric_col cat_filter with
    | Raise e => Raise e
    | Ok full =>
        Ok (summary_of (firstn show_n
                          (sort_values K (fun r => Qabs (diff_abs r)) false full)),
            firstn show_n (sort_values K (fun r => Qabs (diff_abs r)) false full))
    end.
Proof.
  unfold compare_tab, filtered_comparison.
  destruct (compare_universities_df _ _ _ _); reflexivity.
Qed.

(** C1 (as amended).  The three counters are computed over the rows that are
    left after the sort on [|diff_abs|] and the cut to [show_n] rows.  They
    never exceed the counts over the full category-filtered comparison, they
    add up to [min show_n (size of the filtered comparison)], and they equal
    the full counts whenever the filtered comparison has at most [show_n]
    rows.  An error of the comparator is passed on. *)
Theorem comparison_summary (upper : string -> string) (K : sort_kind)
    (df_md : list MetricsRow) (aff_a aff_b : string)
    (metric_col : MetricCol) (cat_filter : list string) (show_n : nat) :
  (forall full,
     filtered_comparison upper df_md aff_a aff_b metric_col cat_filter = Ok full ->
     exists shown,
       compare_tab upper K df_md aff_a aff_b metric_col cat_filter show_n
       = Ok (summary_of shown, shown)
       /\ shown = firstn show_n (sort_values K (fun r => Qabs (diff_abs r)) false full)
       /\ (better (summary_of shown) <= better (summary_of full))%nat
       /\ (worse (summary_of shown) <= worse (summary_of full))%nat
       /\ (equal (summary_of shown) <= equal (summary_of full))%nat
       /\ (better (summary_of shown) + worse (summary_of shown)
           + equal (summary_of shown))%nat
          = Nat.min show_n (List.length full)
       /\ ((List.length full <= show_n)%nat -> summary_of shown = summary_of full))
  /\ (forall e,
        filtered_comparison upper df_md aff_a aff_b metric_col cat_filter = Raise e ->
        compare_tab upper K df_md aff_a aff_b metric_col cat_filter show_n = Raise e).
Proof.
  rewrite compare_tab_eq. split.
  - intros full Hfull. rewrite Hfull. eexists. split; [reflexivity|].
    split; [reflexivity|]. apply shown_summary.
  - intros e He. now rewrite He.
Qed.

Lemma comparison_summary_witness :
  exists full shown,
    filtered_comparison ascii_upper example_join "ua" "ub" col_overall_total
        ["Publikasi"] = Ok full
    /\ compare_tab ascii_upper stable_kind example_join "ua" "ub" col_overall_total
        ["Publikasi"] 10
       = Ok (summary_of shown, shown)
    /\ ((List.length full <= 10)%nat -> summary_of shown = summary_of full).
Proof.
  eexists.
  assert (Hfull : filtered_comparison ascii_upper example_join "ua" "ub" col_overall_total
                    ["Publikasi"]
                  = Ok _) by (vm_compute; reflexivity).
  destruct (proj1 (comparison_summary ascii_upper stable_kind example_join "ua" "ub"
                     col_overall_total ["Publikasi"] 10) _ Hfull)
    as (shown & Htab & _ & _ & _ & _ & _ & Hall).
  exists shown. split; [exact Hfull|]. split; [exact Htab | exact Hall].
Defined.

(** Eleven indicators on which A is ahead of B, shown with [show_n = 10]:
    the counter of indicators where A is higher reads 10, whatever the sort
    kind, while the full comparison has 11 of them. *)
Lemma comparison_summary_counterexample :
  exists full,
    filtered_comparison ascii_upper example_eleven_metrics "ua" "ub" col_overall_total []
        = Ok full
    /\ summary_of full = {| better := 11; worse := 0; equal := 0 |}
    /\ forall K : sort_kind,
         exists shown,
           compare_tab ascii_upper K example_eleven_metrics "ua" "ub" col_overall_total [] 10
           = Ok (summary_of shown, shown)
           /\ summary_of shown = {| better := 10; worse := 0; equal := 0 |}
           /\ summary_of shown <> summary_of full.
Proof.
  eexists.
  assert (Hfull : filtered_comparison ascii_upper example_eleven_metrics "ua" "ub"
                    col_overall_total [] = Ok _) by (vm_compute; reflexivity).
  split; [exact Hfull|].
  match type of Hfull with _ = Ok ?f => set (full := f) in * end.
  assert (Hs : summary_of full = {| better := 11; worse := 0; equal := 0 |})
    by (vm_compute; reflexivity).
  split; [exact Hs|].
  intros K. rewrite compare_tab_eq, Hfull. eexists. split; [reflexivity|].
  destruct (shown_summary K full 10) as (Hb & Hw & He & Hsum & _).
  rewrite Hs in Hb, Hw, He. cbn [better worse equal] in Hb, Hw, He.
  assert (Hlen : List.length full = 11%nat) by reflexivity.
  rewrite Hlen in Hsum. cbn [Nat.min] in Hsum.
  destruct (summary_of (firstn 10 (sort_values K (fun r => Qabs (diff_abs r)) false full)))
    as [b w e].
  cbn [better worse equal] in *.
  assert (w = 0%nat) by lia. assert (e = 0%nat) by lia. assert (b = 10%nat) by lia.
  subst. split; [reflexivity|]. rewrite Hs. discriminate.
Qed.
(* ------------------------------------------------------------------ *)
(** * Further properties *)

(** ** Positions in a sorted table *)

Lemma count_le_length {A : Type} (p : A -> bool) (l : list A) :
  (count p l <= List.length l)%nat.
Proof. unfold count. apply filter_length_le. Qed.

Lemma count_all {A : Type} (p : A -> bool) (l : list A) :
  Forall (fun x => p x = true) l -> count p l = List.length l.
Proof.
  unfold count. induction 1 as [|x l Hx _ IH]; [reflexivity|].
  cbn. rewrite Hx. cbn. now rewrite IH.
Qed.

Lemma count_none {A : Type} (p : A -> bool) (l : list A) :
  Forall (fun x => p x = false) l -> count p l = 0%nat.
Proof.
  unfold count. intros H. rewrite filter_none; [reflexivity|].
  now apply Forall_forall.
Qed.

Lemma StronglySorted_middle {A : Type} (R : A -> A -> Prop) (l1 l2 : list A) (x : A) :
  StronglySorted R (l1 ++ x :: l2) ->
  Forall (fun a => R a x) l1 /\ Forall (R x) l2.
Proof.
  induction l1 as [|a l1 IH]; cbn; intros H.
  - apply StronglySorted_inv in H. destruct H as [_ H]. split; [constructor | exact H].
  - apply StronglySorted_inv in H. destruct H as [Hs Ha].
    destruct (IH Hs) as [H1 H2]. split; [|exact H2].
    constructor; [|exact H1].
    rewrite Forall_forall in Ha. apply Ha. apply in_or_app. right. now left.
Qed.

Lemma StronglySorted_cross {A : Type} (R : A -> A -> Prop) (l1 l2 : list A) :
  StronglySorted R (l1 ++ l2) ->
  forall x y, In x l1 -> In y l2 -> R x y.
Proof.
  induction l1 as [|a l1 IH]; cbn; intros H x y Hx Hy; [destruct Hx|].
  apply StronglySorted_inv in H. destruct H as [Hs Ha].
  destruct Hx as [->|Hx].
  - rewrite Forall_forall in Ha. apply Ha. apply in_or_app. now right.
  - now apply (IH Hs).
Qed.

(** In a table sorted descending on [key], the row at position [i] has at
    most [i] rows with a strictly larger key, and more than [i] rows with a
    key at least as large. *)
Lemma sorted_position_bounds {A : Type} (key : A -> Q) (s : list A) (i : nat) (x : A) :
  StronglySorted (fun a b => key b <= key a) s ->
  nth_error s i = Some x ->
  (count (fun y => Qgtb (key y) (key x)) s <= i)%nat
  /\ (i < count (fun y => Qle_bool (key x) (key y)) s)%nat.
Proof.
  intros Hs Hi. apply nth_error_split in Hi.
  destruct Hi as (pre & post & -> & <-).
  apply StronglySorted_middle in Hs. destruct Hs as [Hpre Hpost].
  rewrite !count_app.
  change (x :: post) with ([x] ++ post). rewrite !count_app.
  assert (H1 : count (fun y => Qgtb (key y) (key x)) post = 0%nat).
  { apply count_none. eapply Forall_impl; [|exact Hpost]. cbn. intros b Hb.
    unfold Qgtb. apply negb_false_iff. now apply Qle_bool_iff. }
  assert (H2 : count (fun y => Qgtb (key y) (key x)) [x] = 0%nat).
  { apply count_none. constructor; [|constructor].
    unfold Qgtb. apply negb_false_iff, Qle_bool_iff, Qle_refl. }
  assert (H3 : count (fun y => Qle_bool (key x) (key y)) pre = List.length pre).
  { apply count_all. eapply Forall_impl; [|exact Hpre]. cbn. intros a Ha.
    now apply Qle_bool_iff. }
  assert (H4 : count (fun y => Qle_bool (key x) (key y)) [x] = 1%nat).
  { apply (count_all _ [x]). constructor; [|constructor]. apply Qle_bool_iff, Qle_refl. }
  pose proof (count_le_length (fun y => Qgtb (key y) (key x)) pre).
  lia.
Qed.

Lemma count_ge_split {A : Type} (key : A -> Q) (q : Q) (l : list A) :
  count (fun y => Qle_bool q (key y)) l
  = (count (fun y => Qgtb (key y) q) l + count (fun y => Qeq_bool (key y) q) l)%nat.
Proof.
  unfold count. induction l as [|y l IH]; [reflexivity|].
  cbn [filter].
  destruct (Qcompare_spec (key y) q) as [E|L|G].
  - assert (H1 : Qle_bool q (key y) = true) by (apply Qle_bool_iff; rewrite E; apply Qle_refl).
    assert (H2 : Qgtb (key y) q = false).
    { unfold Qgtb. apply negb_false_iff, Qle_bool_iff. rewrite E. apply Qle_refl. }
    assert (H3 : Qeq_bool (key y) q = true) by now apply Qeq_bool_iff.
    rewrite H1, H2, H3. cbn [List.length]. lia.
  - assert (H1 : Qle_bool q (key y) = false).
    { destruct (Qle_bool q (key y)) eqn:E; [|reflexivity].
      apply Qle_bool_iff in E. exfalso. exact (Qlt_not_le _ _ L E). }
    assert (H2 : Qgtb (key y) q = false).
    { unfold Qgtb. apply negb_false_iff, Qle_bool_iff. now apply Qlt_le_weak. }
    assert (H3 : Qeq_bool (key y) q = false).
    { apply Qeq_bool_false_iff. intros E. rewrite E in L. now apply Qlt_irrefl in L. }
    rewrite H1, H2, H3. exact IH.
  - assert (H1 : Qle_bool q (key y) = true) by (apply Qle_bool_iff; now apply Qlt_le_weak).
    assert (H2 : Qgtb (key y) q = true) by now apply Qgtb_true_iff.
    assert (H3 : Qeq_bool (key y) q = false).
    { apply Qeq_bool_false_iff. intros E. rewrite E in G. now apply Qlt_irrefl in G. }
    rewrite H1, H2, H3. cbn [List.length]. lia.
Qed.

Lemma filter_single {A : Type} (p : A -> bool) (l : list A) (x : A) :
  NoDup l -> In x l -> p x = true ->
  (forall y, In y l -> p y = true -> y = x) ->
  filter p l = [x].
Proof.
  induction l as [|a l IH]; intros Hnd Hin Hp Huniq; [destruct Hin|].
  apply NoDup_cons_iff in Hnd. destruct Hnd as [Ha Hnd].
  cbn [filter]. destruct Hin as [->|Hin].
  - rewrite Hp. f_equal. apply filter_none. intros y Hy.
    destruct (p y) eqn:E; [|reflexivity].
    exfalso. apply Ha. rewrite <- (Huniq y (or_intror Hy) E). exact Hy.
  - destruct (p a) eqn:E.
    + exfalso. apply Ha. rewrite (Huniq a (or_introl eq_refl) E). exact Hin.
    + apply IH; auto. intros y Hy. apply Huniq. now right.
Qed.

(** ** More on the ranking *)

(** X1.  Whatever the sort does with ties, the rank of an affiliation lies
    strictly above the number of affiliations with a strictly larger overall
    score and at most at the number of affiliations with a score at least as
    large.  When no other affiliation has the same score, the rank is
    exactly one more than the number of strictly larger scores. *)
Theorem rank_overall_bounds (K : sort_kind) (afiliasi : list AffRow)
    (detail_kode : list DetailRow) (x : AffOut) (k : nat) :
  NoDup (map nama_afiliasi afiliasi) ->
  In x (loaded_df_af (load_cluster_data K afiliasi detail_kode)) ->
  rank_overall x = Some k ->
  (count (fun a => Qgtb (sinta_score_overall a) (sinta_score_overall (a_row x))) afiliasi
   < k)%nat
  /\ (k <= count (fun a => Qle_bool (sinta_score_overall (a_row x))
                                    (sinta_score_overall a)) afiliasi)%nat
  /\ ((forall a, In a afiliasi ->
                 sinta_score_overall a == sinta_score_overall (a_row x) ->
                 a = a_row x) ->
      k = S (count (fun a => Qgtb (sinta_score_overall a)
                                  (sinta_score_overall (a_row x))) afiliasi)).
Proof.
  intros Hnd Hx Hk.
  destruct (load_cluster_data_row_in K afiliasi detail_kode x Hnd Hx) as (Hax & Hrx & _).
  rewrite Hrx in Hk.
  apply (rank_lookup_position K afiliasi Hnd _ _ Hax) in Hk. destruct Hk as [Hk1 Hkn].
  pose proof (sort_values_perm K sinta_score_overall false afiliasi) as Hp.
  destruct (sorted_position_bounds sinta_score_overall _ _ _
              (sort_values_descending K sinta_score_overall afiliasi) Hkn) as [Hgt Hge].
  rewrite (count_perm _ _ _ Hp) in Hgt. rewrite (count_perm _ _ _ Hp) in Hge.
  split; [lia|]. split; [lia|].
  intros Huniq. rewrite count_ge_split in Hge.
  assert (H1 : count (fun a => Qeq_bool (sinta_score_overall a)
                                        (sinta_score_overall (a_row x))) afiliasi = 1%nat).
  { unfold count. rewrite (filter_single _ _ (a_row x)); [reflexivity| | | |].
    - eapply NoDup_map_inv. exact Hnd.
    - exact Hax.
    - apply Qeq_bool_iff. reflexivity.
    - intros a Ha E. apply Qeq_bool_iff in E. now apply Huniq. }
  lia.
Qed.

Lemma rank_overall_bounds_witness :
  NoDup (map nama_afiliasi example_affiliations)
  /\ forall x k,
       In x (loaded_df_af (load_cluster_data reversing_kind example_affiliations [])) ->
       rank_overall x = Some k ->
       (k <= count (fun a => Qle_bool (sinta_score_overall (a_row x))
                                      (sinta_score_overall a)) example_affiliations)%nat.
Proof.
  assert (Hnd : NoDup (map nama_afiliasi example_affiliations)) by solve_NoDup.
  split; [exact Hnd|]. intros x k Hx Hk.
  exact (proj1 (proj2 (rank_overall_bounds reversing_kind example_affiliations [] x k
                         Hnd Hx Hk))).
Defined.

(** X2.  With at least 10 affiliations (distinct names), the gap of every
    row is [max(0, threshold - score)]: it does not depend on how the sort
    orders equal scores. *)
Theorem gap_to_top10_formula (K : sort_kind) (afiliasi : list AffRow)
    (detail_kode : list DetailRow) (x : AffOut) :
  NoDup (map nama_afiliasi afiliasi) ->
  (10 <= List.length afiliasi)%nat ->
  In x (loaded_df_af (load_cluster_data K afiliasi detail_kode)) ->
  exists thr g,
    loaded_top10_threshold (load_cluster_data K afiliasi detail_kode) = Some thr
    /\ gap_to_top10 x = Some g
    /\ g == Qmax 0 (thr - sinta_score_overall (a_row x)).
Proof.
  intros Hnd Hlen Hx.
  pose proof (load_cluster_data_rows K afiliasi detail_kode Hnd) as [_ Hthr].
  cbv zeta in Hthr.
  destruct (load_cluster_data_row_in K afiliasi detail_kode x Hnd Hx) as (Hax & Hrx & Hgx).
  set (sorted := sort_values K sinta_score_overall false afiliasi) in *.
  assert (Hb : (10 <=? List.length afiliasi)%nat = true) by now apply Nat.leb_le.
  rewrite Hb in Hthr, Hgx.
  destruct (nth_error sorted 9) as [t|] eqn:Ht.
  2:{ apply nth_error_None in Ht. unfold sorted in Ht.
      rewrite sort_values_length in Ht. lia. }
  assert (Hnth : nth 9 (map sinta_score_overall sorted) 0 = sinta_score_overall t).
  { apply nth_error_nth. now rewrite nth_error_map, Ht. }
  rewrite Hnth in Hthr, Hgx.
  destruct (rank_lookup_defined K afiliasi Hnd _ Hax) as [k Hk].
  rewrite Hrx, Hk in Hgx. cbn [rank_le_10] in Hgx.
  apply (rank_lookup_position K afiliasi Hnd _ _ Hax) in Hk. destruct Hk as [Hk1 Hkn].
  fold sorted in Hkn.
  pose proof (sort_values_descending K sinta_score_overall afiliasi) as Hs.
  fold sorted in Hs.
  exists (sinta_score_overall t). eexists. split; [exact Hthr|]. split; [exact Hgx|].
  destruct (k <=? 10)%nat eqn:E.
  - apply Nat.leb_le in E.
    assert (Hle : sinta_score_overall t <= sinta_score_overall (a_row x)).
    { destruct (Nat.eq_dec (k - 1) 9) as [E9|N9].
      - rewrite E9, Ht in Hkn. injection Hkn as <-. apply Qle_refl.
      - apply (StronglySorted_nth_error _ _ Hs (k - 1) 9 (a_row x) t);
          [lia | exact Hkn | exact Ht]. }
    symmetry. apply Q.max_l.
    apply (Qplus_le_l _ _ (sinta_score_overall (a_row x))). ring_simplify. exact Hle.
  - apply Nat.leb_gt in E.
    assert (Hle : sinta_score_overall (a_row x) <= sinta_score_overall t).
    { apply (StronglySorted_nth_error _ _ Hs 9 (k - 1) t (a_row x));
        [lia | exact Ht | exact Hkn]. }
    symmetry. apply Q.max_r.
    apply (Qplus_le_l _ _ (sinta_score_overall (a_row x))). ring_simplify. exact Hle.
Qed.

Lemma gap_to_top10_formula_witness :
  NoDup (map nama_afiliasi example_eleven)
  /\ (10 <= List.length example_eleven)%nat
  /\ forall x,
       In x (loaded_df_af (load_cluster_data reversing_kind example_eleven [])) ->
       exists thr g,
         loaded_top10_threshold (load_cluster_data reversing_kind example_eleven [])
         = Some thr
         /\ gap_to_top10 x = Some g
         /\ g == Qmax 0 (thr - sinta_score_overall (a_row x)).
Proof.
  assert (Hnd : NoDup (map nama_afiliasi example_eleven)) by solve_NoDup.
  assert (Hlen : (10 <= List.length example_eleven)%nat) by (cbn; lia).
  split; [exact Hnd|]. split; [exact Hlen|].
  intros x Hx.
  exact (gap_to_top10_formula reversing_kind example_eleven [] x Hnd Hlen Hx).
Defined.

Lemma count_map {A B : Type} (g : A -> B) (p : B -> bool) (l : list A) :
  count (fun x => p (g x)) l = count p (map g l).
Proof. unfold count. now rewrite filter_map_comm, length_map. Qed.

Lemma count_pos {A : Type} (p : A -> bool) (l : list A) (x : A) :
  In x l -> p x = true -> (1 <= count p l)%nat.
Proof.
  intros Hin Hp. unfold count.
  assert (H : In x (filter p l)) by (apply filter_In; auto).
  destruct (filter p l); [destruct H | cbn; lia].
Qed.

Lemma list_sum_cons_eq (x : nat) (l : list nat) :
  list_sum (x :: l) = (x + list_sum l)%nat.
Proof. reflexivity. Qed.

Lemma merge_rank_length (l : list AffRow) (ranked : list (AffRow * nat)) :
  List.length (merge_rank l ranked)
  = list_sum
      (map (fun a =>
              Nat.max 1 (count (fun p => (nama_afiliasi (fst p) =? nama_afiliasi a)%string)
                               ranked)) l).
Proof.
  induction l as [|a l IH]; [reflexivity|].
  rewrite merge_rank_cons, length_app, IH. cbn [map].
  unfold count, list_sum. cbn [fold_right].
  destruct (filter _ ranked) as [|p ms]; cbn [List.length map]; [reflexivity|].
  rewrite length_map. lia.
Qed.

Lemma loaded_df_af_length (K : sort_kind) (afiliasi : list AffRow)
    (detail_kode : list DetailRow) :
  List.length (loaded_df_af (load_cluster_data K afiliasi detail_kode))
  = List.length (merge_rank afiliasi (af_ranked K afiliasi)).
Proof.
  unfold load_cluster_data, loaded_df_af.
  destruct (10 <=? _)%nat; cbn [fst]; apply length_map.
Qed.

(** X3.  The ranks are merged back by name, so a name carried by several
    rows multiplies them: the loaded affiliation table has, for every input
    row, as many rows as there are input rows of the same name.  It is never
    shorter than the input. *)
Theorem loaded_table_size (K : sort_kind) (afiliasi : list AffRow)
    (detail_kode : list DetailRow) :
  List.length (loaded_df_af (load_cluster_data K afiliasi detail_kode))
  = list_sum
      (map (fun a => count (fun b => (nama_afiliasi b =? nama_afiliasi a)%string)
                           afiliasi) afiliasi)
  /\ (List.length afiliasi
      <= List.length (loaded_df_af (load_cluster_data K afiliasi detail_kode)))%nat.
Proof.
  rewrite loaded_df_af_length, merge_rank_length.
  assert (Hc : forall a,
             count (fun p : AffRow * nat =>
                      (nama_afiliasi (fst p) =? nama_afiliasi a)%string)
                   (af_ranked K afiliasi)
             = count (fun b => (nama_afiliasi b =? nama_afiliasi a)%string) afiliasi).
  { intros a.
    rewrite (count_map fst (fun b => (nama_afiliasi b =? nama_afiliasi a)%string)).
    rewrite ranked_fst. apply count_perm, sort_values_perm. }
  assert (Hsum : forall l,
             (forall a, In a l -> In a afiliasi) ->
             list_sum
               (map (fun a =>
                       Nat.max 1 (count (fun p : AffRow * nat =>
                                           (nama_afiliasi (fst p) =? nama_afiliasi a)%string)
                                        (af_ranked K afiliasi))) l)
             = list_sum
                 (map (fun a => count (fun b => (nama_afiliasi b =? nama_afiliasi a)%string)
                                      afiliasi) l)
             /\ (List.length l
                 <= list_sum
                      (map (fun a => count (fun b =>
                                              (nama_afiliasi b =? nama_afiliasi a)%string)
                                           afiliasi) l))%nat).
  { induction l as [|a l IH]; intros Hin; [split; [reflexivity | cbn; lia]|].
    destruct IH as [IH1 IH2]; [intros b Hb; apply Hin; now right|].
    cbn [map List.length]. rewrite !list_sum_cons_eq, IH1, Hc.
    pose proof (count_pos (fun b => (nama_afiliasi b =? nama_afiliasi a)%string)
                          afiliasi a (Hin a (or_introl eq_refl)) (String.eqb_refl _)).
    split; lia. }
  destruct (Hsum afiliasi (fun a Ha => Ha)) as [H1 H2].
  split; [exact H1 | rewrite H1; exact H2].
Qed.

(** ** The ranking chart *)

Lemma top_rows {A : Type} (K : sort_kind) (key : A -> Q) (n : nat) (l : list A) :
  Permutation (firstn n (sort_values K key false l)
               ++ skipn n (sort_values K key false l)) l
  /\ (forall s h, In s (firstn n (sort_values K key false l)) ->
                  In h (skipn n (sort_values K key false l)) ->
                  key h <= key s)
  /\ (forall s, In s (firstn n (sort_values K key false l)) ->
                (count (fun y => Qgtb (key y) (key s)) l < n)%nat).
Proof.
  pose proof (sort_values_perm K key false l) as Hp.
  pose proof (sort_values_descending K key l) as Hs.
  split; [now rewrite firstn_skipn|]. split.
  - intros s h Hin Hh. rewrite <- (firstn_skipn n (sort_values K key false l)) in Hs.
    exact (StronglySorted_cross _ _ _ Hs s h Hin Hh).
  - intros s Hin. apply In_nth_error in Hin. destruct Hin as [i Hi].
    assert (Hlt : (i < n)%nat).
    { assert (Hl : (i < List.length (firstn n (sort_values K key false l)))%nat)
        by (apply nth_error_Some; congruence).
      rewrite length_firstn in Hl. lia. }
    rewrite nth_error_firstn in Hi.
    apply Nat.ltb_lt in Hlt. rewrite Hlt in Hi.
    destruct (sorted_position_bounds key _ _ _ Hs Hi) as [Hgt _].
    rewrite (count_perm _ _ _ Hp) in Hgt. apply Nat.ltb_lt in Hlt. lia.
Qed.

(** X4.  The ranking chart shows [min(top_n, N)] rows of the table; every
    row left out scores no more than every row shown; a row is shown only if
    fewer than [top_n] rows score strictly more; and the highlighted rows are
    exactly the shown rows of the selected affiliation, so that an
    affiliation outside the best [top_n] is not on the chart at all. *)
Theorem plot_overall_ranking_top (K : sort_kind) (df_af : list AffOut)
    (selected_affiliation : string) (top_n : nat) :
  List.length (plot_overall_ranking K df_af selected_affiliation top_n)
  = Nat.min top_n (List.length df_af)
  /\ (exists hidden,
        Permutation
          (map fst (plot_overall_ranking K df_af selected_affiliation top_n) ++ hidden)
          df_af
        /\ forall s h,
             In s (map fst (plot_overall_ranking K df_af selected_affiliation top_n)) ->
             In h hidden ->
             sinta_score_overall (a_row h) <= sinta_score_overall (a_row s))
  /\ (forall s hl,
        In (s, hl) (plot_overall_ranking K df_af selected_affiliation top_n) ->
        (count (fun y => Qgtb (sinta_score_overall (a_row y))
                              (sinta_score_overall (a_row s))) df_af < top_n)%nat
        /\ (hl = true <-> nama_afiliasi (a_row s) = selected_affiliation)).
Proof.
  unfold plot_overall_ranking.
  set (key := fun r : AffOut => sinta_score_overall (a_row r)).
  destruct (top_rows K key top_n df_af) as (Hperm & Hdom & Hcnt).
  rewrite map_map. cbn [fst]. rewrite map_id, length_map.
  split; [|split].
  - now rewrite length_firstn, sort_values_length.
  - exists (skipn top_n (sort_values K key false df_af)). split; [exact Hperm|].
    intros s h Hs Hh. exact (Hdom s h Hs Hh).
  - intros s hl Hin. apply in_map_iff in Hin. destruct Hin as (r & E & Hr).
    injection E as -> <-. split; [exact (Hcnt s Hr) | apply String.eqb_eq].
Qed.


(** ** Category views *)

Lemma StronglySorted_map {A B : Type} (R : B -> B -> Prop) (f : A -> B) (l : list A) :
  StronglySorted (fun x y => R (f x) (f y)) l -> StronglySorted R (map f l).
Proof.
  induction 1 as [|x l Hs IH Hx]; cbn; constructor; [exact IH|].
  apply Forall_map. exact Hx.
Qed.

Lemma StronglySorted_filter {A : Type} (R : A -> A -> Prop) (p : A -> bool) (l : list A) :
  StronglySorted R l -> StronglySorted R (filter p l).
Proof.
  induction 1 as [|x l Hs IH Hx]; cbn; [constructor|].
  destruct (p x); [|exact IH]. constructor; [exact IH|].
  rewrite Forall_forall in *. intros y Hy. apply Hx. now apply filter_In in Hy.
Qed.

(** Two tables with the same rows, both sorted on a key that tells the rows
    apart, are the same table: with distinct keys the sort kind plays no
    role. *)
Lemma sorted_distinct_keys_unique {A : Type} (key : A -> Q) (l1 l2 : list A) :
  Permutation l1 l2 ->
  StronglySorted (fun x y => key x <= key y) l1 ->
  StronglySorted (fun x y => key x <= key y) l2 ->
  (forall x y, In x l1 -> In y l1 -> key x == key y -> x = y) ->
  l1 = l2.
Proof.
  revert l2. induction l1 as [|a l1 IH]; intros l2 Hp H1 H2 Hinj.
  - now apply Permutation_nil in Hp.
  - destruct l2 as [|b l2].
    { apply Permutation_sym, Permutation_nil in Hp. discriminate. }
    apply StronglySorted_inv in H1. destruct H1 as [H1 Ha].
    apply StronglySorted_inv in H2. destruct H2 as [H2 Hb].
    rewrite Forall_forall in Ha, Hb.
    assert (Hba : In b (a :: l1)).
    { eapply Permutation_in; [symmetry; exact Hp | now left]. }
    assert (Hab : In a (b :: l2)).
    { eapply Permutation_in; [exact Hp | now left]. }
    assert (E : a = b).
    { destruct Hab as [E|Hab]; [now symmetry|].
      destruct Hba as [E|Hba]; [exact E|].
      apply Hinj; [now left | now right |].
      apply Qle_antisym; [now apply Ha | now apply Hb]. }
    subst b. f_equal. apply IH; try assumption.
    + eapply Permutation_cons_inv. exact Hp.
    + intros x y Hx Hy. apply Hinj; now right.
Qed.

Lemma category_code_injective (c1 c2 : Category) :
  category_code c1 == category_code c2 -> c1 = c2.
Proof.
  destruct c1, c2; try reflexivity; intros H; vm_compute in H; discriminate H.
Qed.

Lemma CATEGORY_ORDER_sorted :
  StronglySorted (fun x y => category_code x <= category_code y) CATEGORY_ORDER.
Proof.
  unfold CATEGORY_ORDER.
  repeat (constructor; [|repeat (constructor; [vm_compute; discriminate|]); constructor]).
  constructor.
Qed.

Lemma CATEGORY_ORDER_NoDup : NoDup CATEGORY_ORDER.
Proof.
  unfold CATEGORY_ORDER.
  repeat (apply NoDup_cons; [cbn; intuition discriminate|]). apply NoDup_nil.
Qed.

Lemma CATEGORY_ORDER_complete (c : Category) : In c CATEGORY_ORDER.
Proof. destruct c; cbn; tauto. Qed.

(** Sorting rows on the category code puts them in display order, whatever
    the sort kind, as long as no category occurs twice. *)
Lemma sort_on_category {A : Type} (K : sort_kind) (cat : A -> Category) (l : list A) :
  NoDup (map cat l) ->
  map cat (sort_values K (fun r => category_code (cat r)) true l)
  = columns_in_order (map cat l).
Proof.
  intros Hnd. unfold sort_values.
  pose proof (ksort_perm K A (fun r => category_code (cat r)) l) as Hp.
  pose proof (ksort_sorted K A (fun r => category_code (cat r)) l) as Hs.
  apply (sorted_distinct_keys_unique category_code).
  - apply NoDup_Permutation.
    + eapply Permutation_NoDup; [symmetry; apply Permutation_map; exact Hp | exact Hnd].
    + apply NoDup_filter, CATEGORY_ORDER_NoDup.
    + intros c. unfold columns_in_order. rewrite filter_In. split.
      * intros Hc. split; [apply CATEGORY_ORDER_complete|].
        apply existsb_exists. exists c. split; [|apply Category_eqb_refl].
        eapply Permutation_in; [apply Permutation_map; exact Hp | exact Hc].
      * intros [_ Hc]. apply existsb_exists in Hc. destruct Hc as (c' & Hc' & E).
        apply Category_eqb_eq in E. subst c'.
        eapply Permutation_in; [symmetry; apply Permutation_map; exact Hp | exact Hc'].
  - apply StronglySorted_map. exact Hs.
  - apply StronglySorted_filter, CATEGORY_ORDER_sorted.
  - intros x y _ _. apply category_code_injective.
Qed.


Lemma existsb_String_eqb_In (l : list string) (x : string) :
  existsb (String.eqb x) l = true <-> In x l.
Proof.
  rewrite existsb_exists. split.
  - intros (y & Hy & E). apply String.eqb_eq in E. now subst y.
  - intros H. exists x. split; [exact H | apply String.eqb_refl].
Qed.

Lemma plot_category_breakdown_eq (K : sort_kind) (df : list DetailCat) (a : string) :
  In a (pv_index (cat_pivot_of df)) ->
  plot_category_breakdown K (cat_pivot_of df) a
  = Some (sort_values K (fun r => category_code (b_category r)) true
            (map (breakdown_row df a (pv_columns (cat_pivot_of df)))
                 (pv_columns (cat_pivot_of df)))).
Proof.
  intros Hin. unfold plot_category_breakdown.
  pose proof (proj2 (existsb_String_eqb_In _ _) Hin) as E1. rewrite E1.
  rewrite cat_pivot_loc.
  pose proof (proj2 (existsb_eqb_In String.eqb _ _ String.eqb_eq) Hin) as E2.
  rewrite E2. rewrite combine_map_self, !map_map. reflexivity.
Qed.

Lemma plot_category_breakdown_none (K : sort_kind) (p : Pivot) (a : string) :
  ~ In a (pv_index p) -> plot_category_breakdown K p a = None.
Proof.
  intros Hn. unfold plot_category_breakdown.
  destruct (existsb (String.eqb a) (pv_index p)) eqn:E; [|reflexivity].
  apply existsb_String_eqb_In in E. contradiction.
Qed.

Lemma pivot_row_total (detail_kode : list DetailRow) (a : string) :
  Qsum (map (group_total (map add_category detail_kode) a)
            (pv_columns (cat_pivot_of (map add_category detail_kode))))
  == Qsum (map total (mapped_records_of detail_kode a)).
Proof.
  unfold group_total.
  rewrite row_sum_columns by apply cat_pivot_columns_NoDup.
  rewrite in_columns_pivot, filter_map_comm, map_map. reflexivity.
Qed.

Lemma Qsum_nonneg {A : Type} (f : A -> Q) (l : list A) :
  (forall x, In x l -> 0 <= f x) -> 0 <= Qsum (map f l).
Proof.
  induction l as [|x l IH]; intros H; [apply Qle_refl|].
  cbn [map Qsum fold_right]. fold (Qsum (map f l)).
  rewrite <- (Qplus_0_r 0). apply Qplus_le_compat; [apply H; now left|].
  apply IH. intros y Hy. apply H. now right.
Qed.

Lemma Qsum_member_le {A : Type} (f : A -> Q) (l : list A) (y : A) :
  (forall x, In x l -> 0 <= f x) -> In y l -> f y <= Qsum (map f l).
Proof.
  induction l as [|x l IH]; intros H Hy; [destruct Hy|].
  cbn [map Qsum fold_right]. fold (Qsum (map f l)).
  destruct Hy as [->|Hy].
  - rewrite <- (Qplus_0_r (f y)) at 1. apply Qplus_le_compat; [apply Qle_refl|].
    apply Qsum_nonneg. intros z Hz. apply H. now right.
  - rewrite <- (Qplus_0_l (f y)). apply Qplus_le_compat; [apply H; now left|].
    apply IH; [|exact Hy]. intros z Hz. apply H. now right.
Qed.

Lemma records_in_mapped (detail_kode : list DetailRow) (a : string) (c : Category)
    (d : DetailRow) :
  In d (records_in detail_kode a c) -> In d (mapped_records_of detail_kode a).
Proof.
  unfold records_in, mapped_records_of. rewrite !filter_In.
  intros [Hd Hp]. split; [exact Hd|].
  apply andb_true_iff in Hp. destruct Hp as [Hn Hl]. rewrite Hn. cbn [andb].
  unfold has_label in Hl. unfold is_mapped.
  destruct (CATEGORY_LABELS (kategori_score d)); [reflexivity | discriminate].
Qed.

Lemma group_total_records (detail_kode : list DetailRow) (a : string) (c : Category) :
  group_total (map add_category detail_kode) a c
  = Qsum (map total (records_in detail_kode a c)).
Proof. unfold group_total. now rewrite totals_in_group. Qed.

(** X5.  The category breakdown of an affiliation is refused (a warning)
    exactly when the affiliation has no row in the pivot.  Otherwise, when
    the totals of the affiliation's labelled records are non-negative: if
    one of them is positive every share is a finite number between 0 and
    100; if all of them are 0 every share is NaN, the division of 0 by 0
    being no error. *)
Theorem category_breakdown_shares (K : sort_kind) (detail_kode : list DetailRow)
    (selected_affiliation : string) :
  (plot_category_breakdown K (cat_pivot_of (map add_category detail_kode))
                           selected_affiliation = None
   <-> ~ In selected_affiliation
            (pv_index (cat_pivot_of (map add_category detail_kode))))
  /\ forall rows,
       plot_category_breakdown K (cat_pivot_of (map add_category detail_kode))
                               selected_affiliation = Some rows ->
       (forall d, In d (mapped_records_of detail_kode selected_affiliation) ->
                  0 <= total d) ->
       ((exists d, In d (mapped_records_of detail_kode selected_affiliation)
                   /\ 0 < total d) ->
        Forall (fun r => exists q, share_percent r = Finite q /\ 0 <= q /\ q <= 100) rows)
       /\ ((forall d, In d (mapped_records_of detail_kode selected_affiliation) ->
                      total d == 0) ->
           Forall (fun r => share_percent r = NaN) rows).
Proof.
  set (df := map add_category detail_kode).
  set (cols := pv_columns (cat_pivot_of df)).
  split.
  - split.
    + intros Hnone Hin.
      rewrite (plot_category_breakdown_eq K df _ Hin) in Hnone. discriminate.
    + apply plot_category_breakdown_none.
  - intros rows Hrows Hnonneg.
    destruct (in_dec string_dec selected_affiliation (pv_index (cat_pivot_of df)))
      as [Hin|Hn].
    2:{ rewrite (plot_category_breakdown_none K _ _ Hn) in Hrows. discriminate. }
    rewrite (plot_category_breakdown_eq K df _ Hin) in Hrows.
    injection Hrows as <-. fold cols.
    set (L := map (breakdown_row df selected_affiliation cols) cols).
    pose proof (sort_values_perm K (fun r => category_code (b_category r)) true L) as Hp.
    set (s := Qsum (map (group_total df selected_affiliation) cols)).
    assert (Hs : s == Qsum (map total (mapped_records_of detail_kode selected_affiliation)))
      by apply pivot_row_total.
    assert (Hg : forall c, 0 <= group_total df selected_affiliation c).
    { intros c. unfold df. rewrite group_total_records. apply Qsum_nonneg.
      intros d Hd. apply Hnonneg. eapply records_in_mapped. exact Hd. }
    split.
    + intros (d & Hd & Hpos).
      assert (Hspos : 0 < s).
      { rewrite Hs. eapply Qlt_le_trans; [exact Hpos|].
        apply (Qsum_member_le total _ d Hnonneg Hd). }
      assert (Hb : Qeq_bool s 0 = false).
      { apply Qeq_bool_false_iff. intros E. rewrite E in Hspos.
        now apply Qlt_irrefl in Hspos. }
      apply Forall_forall. intros r Hr.
      apply (Permutation_in _ Hp) in Hr. unfold L in Hr.
      apply in_map_iff in Hr. destruct Hr as (c & <- & Hc).
      cbn [breakdown_row share_percent]. fold s. unfold fdiv. rewrite Hb.
      cbn [fmul]. eexists. split; [reflexivity|].
      assert (Hle : group_total df selected_affiliation c <= s).
      { apply (Qsum_member_le (group_total df selected_affiliation) cols c);
          [intros x _; apply Hg | exact Hc]. }
      assert (H0 : 0 <= group_total df selected_affiliation c / s).
      { apply Qle_shift_div_l; [exact Hspos|]. rewrite Qmult_0_l. apply Hg. }
      assert (H1 : group_total df selected_affiliation c / s <= 1).
      { apply Qle_shift_div_r; [exact Hspos|]. now rewrite Qmult_1_l. }
      split.
      * apply Qmult_le_0_compat; [exact H0 | discriminate].
      * setoid_replace 100 with (1 * 100) at 2 by ring.
        apply Qmult_le_compat_r; [exact H1 | discriminate].
    + intros Hzero.
      assert (Hgz : forall c, group_total df selected_affiliation c == 0).
      { intros c. unfold df. rewrite group_total_records. apply Qsum_zero.
        intros d Hd. apply Hzero. eapply records_in_mapped. exact Hd. }
      assert (Hsz : s == 0) by (apply Qsum_zero; intros c _; apply Hgz).
      assert (Hb : Qeq_bool s 0 = true) by now apply Qeq_bool_iff.
      apply Forall_forall. intros r Hr.
      apply (Permutation_in _ Hp) in Hr. unfold L in Hr.
      apply in_map_iff in Hr. destruct Hr as (c & <- & _).
      cbn [breakdown_row share_percent]. fold s. unfold fdiv. rewrite Hb.
      assert (E1 : Qgtb (group_total df selected_affiliation c) 0 = false).
      { unfold Qgtb. apply negb_false_iff. apply Qle_bool_iff.
        rewrite (Hgz c). apply Qle_refl. }
      assert (E2 : Qltb (group_total df selected_affiliation c) 0 = false).
      { unfold Qltb. apply negb_false_iff. apply Qle_bool_iff.
        rewrite (Hgz c). apply Qle_refl. }
      rewrite E1, E2. reflexivity.
Qed.

Lemma category_breakdown_shares_witness :
  (forall d, In d (mapped_records_of example_mixed "U") -> 0 <= total d)
  /\ (exists d, In d (mapped_records_of example_mixed "U") /\ 0 < total d)
  /\ (exists rows,
        plot_category_breakdown stable_kind (cat_pivot_of (map add_category example_mixed))
                                "U" = Some rows
        /\ map (fun r => (b_category r, share_percent r)) rows
           = [(Publication, Finite ((1#2) / Qsum [1#2; 1#2; 0] * 100));
              (Research, Finite (0 / Qsum [1#2; 1#2; 0] * 100));
              (HKI, Finite ((1#2) / Qsum [1#2; 1#2; 0] * 100))]
        /\ Forall (fun r => exists q, share_percent r = Finite q /\ 0 <= q /\ q <= 100)
                  rows)
  /\ (forall d, In d (mapped_records_of example_zero "U") -> 0 <= total d)
  /\ (forall d, In d (mapped_records_of example_zero "U") -> total d == 0)
  /\ exists rows,
       plot_category_breakdown stable_kind (cat_pivot_of (map add_category example_zero))
                               "U" = Some rows
       /\ map (fun r => (b_category r, share_percent r)) rows
          = [(Publication, NaN); (HKI, NaN)]
       /\ Forall (fun r => share_percent r = NaN) rows.
Proof.
  assert (Hnn : forall d, In d (mapped_records_of example_mixed "U") -> 0 <= total d).
  { intros d Hd. vm_compute in Hd. destruct Hd as [<-|[<-|[]]]; vm_compute; discriminate. }
  assert (Hpos : exists d, In d (mapped_records_of example_mixed "U") /\ 0 < total d).
  { eexists. split; [left; reflexivity | reflexivity]. }
  assert (Hnn0 : forall d, In d (mapped_records_of example_zero "U") -> 0 <= total d).
  { intros d Hd. vm_compute in Hd. destruct Hd as [<-|[<-|[]]]; vm_compute; discriminate. }
  assert (Hz0 : forall d, In d (mapped_records_of example_zero "U") -> total d == 0).
  { intros d Hd. vm_compute in Hd. destruct Hd as [<-|[<-|[]]]; reflexivity. }
  split; [exact Hnn|]. split; [exact Hpos|]. split.
  { eexists.
    assert (Hrows : plot_category_breakdown stable_kind
                      (cat_pivot_of (map add_category example_mixed)) "U" = Some _)
      by (vm_compute; reflexivity).
    split; [exact Hrows|]. split; [vm_compute; reflexivity|].
    exact (proj1 (proj2 (category_breakdown_shares stable_kind example_mixed "U")
                    _ Hrows Hnn) Hpos). }
  split; [exact Hnn0|]. split; [exact Hz0|].
  eexists.
  assert (Hrows : plot_category_breakdown stable_kind
                    (cat_pivot_of (map add_category example_zero)) "U" = Some _)
    by (vm_compute; reflexivity).
  split; [exact Hrows|]. split; [reflexivity|].
  exact (proj2 (proj2 (category_breakdown_shares stable_kind example_zero "U")
                  _ Hrows Hnn0) Hz0).
Defined.

(** X6.  The breakdown lists the categories of the pivot in the fixed display
    order (Publication, Research, Community Service, HKI, SDM, Kelembagaan),
    each with the pivot cell of the affiliation, whatever the sort kind. *)
Theorem category_breakdown_order (K : sort_kind) (detail_kode : list DetailRow)
    (selected_affiliation : string) (rows : list BreakdownRow) :
  plot_category_breakdown K (cat_pivot_of (map add_category detail_kode))
                          selected_affiliation = Some rows ->
  map b_category rows
  = columns_in_order (pv_columns (cat_pivot_of (map add_category detail_kode)))
  /\ forall r, In r rows ->
       pv_cell (cat_pivot_of (map add_category detail_kode)) selected_affiliation
               (b_category r)
       = Some (b_total r).
Proof.
  intros Hrows.
  set (df := map add_category detail_kode) in *.
  destruct (in_dec string_dec selected_affiliation (pv_index (cat_pivot_of df)))
    as [Hin|Hn].
  2:{ rewrite (plot_category_breakdown_none K _ _ Hn) in Hrows. discriminate. }
  rewrite (plot_category_breakdown_eq K df _ Hin) in Hrows. injection Hrows as <-.
  set (cols := pv_columns (cat_pivot_of df)).
  assert (Hcat : map b_category (map (breakdown_row df selected_affiliation cols) cols)
                 = cols).
  { rewrite map_map. cbn [breakdown_row b_category]. apply map_id. }
  split.
  - pose proof (sort_on_category K b_category
                  (map (breakdown_row df selected_affiliation cols) cols)) as Hso.
    rewrite Hcat in Hso. apply Hso, cat_pivot_columns_NoDup.
  - intros r Hr.
    apply (Permutation_in _ (sort_values_perm K _ true _)) in Hr.
    apply in_map_iff in Hr. destruct Hr as (c & <- & Hc).
    cbn [breakdown_row b_category b_total]. unfold df.
    rewrite (cat_pivot_cell detail_kode _ _ Hin Hc).
    unfold group_total. now rewrite totals_in_group.
Qed.

Lemma category_breakdown_order_witness :
  exists rows,
    plot_category_breakdown reversing_kind
      (cat_pivot_of (map add_category example_mixed)) "U" = Some rows
    /\ map b_category rows = [Publication; Research; HKI].
Proof.
  eexists.
  assert (Hrows : plot_category_breakdown reversing_kind
                    (cat_pivot_of (map add_category example_mixed)) "U" = Some _)
    by (vm_compute; reflexivity).
  split; [exact Hrows|].
  rewrite (proj1 (category_breakdown_order reversing_kind example_mixed "U" _ Hrows)).
  vm_compute. reflexivity.
Defined.


Lemma Some_inj {A : Type} (x y : A) : Some x = Some y -> x = y.
Proof. congruence. Qed.

Lemma cat_pivot_rows (df : list DetailCat) :
  pv_rows (cat_pivot_of df)
  = map (fun a => (a, map (group_total df a) (pv_columns (cat_pivot_of df))))
        (pv_index (cat_pivot_of df)).
Proof.
  unfold pv_index, cat_pivot_of, unstack. cbn [pv_rows pv_columns].
  rewrite !map_map. cbn [fst].
  apply map_ext. intros a. f_equal. apply map_ext. intros c.
  apply series_get_groupby.
Qed.

Lemma pivot_column_cat_pivot (df : list DetailCat) (c : Category) :
  In c (pv_columns (cat_pivot_of df)) ->
  pivot_column (cat_pivot_of df) c
  = map (fun a => (a, group_total df a c)) (pv_index (cat_pivot_of df)).
Proof.
  intros Hc. unfold pivot_column. rewrite cat_pivot_rows.
  induction (pv_index (cat_pivot_of df)) as [|a idx IH]; [reflexivity|].
  cbn [map flat_map fst snd]. rewrite IH.
  rewrite combine_map_self, (find_key Category_eqb); [|apply Category_eqb_eq].
  apply (existsb_eqb_In Category_eqb _ _ Category_eqb_eq) in Hc. rewrite Hc.
  reflexivity.
Qed.

Lemma compare_category_eq (K : sort_kind) (df : list DetailCat) (c : Category) :
  In c (pv_columns (cat_pivot_of df)) ->
  compare_category K (cat_pivot_of df) c
  = Some (firstn (Nat.min 20 (List.length (pv_index (cat_pivot_of df))))
            (sort_values K cr_total false
               (map (category_rank_row df (pv_index (cat_pivot_of df)) c)
                    (pv_index (cat_pivot_of df))))).
Proof.
  intros Hc. unfold compare_category.
  assert (E : existsb (Category_eqb c) (pv_columns (cat_pivot_of df)) = true).
  { apply existsb_exists. exists c. split; [exact Hc | apply Category_eqb_refl]. }
  rewrite E, (pivot_column_cat_pivot df c Hc), sort_values_length, !map_map, length_map.
  reflexivity.
Qed.

Lemma compare_category_none (K : sort_kind) (p : Pivot) (c : Category) :
  ~ In c (pv_columns p) -> compare_category K p c = None.
Proof.
  intros Hn. unfold compare_category.
  destruct (existsb (Category_eqb c) (pv_columns p)) eqn:E; [|reflexivity].
  apply existsb_exists in E. destruct E as (c' & Hc' & E).
  apply Category_eqb_eq in E. subst c'. contradiction.
Qed.

Lemma count_mono {A : Type} (p q : A -> bool) (l : list A) :
  (forall x, p x = true -> q x = true) -> (count p l <= count q l)%nat.
Proof.
  intros H. unfold count. induction l as [|x l IH]; [cbn; lia|].
  cbn [filter]. destruct (p x) eqn:P.
  - rewrite (H x P). cbn [List.length]. lia.
  - destruct (q x); cbn [List.length]; lia.
Qed.

Lemma rank_min_mono (s : list Q) (x y : Q) :
  y <= x -> (rank_min s x <= rank_min s y)%nat.
Proof.
  intros Hle. unfold rank_min. apply le_n_S, count_mono.
  intros z Hz. apply Qgtb_true_iff in Hz. apply Qgtb_true_iff.
  eapply Qle_lt_trans; eassumption.
Qed.

(** X8.  The per-category comparison is refused exactly when the category is
    not a column of the pivot.  Otherwise it lists at most 20 affiliations of
    the pivot with their total in the category, from the largest total down;
    the competition rank ([method="min"]) shown with each is non-decreasing
    down the list, the first row has rank 1, and equal totals share a rank:
    none of this depends on the sort kind. *)
Theorem compare_category_ranks (K : sort_kind) (detail_kode : list DetailRow)
    (cat_to_compare : Category) :
  (compare_category K (cat_pivot_of (map add_category detail_kode)) cat_to_compare = None
   <-> ~ In cat_to_compare (pv_columns (cat_pivot_of (map add_category detail_kode))))
  /\ forall rows,
       compare_category K (cat_pivot_of (map add_category detail_kode)) cat_to_compare
       = Some rows ->
       List.length rows
       = Nat.min 20 (List.length (pv_index (cat_pivot_of (map add_category detail_kode))))
       /\ (forall r, In r rows ->
             pv_cell (cat_pivot_of (map add_category detail_kode))
                     (cr_nama_afiliasi r) cat_to_compare = Some (cr_total r))
       /\ (forall i j x y,
             (i < j)%nat -> nth_error rows i = Some x -> nth_error rows j = Some y ->
             cr_total y <= cr_total x
             /\ (rank_in_category x <= rank_in_category y)%nat)
       /\ (forall x, nth_error rows 0 = Some x -> rank_in_category x = 1%nat)
       /\ (forall x y, In x rows -> In y rows -> cr_total x == cr_total y ->
                       rank_in_category x = rank_in_category y).
Proof.
  set (df := map add_category detail_kode).
  set (idx := pv_index (cat_pivot_of df)).
  split.
  - split.
    + intros Hnone Hin. rewrite (compare_category_eq K df _ Hin) in Hnone. discriminate.
    + apply compare_category_none.
  - intros rows Hrows.
    destruct (in_dec Category_eq_dec cat_to_compare (pv_columns (cat_pivot_of df)))
      as [Hc|Hn].
    2:{ rewrite (compare_category_none K _ _ Hn) in Hrows. discriminate. }
    rewrite (compare_category_eq K df _ Hc) in Hrows. fold idx in Hrows.
    apply Some_inj in Hrows. subst rows.
    set (D := map (category_rank_row df idx cat_to_compare) idx).
    set (sorted := sort_values K cr_total false D).
    set (totals := map (fun a' => group_total df a' cat_to_compare) idx).
    assert (Hp : Permutation sorted D) by apply sort_values_perm.
    assert (Hs : StronglySorted (fun a b => cr_total b <= cr_total a) sorted)
      by apply sort_values_descending.
    assert (Hrank : forall r, In r sorted ->
                      In (cr_nama_afiliasi r) idx
                      /\ cr_total r = group_total df (cr_nama_afiliasi r) cat_to_compare
                      /\ rank_in_category r = rank_min totals (cr_total r)).
    { intros r Hr. apply (Permutation_in _ Hp) in Hr. unfold D in Hr.
      apply in_map_iff in Hr. destruct Hr as (a & <- & Ha). cbn. auto. }
    assert (Hlen : List.length sorted = List.length idx).
    { unfold sorted. rewrite sort_values_length. unfold D. apply length_map. }
    assert (Hnth : forall i x, nth_error (firstn (Nat.min 20 (List.length idx)) sorted) i
                               = Some x -> nth_error sorted i = Some x).
    { intros i x Hi. rewrite nth_error_firstn in Hi.
      destruct (i <? Nat.min 20 (List.length idx))%nat; [exact Hi | discriminate]. }
    split; [|split; [|split; [|split]]].
    + rewrite length_firstn, Hlen. lia.
    + intros r Hr. apply in_firstn in Hr. destruct (Hrank r Hr) as (Ha & Ht & _).
      unfold df. rewrite (cat_pivot_cell detail_kode _ _ Ha Hc), Ht.
      unfold group_total, df. now rewrite totals_in_group.
    + intros i j x y Hij Hi Hj. apply Hnth in Hi. apply Hnth in Hj.
      assert (Hle : cr_total y <= cr_total x)
        by exact (StronglySorted_nth_error _ _ Hs i j x y Hij Hi Hj).
      split; [exact Hle|].
      destruct (Hrank x (nth_error_In _ _ Hi)) as (_ & _ & ->).
      destruct (Hrank y (nth_error_In _ _ Hj)) as (_ & _ & ->).
      now apply rank_min_mono.
    + intros x Hx. apply Hnth in Hx.
      destruct (Hrank x (nth_error_In _ _ Hx)) as (_ & _ & ->).
      destruct (sorted_position_bounds cr_total _ _ _ Hs Hx) as [Hgt _].
      rewrite (count_perm _ _ _ Hp) in Hgt.
      unfold rank_min. f_equal.
      assert (Ht : totals = map cr_total D).
      { unfold totals, D. rewrite map_map. reflexivity. }
      rewrite Ht, <- (count_map cr_total (fun y => Qgtb y (cr_total x))). lia.
    + intros x y Hx Hy E. apply in_firstn in Hx. apply in_firstn in Hy.
      destruct (Hrank x Hx) as (_ & _ & ->). destruct (Hrank y Hy) as (_ & _ & ->).
      apply Nat.le_antisymm; apply rank_min_mono; rewrite E; apply Qle_refl.
Qed.

Lemma compare_category_ranks_witness :
  exists rows,
    compare_category reversing_kind (cat_pivot_of (map add_category example_mixed))
                     Publication = Some rows
    /\ forall x, nth_error rows 0 = Some x -> rank_in_category x = 1%nat.
Proof.
  eexists.
  assert (Hrows : compare_category reversing_kind
                    (cat_pivot_of (map add_category example_mixed)) Publication = Some _)
    by (vm_compute; reflexivity).
  split; [exact Hrows|].
  destruct (proj2 (compare_category_ranks reversing_kind example_mixed Publication)
                  _ Hrows) as (_ & _ & _ & H & _).
  exact H.
Defined.

(** ** The simulation table *)

Lemma concat_categories_keys (original_cat sim_cat : list (Category * Q)) :
  map cs_category (concat_categories original_cat sim_cat)
  = sorted_unique Category_eq_dec Category_leb (map fst original_cat ++ map fst sim_cat).
Proof. unfold concat_categories. rewrite map_map. cbn [cs_category]. apply map_id. Qed.

(** X7.  The simulation table as displayed holds the rows computed by the
    simulation, one for each category in which the affiliation has records
    and no other, in the fixed display order, whatever the sort kind. *)
Theorem simulation_table_order (K : sort_kind) (detail_kode : list DetailRow)
    (selected_affiliation : string) (sim_categories : list Category) (delta_value : Q) :
  In selected_affiliation (pv_index (cat_pivot_of (map add_category detail_kode))) ->
  sim_categories <> [] ->
  exists df_sim df_cat_sim table,
    run_simulation detail_kode selected_affiliation sim_categories delta_value
    = Simulated df_sim df_cat_sim
    /\ simulation_table K detail_kode selected_affiliation sim_categories delta_value
       = Simulated df_sim table
    /\ Permutation table df_cat_sim
    /\ map cs_category table = columns_in_order (map cs_category df_cat_sim)
    /\ forall c, In c (map cs_category table)
                 <-> records_in detail_kode selected_affiliation c <> [].
Proof.
  intros Hin Hne. destruct sim_categories as [|c0 cats]; [congruence|].
  unfold simulation_table. rewrite (run_simulation_eq _ _ _ _ _ Hin).
  set (df_aff := df_aff_detail_of detail_kode selected_affiliation).
  set (df_sim := map (simulate_row (c0 :: cats) delta_value) df_aff).
  set (rows := concat_categories (groupby_category_sum category total_of df_aff)
                                 (groupby_category_sum s_category total_sim df_sim)).
  exists df_sim, rows, (sort_by_category K rows).
  split; [reflexivity|]. split; [reflexivity|].
  assert (Hp : Permutation (sort_by_category K rows) rows) by apply sort_values_perm.
  split; [exact Hp|].
  assert (Hnd : NoDup (map cs_category rows)).
  { unfold rows. rewrite concat_categories_keys. apply sorted_unique_NoDup. }
  split; [exact (sort_on_category K cs_category rows Hnd)|].
  intros c. split.
  - intros Hc.
    apply (Permutation_in _ (Permutation_map cs_category Hp)) in Hc.
    unfold rows in Hc. rewrite concat_categories_keys in Hc.
    apply sorted_unique_In in Hc. rewrite !groupby_category_keys in Hc.
    assert (Hr : exists r, In r df_aff /\ category r = Some c).
    { apply in_app_or in Hc. destruct Hc as [Hc|Hc]; apply category_keys_In in Hc.
      - exact Hc.
      - destruct Hc as (s & Hs & Hcs). unfold df_sim in Hs.
        apply in_map_iff in Hs. destruct Hs as (r & <- & Hr). now exists r. }
    destruct Hr as (r & Hr & Hcr). intros Hnil.
    assert (Hf : In r (filter (has_category category c) df_aff)).
    { apply filter_In. split; [exact Hr | now apply has_category_true]. }
    unfold df_aff in Hf. rewrite df_aff_in_category, Hnil in Hf. destruct Hf.
  - intros Hrec.
    apply (Permutation_in _ (Permutation_sym (Permutation_map cs_category Hp))).
    unfold rows. rewrite concat_categories_keys.
    apply sorted_unique_In, in_or_app. left.
    now apply category_with_records_grouped.
Qed.

Lemma simulation_table_order_witness :
  In "U" (pv_index (cat_pivot_of (map add_category example_simulation)))
  /\ [HKI] <> []
  /\ exists df_sim df_cat_sim table,
       run_simulation example_simulation "U" [HKI] (1#10) = Simulated df_sim df_cat_sim
       /\ simulation_table reversing_kind example_simulation "U" [HKI] (1#10)
          = Simulated df_sim table
       /\ map cs_category table = columns_in_order (map cs_category df_cat_sim).
Proof.
  assert (Hin : In "U" (pv_index (cat_pivot_of (map add_category example_simulation))))
    by (vm_compute; auto).
  assert (Hne : [HKI] <> []) by discriminate.
  split; [exact Hin|]. split; [exact Hne|].
  destruct (simulation_table_order reversing_kind example_simulation "U" [HKI] (1#10)
              Hin Hne) as (df_sim & rows & table & H1 & H2 & _ & H3 & _).
  exists df_sim, rows, table. auto.
Defined.


(** ** Bounds on the simulation *)


Lemma Qmult_le_l_nonneg (x y z : Q) : x <= y -> 0 <= z -> z * x <= z * y.
Proof.
  intros H Hz. rewrite (Qmult_comm z x), (Qmult_comm z y).
  now apply Qmult_le_compat_r.
Qed.








(** ** More on the comparator *)

Lemma find_code_unique (df : list MetricsRow) (b : MetricsRow) :
  NoDup (map code df) -> In b df ->
  find (fun r => (code r =? code b)%string) df = Some b.
Proof.
  induction df as [|r df IH]; intros Hnd Hin; [destruct Hin|].
  cbn [map] in Hnd. apply NoDup_cons_iff in Hnd. destruct Hnd as [Hr Hnd].
  cbn [find]. destruct Hin as [->|Hin].
  - now rewrite String.eqb_refl.
  - destruct (String.eqb_spec (code r) (code b)) as [E|E].
    + exfalso. apply Hr. rewrite E. now apply in_map.
    + now apply IH.
Qed.

Lemma find_code_absent (df : list MetricsRow) (c : string) :
  ~ In c (map code df) -> find (fun r => (code r =? c)%string) df = None.
Proof.
  intros Hn. destruct (find _ df) as [r|] eqn:F; [|reflexivity].
  apply find_some in F. destruct F as [Hr E]. apply String.eqb_eq in E.
  exfalso. apply Hn. rewrite <- E. now apply in_map.
Qed.

(** With unique codes on a side, what a merged row holds for that side is a
    function of its code. *)
Lemma selected_side_unique (metric_col : MetricCol) (df1 : list MetricsRow)
    (m : MergedRow) :
  NoDup (map code df1) -> selected_side metric_col df1 m ->
  fillna0 (mg_score_selected m) = score_of_code metric_col df1 (mg_code m).
Proof.
  intros Hnd [(a & Ha & Hc & Hs & _)|(Hn & Hs & _)]; unfold score_of_code.
  - rewrite <- Hc, (find_code_unique df1 a Hnd Ha), Hs. reflexivity.
  - rewrite (find_code_absent df1 _ Hn), Hs. reflexivity.
Qed.

Lemma compare_side_unique (metric_col : MetricCol) (df2 : list MetricsRow)
    (m : MergedRow) :
  NoDup (map code df2) -> compare_side metric_col df2 m ->
  fillna0 (mg_score_compare m) = score_of_code metric_col df2 (mg_code m)
  /\ mg_category_b m = area_of_code df2 (mg_code m).
Proof.
  intros Hnd [(b & Hb & Hc & Hs & Ha)|(Hn & Hs & Ha)]; unfold score_of_code, area_of_code.
  - rewrite <- Hc, (find_code_unique df2 b Hnd Hb), Hs, Ha. split; reflexivity.
  - rewrite (find_code_absent df2 _ Hn), Hs, Ha. split; reflexivity.
Qed.

Lemma compared_row (df_md : list MetricsRow) (aff1 aff2 : string) (metric_col : MetricCol)
    (rows : list ComparisonRow) (r : ComparisonRow) :
  compare_universities_df df_md aff1 aff2 metric_col = Ok rows ->
  In r rows ->
  NoDup (codes_of df_md aff2)
  /\ exists m,
       r = finish_row m (name_of_code (rows_named df_md aff2) (mg_code m))
       /\ selected_side metric_col (rows_named df_md aff1) m
       /\ compare_side metric_col (rows_named df_md aff2) m.
Proof.
  intros Hok Hr.
  assert (Hnd : NoDup (codes_of df_md aff2)).
  { destruct (unique_codes (codes_of df_md aff2)) eqn:E.
    - now apply unique_codes_NoDup.
    - rewrite compare_universities_df_raise in Hok; [discriminate|].
      intros H. apply unique_codes_NoDup in H. congruence. }
  split; [exact Hnd|].
  rewrite (compare_universities_df_ok _ _ _ _ Hnd) in Hok. injection Hok as <-.
  apply in_map_iff in Hr. destruct Hr as (m & <- & Hm).
  exists m. split; [reflexivity|].
  rewrite merge_outer_groups in Hm. apply in_flat_map in Hm.
  destruct Hm as (k & _ & Hm). now apply merge_group_row in Hm.
Qed.

(** X12.  Name and category of a comparison row: when the code is present
    for A the row takes the name and the area of A's record and falls back,
    where one of them is missing, on the record of B with that code; when the
    code is absent for A, both come from B's record. *)
Theorem comparator_name_category (df_md : list MetricsRow) (aff1 aff2 : string)
    (metric_col : MetricCol) (rows : list ComparisonRow) (r : ComparisonRow) :
  compare_universities_df df_md aff1 aff2 metric_col = Ok rows ->
  In r rows ->
  (exists a, In a (rows_named df_md aff1) /\ code a = c_code r
             /\ c_name r = fillna (name a) (name_of_code (rows_named df_md aff2) (c_code r))
             /\ c_category r
                = fillna (area a) (area_of_code (rows_named df_md aff2) (c_code r)))
  \/ (~ In (c_code r) (codes_of df_md aff1)
      /\ c_name r = name_of_code (rows_named df_md aff2) (c_code r)
      /\ c_category r = area_of_code (rows_named df_md aff2) (c_code r)).
Proof.
  intros Hok Hr.
  destruct (compared_row _ _ _ _ _ _ Hok Hr) as (Hnd & m & -> & Hsel & Hcmp).
  destruct (compare_side_unique _ _ _ Hnd Hcmp) as [_ Hb].
  cbn [finish_row c_code c_name c_category]. rewrite Hb.
  destruct Hsel as [(a & Ha & Hc & _ & Hn & Har)|(Hn & _ & Hnm & Har)].
  - left. exists a. rewrite Hn, Har. auto.
  - right. rewrite Hnm, Har. cbn [fillna]. auto.
Qed.

Lemma comparator_name_category_witness :
  exists rows r,
    compare_universities_df example_join "UA" "UB" col_overall_total = Ok rows
    /\ In r rows
    /\ c_code r = "C3"
    /\ ~ In (c_code r) (codes_of example_join "UA")
    /\ c_category r = Some "Penelitian".
Proof.
  eexists. eexists.
  assert (Hok : compare_universities_df example_join "UA" "UB" col_overall_total = Ok _)
    by (vm_compute; reflexivity).
  split; [exact Hok|].
  match type of Hok with
  | _ = Ok ?rows =>
      assert (Hr : In (nth 2 rows (finish_row (right_only col_overall_total
                                                 (mk_metric "UB" "C3" None 0)) None))
                      rows) by (right; right; left; reflexivity)
  end.
  split; [exact Hr|]. split; [reflexivity|].
  destruct (comparator_name_category _ _ _ _ _ _ Hok Hr)
    as [(a & Ha & Hc & _)|(Hn & _ & Hcat)].
  - exfalso. vm_compute in Ha. destruct Ha as [<-|[<-|[]]]; discriminate Hc.
  - split; [exact Hn|]. rewrite Hcat. reflexivity.
Defined.

Lemma compared_row_scores (df_md : list MetricsRow) (aff1 aff2 : string)
    (metric_col : MetricCol) (rows : list ComparisonRow) (r : ComparisonRow) :
  compare_universities_df df_md aff1 aff2 metric_col = Ok rows ->
  NoDup (codes_of df_md aff1) ->
  In r rows ->
  score_selected r = score_of_code metric_col (rows_named df_md aff1) (c_code r)
  /\ score_compare r = score_of_code metric_col (rows_named df_md aff2) (c_code r).
Proof.
  intros Hok Hnd1 Hr.
  destruct (compared_row _ _ _ _ _ _ Hok Hr) as (Hnd & m & -> & Hsel & Hcmp).
  cbn [finish_row c_code score_selected score_compare].
  split.
  - now apply selected_side_unique.
  - now apply compare_side_unique.
Qed.

(** X13.  Swapping the two universities mirrors the comparison: with unique
    codes on both sides, the two tables have the same codes, and rows of the
    same code have their two scores exchanged and opposite differences. *)
Theorem comparator_swap (df_md : list MetricsRow) (aff1 aff2 : string)
    (metric_col : MetricCol) (rows12 rows21 : list ComparisonRow) :
  compare_universities_df df_md aff1 aff2 metric_col = Ok rows12 ->
  compare_universities_df df_md aff2 aff1 metric_col = Ok rows21 ->
  (forall c, In c (map c_code rows12) <-> In c (map c_code rows21))
  /\ forall r s, In r rows12 -> In s rows21 -> c_code r = c_code s ->
       score_selected s = score_compare r
       /\ score_compare s = score_selected r
       /\ diff_abs s == - diff_abs r.
Proof.
  intros H12 H21.
  assert (Hnd2 : NoDup (codes_of df_md aff2)).
  { destruct (unique_codes (codes_of df_md aff2)) eqn:E.
    - now apply unique_codes_NoDup.
    - rewrite compare_universities_df_raise in H12; [discriminate|].
      intros H. apply unique_codes_NoDup in H. congruence. }
  assert (Hnd1 : NoDup (codes_of df_md aff1)).
  { destruct (unique_codes (codes_of df_md aff1)) eqn:E.
    - now apply unique_codes_NoDup.
    - rewrite compare_universities_df_raise in H21; [discriminate|].
      intros H. apply unique_codes_NoDup in H. congruence. }
  split.
  - intros c.
    rewrite (compare_universities_df_ok _ _ _ _ Hnd2) in H12. injection H12 as <-.
    rewrite (compare_universities_df_ok _ _ _ _ Hnd1) in H21. injection H21 as <-.
    rewrite !map_map. cbn [finish_row c_code].
    change (fun x : MergedRow => mg_code x) with mg_code.
    rewrite !merge_outer_codes. tauto.
  - intros r s Hr Hs Hc.
    destruct (compared_row_scores _ _ _ _ _ _ H12 Hnd1 Hr) as [Hr1 Hr2].
    destruct (compared_row_scores _ _ _ _ _ _ H21 Hnd2 Hs) as [Hs1 Hs2].
    assert (Hdr : diff_abs r = score_selected r - score_compare r).
    { destruct (compared_row _ _ _ _ _ _ H12 Hr) as (_ & m & -> & _). reflexivity. }
    assert (Hds : diff_abs s = score_selected s - score_compare s).
    { destruct (compared_row _ _ _ _ _ _ H21 Hs) as (_ & m & -> & _). reflexivity. }
    rewrite Hc in Hr1, Hr2.
    split; [congruence|]. split; [congruence|].
    rewrite Hds, Hdr, Hs1, Hs2, Hr1, Hr2. ring.
Qed.

Lemma comparator_swap_witness :
  exists rows12 rows21,
    compare_universities_df example_join "UA" "UB" col_overall_total = Ok rows12
    /\ compare_universities_df example_join "UB" "UA" col_overall_total = Ok rows21
    /\ forall c, In c (map c_code rows12) <-> In c (map c_code rows21).
Proof.
  eexists. eexists.
  assert (H12 : compare_universities_df example_join "UA" "UB" col_overall_total = Ok _)
    by (vm_compute; reflexivity).
  assert (H21 : compare_universities_df example_join "UB" "UA" col_overall_total = Ok _)
    by (vm_compute; reflexivity).
  split; [exact H12|]. split; [exact H21|].
  exact (proj1 (comparator_swap _ _ _ _ _ _ H12 H21)).
Defined.

Lemma compare_ok_unique (df_md : list MetricsRow) (aff1 aff2 : string)
    (metric_col : MetricCol) (rows : list ComparisonRow) :
  compare_universities_df df_md aff1 aff2 metric_col = Ok rows ->
  NoDup (codes_of df_md aff2).
Proof.
  intros Hok. destruct (unique_codes (codes_of df_md aff2)) eqn:E.
  - now apply unique_codes_NoDup.
  - rewrite compare_universities_df_raise in Hok; [discriminate|].
    intros H. apply unique_codes_NoDup in H. congruence.
Qed.

Lemma compared_row_diff (df_md : list MetricsRow) (aff1 aff2 : string)
    (metric_col : MetricCol) (rows : list ComparisonRow) (r : ComparisonRow) :
  compare_universities_df df_md aff1 aff2 metric_col = Ok rows ->
  In r rows -> diff_abs r = score_selected r - score_compare r.
Proof.
  intros Hok Hr. destruct (compared_row _ _ _ _ _ _ Hok Hr) as (_ & m & -> & _).
  reflexivity.
Qed.

(** X14.  Comparing a university with itself (its codes being unique, or the
    call raises) gives a table in which both scores of every row coincide and
    every difference is 0, so the summary counts no indicator as higher or
    lower and all of them as equal. *)
Theorem comparator_self (df_md : list MetricsRow) (aff : string) (metric_col : MetricCol)
    (rows : list ComparisonRow) :
  compare_universities_df df_md aff aff metric_col = Ok rows ->
  (forall r, In r rows -> score_selected r = score_compare r /\ diff_abs r == 0)
  /\ summary_of rows = {| better := 0; worse := 0; equal := List.length rows |}.
Proof.
  intros Hok. pose proof (compare_ok_unique _ _ _ _ _ Hok) as Hnd.
  assert (Hrow : forall r, In r rows ->
                           score_selected r = score_compare r /\ diff_abs r == 0).
  { intros r Hr.
    destruct (compared_row_scores _ _ _ _ _ _ Hok Hnd Hr) as [H1 H2].
    rewrite (compared_row_diff _ _ _ _ _ _ Hok Hr), H1, H2. split; [reflexivity | ring]. }
  split; [exact Hrow|].
  unfold summary_of. f_equal.
  - apply count_none. apply Forall_forall. intros r Hr.
    destruct (Hrow r Hr) as [_ E]. unfold Qgtb.
    apply negb_false_iff, Qle_bool_iff. rewrite E. apply Qle_refl.
  - apply count_none. apply Forall_forall. intros r Hr.
    destruct (Hrow r Hr) as [_ E]. unfold Qltb.
    apply negb_false_iff, Qle_bool_iff. rewrite E. apply Qle_refl.
  - apply count_all. apply Forall_forall. intros r Hr.
    destruct (Hrow r Hr) as [_ E]. now apply Qeq_bool_iff.
Qed.

Lemma comparator_self_witness :
  exists rows,
    compare_universities_df example_join "UA" "UA" col_overall_total = Ok rows
    /\ summary_of rows = {| better := 0; worse := 0; equal := List.length rows |}.
Proof.
  eexists.
  assert (Hok : compare_universities_df example_join "UA" "UA" col_overall_total = Ok _)
    by (vm_compute; reflexivity).
  split; [exact Hok|].
  exact (proj2 (comparator_self _ _ _ _ Hok)).
Defined.

Lemma nodup_app_length (l1 l2 : list string) :
  NoDup l1 -> NoDup l2 ->
  List.length (nodup string_dec (l1 ++ l2))
  = (count (fun c => negb (existsb (String.eqb c) l2)) l1 + List.length l2)%nat.
Proof.
  intros H1 H2. induction H1 as [|a l1 Ha H1 IH].
  - cbn. now rewrite (nodup_fixed_point string_dec H2).
  - cbn [app nodup]. unfold count in *. cbn [filter].
    destruct (in_dec string_dec a (l1 ++ l2)) as [Hin|Hn].
    + assert (E : existsb (String.eqb a) l2 = true).
      { apply existsb_String_eqb_In. apply in_app_or in Hin. tauto. }
      rewrite E. cbn [negb]. exact IH.
    + assert (E : existsb (String.eqb a) l2 = false).
      { destruct (existsb (String.eqb a) l2) eqn:X; [|reflexivity].
        apply existsb_String_eqb_In in X. exfalso. apply Hn, in_or_app. now right. }
      rewrite E. cbn [negb List.length]. now rewrite IH.
Qed.

(** X15.  With unique codes on both sides, the comparison has one row for
    every record of B and one row for every record of A whose code B does not
    have, and no other row. *)
Theorem comparator_row_count (df_md : list MetricsRow) (aff1 aff2 : string)
    (metric_col : MetricCol) (rows : list ComparisonRow) :
  compare_universities_df df_md aff1 aff2 metric_col = Ok rows ->
  NoDup (codes_of df_md aff1) ->
  List.length rows
  = (count (fun c => negb (existsb (String.eqb c) (codes_of df_md aff2)))
           (codes_of df_md aff1)
     + List.length (codes_of df_md aff2))%nat.
Proof.
  intros Hok Hnd1. pose proof (compare_ok_unique _ _ _ _ _ Hok) as Hnd2.
  rewrite (compare_universities_df_ok _ _ _ _ Hnd2) in Hok. injection Hok as <-.
  rewrite length_map, <- (length_map mg_code).
  rewrite (merge_outer_unique metric_col (rows_named df_md aff1) (rows_named df_md aff2)
             Hnd1 Hnd2).
  unfold sorted_unique.
  rewrite (Permutation_length (isort_perm String.leb _)).
  now apply nodup_app_length.
Qed.

Lemma comparator_row_count_witness :
  exists rows,
    compare_universities_df example_join "UA" "UB" col_overall_total = Ok rows
    /\ NoDup (codes_of example_join "UA")
    /\ List.length rows = 3%nat.
Proof.
  eexists.
  assert (Hok : compare_universities_df example_join "UA" "UB" col_overall_total = Ok _)
    by (vm_compute; reflexivity).
  assert (Hnd : NoDup (codes_of example_join "UA")) by solve_NoDup.
  split; [exact Hok|]. split; [exact Hnd|].
  rewrite (comparator_row_count _ _ _ _ _ Hok Hnd). reflexivity.
Defined.



(** ** The rows shown by the comparison tab *)

Lemma filter_category_In (cat_filter : list string) (df : list ComparisonRow)
    (r : ComparisonRow) :
  In r (filter_category cat_filter df) ->
  In r df
  /\ (cat_filter <> [] -> exists c, c_category r = Some c /\ In c cat_filter).
Proof.
  destruct cat_filter as [|c0 cf]; cbn [filter_category]; intros H.
  - split; [exact H | congruence].
  - apply filter_In in H. destruct H as [Hin Hc]. split; [exact Hin|]. intros _.
    destruct (c_category r) as [c|]; [|discriminate].
    exists c. split; [reflexivity|].
    apply existsb_exists in Hc. destruct Hc as (x & Hx & E).
    apply String.eqb_eq in E. now subst x.
Qed.

(** X17.  The table shown by the comparison tab holds [min(show_n, size)]
    rows of the comparator's table; when a category filter is chosen every
    row shown has one of the chosen categories (rows without category are
    dropped); and no row left out by the cut has a larger [|diff_abs|] than a
    row shown. *)
Theorem compare_tab_shown (upper : string -> string) (K : sort_kind)
    (df_md : list MetricsRow) (aff_a aff_b : string)
    (metric_col : MetricCol) (cat_filter : list string) (show_n : nat)
    (df_comp : list ComparisonRow) (s : Summary) (shown : list ComparisonRow) :
  compare_universities_df df_md (upper aff_a) (upper aff_b) metric_col = Ok df_comp ->
  compare_tab upper K df_md aff_a aff_b metric_col cat_filter show_n = Ok (s, shown) ->
  List.length shown = Nat.min show_n (List.length (filter_category cat_filter df_comp))
  /\ (forall r, In r shown ->
        In r df_comp
        /\ (cat_filter <> [] -> exists c, c_category r = Some c /\ In c cat_filter))
  /\ exists hidden,
       Permutation (shown ++ hidden) (filter_category cat_filter df_comp)
       /\ forall x h, In x shown -> In h hidden ->
                      Qabs (diff_abs h) <= Qabs (diff_abs x).
Proof.
  intros Hcmp Htab.
  rewrite compare_tab_eq in Htab. unfold filtered_comparison in Htab.
  rewrite Hcmp in Htab.
  set (full := filter_category cat_filter df_comp) in *.
  assert (Hshown : shown
                   = firstn show_n (sort_values K (fun r => Qabs (diff_abs r)) false full))
    by congruence.
  clear Htab. subst shown.
  destruct (top_rows K (fun r => Qabs (diff_abs r)) show_n full) as (Hperm & Hdom & _).
  split; [|split].
  - now rewrite length_firstn, sort_values_length.
  - intros r Hr.
    assert (Hin : In r full).
    { eapply Permutation_in; [exact Hperm|]. apply in_or_app. now left. }
    now apply filter_category_In.
  - exists (skipn show_n (sort_values K (fun r => Qabs (diff_abs r)) false full)).
    split; [exact Hperm|]. intros x h Hx Hh. exact (Hdom x h Hx Hh).
Qed.

Lemma compare_tab_shown_witness :
  exists df_comp s shown,
    compare_universities_df example_eleven_metrics (ascii_upper "ua") (ascii_upper "ub")
                            col_overall_total = Ok df_comp
    /\ compare_tab ascii_upper reversing_kind example_eleven_metrics "ua" "ub"
        col_overall_total [] 10
       = Ok (s, shown)
    /\ List.length shown = 10%nat.
Proof.
  eexists. eexists. eexists.
  assert (Hc : compare_universities_df example_eleven_metrics (ascii_upper "ua")
      (ascii_upper "ub")
                                       col_overall_total = Ok _)
    by (vm_compute; reflexivity).
  assert (Ht : compare_tab ascii_upper reversing_kind example_eleven_metrics "ua" "ub"
                           col_overall_total [] 10 = Ok (_, _))
    by (vm_compute; reflexivity).
  split; [exact Hc|]. split; [exact Ht|].
  rewrite (proj1 (compare_tab_shown _ _ _ _ _ _ _ _ _ _ _ Hc Ht)). reflexivity.
Defined.

(** ** Styling and summary *)

Lemma count_ext {A : Type} (p q : A -> bool) (l : list A) :
  (forall x, p x = q x) -> count p l = count q l.
Proof. intros H. unfold count. now rewrite (filter_ext _ _ H). Qed.

Lemma Qeq_bool_zero_split (d : Q) :
  Qeq_bool d 0 = negb (Qgtb d 0) && negb (Qltb d 0).
Proof.
  unfold Qgtb, Qltb. rewrite !negb_involutive.
  destruct (Qeq_bool d 0) eqn:E.
  - apply Qeq_bool_iff in E. symmetry. apply andb_true_iff.
    split; apply Qle_bool_iff; rewrite E; apply Qle_refl.
  - apply Qeq_bool_false_iff in E. symmetry. apply andb_false_iff.
    destruct (Qle_bool d 0) eqn:L; [|now left]. right.
    destruct (Qle_bool 0 d) eqn:G; [|reflexivity].
    apply Qle_bool_iff in L. apply Qle_bool_iff in G.
    exfalso. apply E. now apply Qle_antisym.
Qed.

Lemma Qgtb_Qltb_exclusive (d : Q) : Qgtb d 0 = true -> Qltb d 0 = false.
Proof.
  intros H. apply Qgtb_true_iff in H. unfold Qltb.
  apply negb_false_iff, Qle_bool_iff. now apply Qlt_le_weak.
Qed.

(** X18.  The styling of the comparison table agrees with its summary: a row
    never styles its code, name and category cells and gives its four score
    cells one common style; the rows styled green are exactly those counted
    as higher, the rows styled red those counted as lower, and the rows
    without any style those counted as equal. *)
Theorem color_diff_matches_summary (df : list ComparisonRow) :
  (forall r, exists color,
      color_diff r
      = [EmptyString; EmptyString; EmptyString; color; color; color; color]
      /\ (color = green \/ color = red \/ color = EmptyString))
  /\ better (summary_of df)
     = count (fun r => existsb (String.eqb green) (color_diff r)) df
  /\ worse (summary_of df)
     = count (fun r => existsb (String.eqb red) (color_diff r)) df
  /\ equal (summary_of df)
     = count (fun r => forallb (String.eqb EmptyString) (color_diff r)) df.
Proof.
  split; [|split; [|split]].
  - intros r. unfold color_diff.
    exists (if Qgtb (diff_abs r) 0 then green
            else if Qltb (diff_abs r) 0 then red else EmptyString).
    split; [reflexivity|].
    destruct (Qgtb (diff_abs r) 0); [now left|].
    destruct (Qltb (diff_abs r) 0); [right; now left | right; now right].
  - unfold summary_of. cbn [better]. apply count_ext. intros r.
    unfold color_diff. cbn [map df_show_columns existsb].
    destruct (Qgtb (diff_abs r) 0); [reflexivity|].
    destruct (Qltb (diff_abs r) 0); reflexivity.
  - unfold summary_of. cbn [worse]. apply count_ext. intros r.
    unfold color_diff. cbn [map df_show_columns existsb].
    destruct (Qgtb (diff_abs r) 0) eqn:G.
    + rewrite (Qgtb_Qltb_exclusive _ G). reflexivity.
    + destruct (Qltb (diff_abs r) 0); reflexivity.
  - unfold summary_of. cbn [equal]. apply count_ext. intros r.
    rewrite Qeq_bool_zero_split.
    unfold color_diff. cbn [map df_show_columns existsb].
    destruct (Qgtb (diff_abs r) 0); [reflexivity|].
    destruct (Qltb (diff_abs r) 0); reflexivity.
Qed.

(** ** The metrics-detail tab *)

Lemma pair_eqb_eq (x y : string * string) : pair_eqb x y = true <-> x = y.
Proof.
  unfold pair_eqb. rewrite andb_true_iff, !String.eqb_eq.
  destruct x, y; cbn. split; [intros [-> ->]; reflexivity | intros E; now inversion E].
Qed.

Lemma drop_duplicates_from_In {A : Type} (eqb : A -> A -> bool) (seen l : list A) (x : A) :
  (forall a b, eqb a b = true <-> a = b) ->
  In x (drop_duplicates_from eqb seen l) <-> In x l /\ ~ In x seen.
Proof.
  intros Heqb. revert seen. induction l as [|y l IH]; intros seen; cbn.
  - tauto.
  - destruct (existsb (eqb y) seen) eqn:E.
    + apply existsb_exists in E. destruct E as (z & Hz & E). apply Heqb in E. subst z.
      rewrite IH. split.
      * intros [H1 H2]. auto.
      * intros [[->|H1] H2]; [contradiction | auto].
    + assert (Hy : ~ In y seen).
      { intros Hin. assert (existsb (eqb y) seen = true).
        { apply existsb_exists. exists y. split; [exact Hin | now apply Heqb]. }
        congruence. }
      cbn. rewrite IH. cbn. split.
      * intros [->|[H1 H2]]; [auto|]. split; [now right | tauto].
      * intros [[->|H1] H2]; [now left|].
        destruct (eqb y x) eqn:Exy.
        -- apply Heqb in Exy. now left.
        -- right. split; [exact H1|]. intros [E'|H]; [|contradiction].
           subst y. assert (eqb x x = true) by now apply Heqb. congruence.
Qed.

Lemma drop_duplicates_from_NoDup {A : Type} (eqb : A -> A -> bool) (seen l : list A) :
  (forall a b, eqb a b = true <-> a = b) ->
  NoDup (drop_duplicates_from eqb seen l).
Proof.
  intros Heqb. revert seen. induction l as [|y l IH]; intros seen; cbn.
  - constructor.
  - destruct (existsb (eqb y) seen); [apply IH|].
    constructor; [|apply IH].
    intros Hin. apply (drop_duplicates_from_In eqb _ _ _ Heqb) in Hin.
    destruct Hin as [_ Hn]. apply Hn. now left.
Qed.

Lemma NoDup_map_injective_in {A B : Type} (f : A -> B) (l : list A) :
  NoDup l -> (forall x y, In x l -> In y l -> f x = f y -> x = y) -> NoDup (map f l).
Proof.
  induction 1 as [|a l Ha Hnd IH]; intros Hinj; cbn; constructor.
  - intros Hin. apply in_map_iff in Hin. destruct Hin as (b & E & Hb).
    assert (b = a) by (apply Hinj; [now right | now left | exact E]).
    subst b. contradiction.
  - apply IH. intros x y Hx Hy. apply Hinj; now right.
Qed.

Lemma code_cat_map_In (detail_kode : list DetailRow) (e : string * option Category) :
  In e (code_cat_map (map add_category detail_kode))
  <-> exists d, In d detail_kode
                /\ e = (kode d, CATEGORY_LABELS (kategori_score d)).
Proof.
  unfold code_cat_map, drop_duplicates. rewrite in_map_iff, map_map. cbn. split.
  - intros (p & <- & Hp).
    apply (drop_duplicates_from_In pair_eqb _ _ _ pair_eqb_eq) in Hp.
    destruct Hp as [Hp _]. apply in_map_iff in Hp. destruct Hp as (d & <- & Hd).
    now exists d.
  - intros (d & Hd & ->). exists (kode d, kategori_score d). split; [reflexivity|].
    apply (drop_duplicates_from_In pair_eqb _ _ _ pair_eqb_eq).
    split; [|intros []].
    apply (in_map (fun x => (kode x, kategori_score x))). exact Hd.
Qed.

Lemma code_cat_map_unique (detail_kode : list DetailRow) :
  (forall d1 d2, In d1 detail_kode -> In d2 detail_kode ->
                 kode d1 = kode d2 -> kategori_score d1 = kategori_score d2) ->
  NoDup (map fst (code_cat_map (map add_category detail_kode))).
Proof.
  intros Hfun. unfold code_cat_map, drop_duplicates. rewrite !map_map. cbn [fst].
  apply NoDup_map_injective_in.
  - apply drop_duplicates_from_NoDup, pair_eqb_eq.
  - intros p q Hp Hq E.
    apply (drop_duplicates_from_In pair_eqb _ _ _ pair_eqb_eq) in Hp.
    apply (drop_duplicates_from_In pair_eqb _ _ _ pair_eqb_eq) in Hq.
    destruct Hp as [Hp _]. destruct Hq as [Hq _].
    apply in_map_iff in Hp. destruct Hp as (d1 & <- & H1).
    apply in_map_iff in Hq. destruct Hq as (d2 & <- & H2).
    cbn in E. f_equal; [exact E | now apply Hfun].
Qed.

Lemma merge_category_cons (r : MetricsRow) (rows : list MetricsRow)
    (ccm : list (string * option Category)) :
  merge_category (r :: rows) ccm
  = match filter (fun e => (fst e =? code r)%string) ccm with
    | [] => [{| mc_row := r; mc_category := None |}]
    | ms => map (fun e => {| mc_row := r; mc_category := snd e |}) ms
    end ++ merge_category rows ccm.
Proof. reflexivity. Qed.

Lemma merge_category_keeps (rows : list MetricsRow) (ccm : list (string * option Category))
    (r : MetricsRow) :
  In r rows <-> In r (map mc_row (merge_category rows ccm)).
Proof.
  induction rows as [|a rows IH]; [cbn; tauto|].
  rewrite merge_category_cons, map_app, in_app_iff, <- IH. cbn [In].
  assert (Ha : forall x, In x (map mc_row
                    match filter (fun e => (fst e =? code a)%string) ccm with
                    | [] => [{| mc_row := a; mc_category := None |}]
                    | ms => map (fun e => {| mc_row := a; mc_category := snd e |}) ms
                    end) <-> a = x).
  { intros x. destruct (filter _ ccm) as [|e ms].
    - cbn. tauto.
    - rewrite map_map. cbn [mc_row]. split.
      + intros H. apply in_map_iff in H. destruct H as (? & E & _). exact E.
      + intros ->. left. reflexivity. }
  rewrite Ha. tauto.
Qed.

Lemma filter_fst_unique {B : Type} (l : list (string * B)) (k : string) :
  NoDup (map fst l) ->
  filter (fun e => (fst e =? k)%string) l = []
  \/ exists e, In e l /\ fst e = k /\ filter (fun e => (fst e =? k)%string) l = [e].
Proof.
  induction l as [|a l IH]; intros Hnd; [now left|].
  cbn [map] in Hnd. apply NoDup_cons_iff in Hnd. destruct Hnd as [Ha Hnd].
  cbn [filter]. destruct (String.eqb_spec (fst a) k) as [E|E].
  - right. exists a. split; [now left|]. split; [exact E|]. f_equal.
    apply filter_none. intros e He.
    destruct (String.eqb_spec (fst e) k) as [E'|E']; [|reflexivity].
    exfalso. apply Ha. rewrite E, <- E'. now apply in_map.
  - destruct (IH Hnd) as [H|(e & He & Hk & H)]; [now left|].
    right. exists e. split; [now right|]. auto.
Qed.

Lemma merge_category_unique (rows : list MetricsRow)
    (ccm : list (string * option Category)) :
  NoDup (map fst ccm) ->
  map mc_row (merge_category rows ccm) = rows
  /\ forall m, In m (merge_category rows ccm) ->
       (exists e, In e ccm /\ fst e = code (mc_row m) /\ mc_category m = snd e)
       \/ ((forall e, In e ccm -> fst e <> code (mc_row m)) /\ mc_category m = None).
Proof.
  intros Hnd. induction rows as [|r rows [IH1 IH2]]; [split; [reflexivity | intros m []]|].
  rewrite merge_category_cons, map_app, IH1.
  destruct (filter_fst_unique ccm (code r) Hnd) as [H|(e & He & Hk & H)]; rewrite H.
  - split; [reflexivity|]. intros m [<-|Hm]; [|now apply IH2].
    right. cbn. split; [|reflexivity]. intros e He Hk.
    assert (Hin : In e (filter (fun e => (fst e =? code r)%string) ccm)).
    { apply filter_In. split; [exact He | now apply String.eqb_eq]. }
    rewrite H in Hin. destruct Hin.
  - split; [reflexivity|]. intros m [<-|Hm]; [|now apply IH2].
    left. exists e. cbn. auto.
Qed.

Lemma metrics_tab_eq (upper : string -> string) (K : sort_kind) (df_md : list MetricsRow)
    (df_detail : list DetailCat)
    (selected_affiliation : string) (tab : MetricsTab) :
  metrics_tab upper K df_md df_detail selected_affiliation = Some tab ->
  rows_named df_md (upper selected_affiliation) <> []
  /\ total_overall tab
     = Qsum (map overall_total_of
                 (merge_category (rows_named df_md (upper selected_affiliation))
                                 (code_cat_map df_detail)))
  /\ df_md_aff tab
     = map (fun r => {| sh_row := r;
                        overall_share := overall_total_of r / Qmax (total_overall tab) 1 |})
           (merge_category (rows_named df_md (upper selected_affiliation))
                           (code_cat_map df_detail)).
Proof.
  unfold metrics_tab. fold (rows_named df_md (upper selected_affiliation)).
  destruct (rows_named df_md (upper selected_affiliation)) as [|r rows] eqn:E;
    [discriminate|].
  intros H. apply Some_inj in H. subst tab. cbn [total_overall df_md_aff].
  split; [discriminate|]. split; reflexivity.
Qed.

(** X20.  Tab 4 joins the affiliation's metric rows with the category of
    their code.  The join never loses a metric row.  When every [kode] of the
    cluster workbook has a single raw category, it does not duplicate any
    either: the table has exactly the affiliation's metric rows, the overall
    total is the sum over these rows, and each row carries the label of its
    code's raw category (undefined for a code unknown to the cluster
    workbook). *)
Theorem metrics_tab_rows (upper : string -> string) (K : sort_kind) (df_md : list MetricsRow)
    (detail_kode : list DetailRow) (selected_affiliation : string) (tab : MetricsTab) :
  metrics_tab upper K df_md (map add_category detail_kode) selected_affiliation = Some tab ->
  (forall r, In r (rows_named df_md (upper selected_affiliation))
             <-> In r (map (fun s => mc_row (sh_row s)) (df_md_aff tab)))
  /\ ((forall d1 d2, In d1 detail_kode -> In d2 detail_kode ->
                     kode d1 = kode d2 -> kategori_score d1 = kategori_score d2) ->
      map (fun s => mc_row (sh_row s)) (df_md_aff tab)
      = rows_named df_md (upper selected_affiliation)
      /\ total_overall tab
         = Qsum (map sinta_v3_overall_total
                     (rows_named df_md (upper selected_affiliation)))
      /\ forall s, In s (df_md_aff tab) ->
           (forall d, In d detail_kode -> kode d = code (mc_row (sh_row s)) ->
                      mc_category (sh_row s) = CATEGORY_LABELS (kategori_score d))
           /\ ((forall d, In d detail_kode -> kode d <> code (mc_row (sh_row s))) ->
               mc_category (sh_row s) = None)).
Proof.
  intros Htab. destruct (metrics_tab_eq _ _ _ _ _ _ Htab) as (_ & Htot & Hdf).
  set (rows := rows_named df_md (upper selected_affiliation)) in *.
  set (ccm := code_cat_map (map add_category detail_kode)) in *.
  assert (Hrows : map (fun s => mc_row (sh_row s)) (df_md_aff tab)
                  = map mc_row (merge_category rows ccm)).
  { rewrite Hdf, map_map. reflexivity. }
  split.
  - intros r. rewrite Hrows. apply merge_category_keeps.
  - intros Hfun.
    destruct (merge_category_unique rows ccm (code_cat_map_unique _ Hfun)) as [Hm Hcat].
    split; [now rewrite Hrows|]. split.
    + rewrite Htot. unfold overall_total_of.
      rewrite <- (map_map mc_row sinta_v3_overall_total), Hm. reflexivity.
    + intros s Hs. rewrite Hdf in Hs. apply in_map_iff in Hs.
      destruct Hs as (m & <- & Hmin). cbn [sh_row].
      destruct (Hcat m Hmin) as [(e & He & Hk & Hc)|(Hno & Hc)].
      * apply code_cat_map_In in He. destruct He as (d0 & Hd0 & ->).
        cbn [fst snd] in Hk, Hc. split.
        -- intros d Hd Hkd. rewrite Hc. f_equal. apply Hfun; congruence.
        -- intros Hnone. exfalso. exact (Hnone d0 Hd0 Hk).
      * split; [|intros _; exact Hc].
        intros d Hd Hkd. exfalso.
        apply (Hno (kode d, CATEGORY_LABELS (kategori_score d))); [|exact Hkd].
        apply code_cat_map_In. now exists d.
Qed.


Lemma metrics_tab_rows_witness :
  exists tab,
    metrics_tab ascii_upper stable_kind example_join (map add_category
        example_cluster_detail) "ua"
    = Some tab
    /\ (forall d1 d2, In d1 example_cluster_detail -> In d2 example_cluster_detail ->
                      kode d1 = kode d2 -> kategori_score d1 = kategori_score d2)
    /\ map (fun s => mc_row (sh_row s)) (df_md_aff tab) = rows_named example_join
        (ascii_upper "ua").
Proof.
  eexists.
  assert (Htab : metrics_tab ascii_upper stable_kind example_join
                   (map add_category example_cluster_detail) "ua" = Some _)
    by (vm_compute; reflexivity).
  assert (Hfun : forall d1 d2, In d1 example_cluster_detail ->
                               In d2 example_cluster_detail ->
                               kode d1 = kode d2 -> kategori_score d1 = kategori_score d2).
  { intros d1 d2 H1 H2.
    destruct H1 as [<-|[<-|[<-|[]]]]; destruct H2 as [<-|[<-|[<-|[]]]];
      intros E; try reflexivity; discriminate E. }
  split; [exact Htab|]. split; [exact Hfun|].
  exact (proj1 (proj2 (metrics_tab_rows _ _ _ _ _ _ Htab) Hfun)).
Defined.

(** X21.  The overall shares of tab 4 are computed without any division by
    zero, the denominator [max(total, 1)] being at least 1.  The shares are
    proportions of the overall total only when that total is at least 1:
    when it is at most 1 every share is the row's own total.  When the
    totals of the rows are non-negative every share lies between 0 and 1
    and does not exceed the row's total. *)
Theorem metrics_tab_shares (upper : string -> string) (K : sort_kind)
    (df_md : list MetricsRow) (df_detail : list DetailCat) (selected_affiliation : string)
    (tab : MetricsTab) :
  metrics_tab upper K df_md df_detail selected_affiliation = Some tab ->
  total_overall tab
  = Qsum (map (fun s => overall_total_of (sh_row s)) (df_md_aff tab))
  /\ 1 <= Qmax (total_overall tab) 1
  /\ (forall s, In s (df_md_aff tab) ->
                overall_share s
                = overall_total_of (sh_row s) / Qmax (total_overall tab) 1)
  /\ (total_overall tab <= 1 ->
      forall s, In s (df_md_aff tab) -> overall_share s == overall_total_of (sh_row s))
  /\ ((forall s, In s (df_md_aff tab) -> 0 <= overall_total_of (sh_row s)) ->
      forall s, In s (df_md_aff tab) ->
                0 <= overall_share s
                /\ overall_share s <= 1
                /\ overall_share s <= overall_total_of (sh_row s)).
Proof.
  intros Htab. destruct (metrics_tab_eq _ _ _ _ _ _ Htab) as (_ & Htot & Hdf).
  set (merged := merge_category (rows_named df_md (upper selected_affiliation))
                                (code_cat_map df_detail)) in *.
  assert (Hsum : total_overall tab
                 = Qsum (map (fun s => overall_total_of (sh_row s)) (df_md_aff tab))).
  { rewrite Hdf, map_map. cbn [sh_row]. exact Htot. }
  set (T := total_overall tab) in *.
  assert (HM1 : 1 <= Qmax T 1) by apply Q.le_max_r.
  assert (HM : 0 < Qmax T 1).
  { eapply Qlt_le_trans; [|exact HM1]. reflexivity. }
  assert (Hshare : forall s, In s (df_md_aff tab) ->
                             overall_share s = overall_total_of (sh_row s) / Qmax T 1).
  { intros s Hs. rewrite Hdf in Hs. apply in_map_iff in Hs.
    destruct Hs as (m & <- & _). reflexivity. }
  split; [exact Hsum|]. split; [exact HM1|]. split; [exact Hshare|]. split.
  - intros Hle s Hs. rewrite (Hshare s Hs), (Q.max_r T 1) by exact Hle. field.
  - intros Hnn s Hs. rewrite (Hshare s Hs).
    assert (Ht : 0 <= overall_total_of (sh_row s)) by now apply Hnn.
    assert (HtT : overall_total_of (sh_row s) <= T).
    { rewrite Hsum.
      apply (Qsum_member_le (fun s => overall_total_of (sh_row s)) _ s Hnn Hs). }
    split; [|split].
    + apply Qle_shift_div_l; [exact HM|]. now rewrite Qmult_0_l.
    + apply Qle_shift_div_r; [exact HM|]. rewrite Qmult_1_l.
      eapply Qle_trans; [exact HtT | apply Q.le_max_l].
    + apply Qle_shift_div_r; [exact HM|].
      rewrite <- (Qmult_1_r (overall_total_of (sh_row s))) at 1.
      apply Qmult_le_l_nonneg; [exact HM1 | exact Ht].
Qed.

Lemma metrics_tab_shares_witness :
  (exists tab,
     metrics_tab ascii_upper stable_kind example_join
                 (map add_category example_cluster_detail) "ua" = Some tab
     /\ total_overall tab = 8
     /\ map overall_share (df_md_aff tab) = [5 / Qmax 8 1; 3 / Qmax 8 1]
     /\ (forall s, In s (df_md_aff tab) -> 0 <= overall_total_of (sh_row s))
     /\ forall s, In s (df_md_aff tab) ->
                  0 <= overall_share s
                  /\ overall_share s <= 1
                  /\ overall_share s <= overall_total_of (sh_row s))
  /\ exists tab,
       metrics_tab ascii_upper stable_kind example_small
                   (map add_category example_cluster_detail) "ua" = Some tab
       /\ total_overall tab <= 1
       /\ map (fun s => overall_total_of (sh_row s)) (df_md_aff tab) = [1#4; 1#2]
       /\ forall s, In s (df_md_aff tab) -> overall_share s == overall_total_of (sh_row s).
Proof.
  split.
  - eexists.
    assert (Htab : metrics_tab ascii_upper stable_kind example_join
                     (map add_category example_cluster_detail) "ua" = Some _)
      by (vm_compute; reflexivity).
    split; [exact Htab|].
    match type of Htab with _ = Some ?t => set (tab := t) in * end.
    split; [vm_compute; reflexivity|]. split; [vm_compute; reflexivity|].
    assert (Hnn : forall s, In s (df_md_aff tab) -> 0 <= overall_total_of (sh_row s)).
    { intros s Hs. vm_compute in Hs. destruct Hs as [<-|[<-|[]]]; vm_compute; discriminate. }
    split; [exact Hnn|].
    exact (proj2 (proj2 (proj2 (proj2 (metrics_tab_shares _ _ _ _ _ _ Htab)))) Hnn).
  - eexists.
    assert (Htab : metrics_tab ascii_upper stable_kind example_small
                     (map add_category example_cluster_detail) "ua" = Some _)
      by (vm_compute; reflexivity).
    split; [exact Htab|].
    match type of Htab with _ = Some ?t => set (tab := t) in * end.
    assert (Hle : total_overall tab <= 1) by (vm_compute; discriminate).
    split; [exact Hle|]. split; [reflexivity|].
    exact (proj1 (proj2 (proj2 (proj2 (metrics_tab_shares _ _ _ _ _ _ Htab)))) Hle).
Defined.

Lemma sort_values_na_order {A : Type} (K : sort_kind) (key : A -> option Q) (l : list A)
    (i j : nat) (x y : A) :
  (i < j)%nat ->
  nth_error (sort_values_na K key false l) i = Some x ->
  nth_error (sort_values_na K key false l) j = Some y ->
  na_order (key x) (key y).
Proof.
  unfold sort_values_na.
  set (notna := fun x => match key x with Some _ => true | None => false end).
  set (isna := fun x => match key x with Some _ => false | None => true end).
  set (S := sort_values K (fun x => fillna0 (key x)) false (filter notna l)).
  assert (HS : forall z, In z S -> exists q, key z = Some q).
  { intros z Hz. apply (Permutation_in _ (sort_values_perm K _ false _)) in Hz.
    apply filter_In in Hz. destruct Hz as [_ Hz]. unfold notna in Hz.
    destruct (key z) as [q|]; [now exists q | discriminate]. }
  assert (HB : forall z, In z (filter isna l) -> key z = None).
  { intros z Hz. apply filter_In in Hz. destruct Hz as [_ Hz]. unfold isna in Hz.
    destruct (key z); [discriminate | reflexivity]. }
  intros Hij Hi Hj.
  destruct (Nat.lt_ge_cases j (List.length S)) as [Hlt|Hge].
  - rewrite nth_error_app1 in Hi by lia. rewrite nth_error_app1 in Hj by lia.
    pose proof (StronglySorted_nth_error _ _
                  (sort_values_descending K (fun x => fillna0 (key x)) (filter notna l))
                  i j x y Hij Hi Hj) as Hle.
    destruct (HS x (nth_error_In _ _ Hi)) as [a Ha].
    destruct (HS y (nth_error_In _ _ Hj)) as [b Hb].
    cbn beta in Hle. rewrite Ha, Hb in Hle. rewrite Ha, Hb. exact Hle.
  - rewrite nth_error_app2 in Hj by exact Hge.
    rewrite (HB y (nth_error_In _ _ Hj)). destruct (key x); exact I.
Qed.

Lemma metrics_tab_recent (upper : string -> string) (K : sort_kind) (df_md : list MetricsRow)
    (df_detail : list DetailCat) (selected_affiliation : string) (tab : MetricsTab) :
  metrics_tab upper K df_md df_detail selected_affiliation = Some tab ->
  recent_top tab
  = firstn 15
      (sort_values_na K row_recent_ratio false
         (filter (fun r => Qgtb (total_3yr_of (sh_row (rt_row r))) 0)
                 (map with_recent_ratio (df_md_aff tab)))).
Proof.
  unfold metrics_tab.
  destruct (filter _ df_md) as [|r rows]; [discriminate|].
  intros H. apply Some_inj in H. subst tab. reflexivity.
Qed.

Lemma sort_values_na_In {A : Type} (K : sort_kind) (key : A -> option Q) (asc : bool)
    (l : list A) (x : A) :
  In x (sort_values_na K key asc l) <-> In x l.
Proof.
  unfold sort_values_na. rewrite in_app_iff. split.
  - intros [H|H].
    + apply (Permutation_in _ (sort_values_perm K _ asc _)) in H.
      now apply filter_In in H.
    + now apply filter_In in H.
  - intros H. destruct (key x) as [q|] eqn:E.
    + left. apply (Permutation_in _ (Permutation_sym (sort_values_perm K _ asc _))).
      apply filter_In. split; [exact H | now rewrite E].
    + right. apply filter_In. split; [exact H | now rewrite E].
Qed.

Lemma sort_values_na_length {A : Type} (K : sort_kind) (key : A -> option Q) (asc : bool)
    (l : list A) :
  List.length (sort_values_na K key asc l) = List.length l.
Proof.
  unfold sort_values_na. rewrite length_app, sort_values_length.
  induction l as [|x l IH]; [reflexivity|].
  cbn [filter]. destruct (key x); cbn [List.length]; lia.
Qed.

(** X22.  The list of the most recent indicators of tab 4 holds the rows of
    the affiliation's table that have a positive 3-year total, cut to 15:
    all of them when they are at most 15.  The ratio of a row is
    [3-year total / overall total] when the overall total is positive and
    undefined otherwise; the rows with a ratio come first, from the largest
    ratio down, and the rows without one come last. *)
Theorem metrics_tab_recent_top (upper : string -> string) (K : sort_kind)
    (df_md : list MetricsRow) (df_detail : list DetailCat) (selected_affiliation : string)
    (tab : MetricsTab) :
  metrics_tab upper K df_md df_detail selected_affiliation = Some tab ->
  List.length (recent_top tab)
  = Nat.min 15 (count (fun s => Qgtb (total_3yr_of (sh_row s)) 0) (df_md_aff tab))
  /\ ((count (fun s => Qgtb (total_3yr_of (sh_row s)) 0) (df_md_aff tab) <= 15)%nat ->
      forall s, In s (df_md_aff tab) -> 0 < total_3yr_of (sh_row s) ->
                exists r, In r (recent_top tab) /\ rt_row r = s)
  /\ (forall r, In r (recent_top tab) ->
        In (rt_row r) (df_md_aff tab)
        /\ 0 < total_3yr_of (sh_row (rt_row r))
        /\ (0 < overall_total_of (sh_row (rt_row r)) ->
            row_recent_ratio r
            = Some (total_3yr_of (sh_row (rt_row r))
                    / overall_total_of (sh_row (rt_row r))))
        /\ (~ 0 < overall_total_of (sh_row (rt_row r)) -> row_recent_ratio r = None))
  /\ (forall i j x y,
        (i < j)%nat ->
        nth_error (recent_top tab) i = Some x -> nth_error (recent_top tab) j = Some y ->
        na_order (row_recent_ratio x) (row_recent_ratio y)).
Proof.
  intros Htab. rewrite (metrics_tab_recent _ _ _ _ _ _ Htab).
  assert (Hlen : List.length
                   (sort_values_na K row_recent_ratio false
                      (filter (fun r => Qgtb (total_3yr_of (sh_row (rt_row r))) 0)
                              (map with_recent_ratio (df_md_aff tab))))
                 = count (fun s => Qgtb (total_3yr_of (sh_row s)) 0) (df_md_aff tab)).
  { rewrite sort_values_na_length, filter_map_comm, length_map. reflexivity. }
  split; [|split; [|split]].
  - rewrite length_firstn, Hlen. reflexivity.
  - intros Hfew s Hs Hpos. rewrite firstn_all2 by (rewrite Hlen; exact Hfew).
    exists (with_recent_ratio s). split; [|reflexivity].
    apply sort_values_na_In. apply filter_In. split; [now apply in_map|].
    cbn [with_recent_ratio rt_row]. now apply Qgtb_true_iff.
  - intros r Hr. apply in_firstn in Hr. apply sort_values_na_In in Hr.
    apply filter_In in Hr. destruct Hr as [Hr H3].
    apply in_map_iff in Hr. destruct Hr as (s & <- & Hs).
    cbn [with_recent_ratio rt_row row_recent_ratio] in *.
    split; [exact Hs|]. split; [now apply Qgtb_true_iff|]. split.
    + intros Hpos. apply Qgtb_true_iff in Hpos. now rewrite Hpos.
    + intros Hn. destruct (Qgtb (overall_total_of (sh_row s)) 0) eqn:E; [|reflexivity].
      apply Qgtb_true_iff in E. contradiction.
  - intros i j x y Hij Hi Hj.
    assert (Hnth : forall k z,
               nth_error (firstn 15
                            (sort_values_na K row_recent_ratio false
                               (filter (fun r => Qgtb (total_3yr_of (sh_row (rt_row r))) 0)
                                       (map with_recent_ratio (df_md_aff tab))))) k
               = Some z ->
               nth_error (sort_values_na K row_recent_ratio false
                            (filter (fun r => Qgtb (total_3yr_of (sh_row (rt_row r))) 0)
                                    (map with_recent_ratio (df_md_aff tab)))) k
               = Some z).
    { intros k z Hk. rewrite nth_error_firstn in Hk.
      destruct (k <? 15)%nat; [exact Hk | discriminate]. }
    exact (sort_values_na_order K row_recent_ratio _ i j x y Hij (Hnth _ _ Hi)
                                (Hnth _ _ Hj)).
Qed.

Lemma metrics_tab_recent_top_witness :
  exists tab,
    metrics_tab ascii_upper reversing_kind example_recent
                (map add_category example_cluster_detail) "ub" = Some tab
    /\ map (fun r => (code (mc_row (sh_row (rt_row r))), row_recent_ratio r))
           (recent_top tab)
       = [("C3", Some (4#4)); ("C1", Some (5#10)); ("C2", None)]
    /\ List.length (recent_top tab) = 3%nat
    /\ (forall i j x y,
          (i < j)%nat ->
          nth_error (recent_top tab) i = Some x -> nth_error (recent_top tab) j = Some y ->
          na_order (row_recent_ratio x) (row_recent_ratio y)).
Proof.
  eexists.
  assert (Htab : metrics_tab ascii_upper reversing_kind example_recent
                   (map add_category example_cluster_detail) "ub" = Some _)
    by (vm_compute; reflexivity).
  split; [exact Htab|].
  split; [vm_compute; reflexivity|].
  destruct (metrics_tab_recent_top _ _ _ _ _ _ Htab) as (Hlen & _ & _ & Hord).
  split; [exact Hlen | exact Hord].
Defined.

(** ** Default selections *)

Lemma list_index_Some (x : string) (l : list string) (i : nat) :
  list_index x l = Some i -> nth_error l i = Some x.
Proof.
  revert i. induction l as [|y l IH]; intros i H; [discriminate|].
  cbn in H. destruct (String.eqb_spec y x) as [->|Hne].
  - injection H as <-. reflexivity.
  - destruct (list_index x l) as [k|]; [|discriminate].
    injection H as <-. cbn. now apply IH.
Qed.

Lemma list_index_None (x : string) (l : list string) :
  list_index x l = None <-> ~ In x l.
Proof.
  induction l as [|y l IH]; cbn; [tauto|].
  destruct (String.eqb_spec y x) as [->|Hne].
  - split; [discriminate | intros H; exfalso; apply H; now left].
  - destruct (list_index x l) as [k|].
    + split; [discriminate|]. intros H. exfalso.
      assert (Hn : ~ In x l) by tauto. apply IH in Hn. discriminate.
    + split; [|reflexivity]. intros _ [E|H]; [contradiction|].
      now apply (proj1 IH eq_refl).
Qed.

(** X23.  The selectable affiliations are the distinct names of the table.
    The default selection is [Universitas Bina Nusantara] whenever it is
    among them and the first entry otherwise; the default comparison partner
    is the entry just before it in the list.  The two defaults name the same
    affiliation exactly when that university is absent or comes first, the
    default comparison then being one of an affiliation with itself. *)
Theorem default_selections (df_af : list AffOut) :
  NoDup (affiliations df_af)
  /\ (forall a, In a (affiliations df_af)
                <-> exists r, In r df_af /\ nama_afiliasi (a_row r) = a)
  /\ (In BINUS (affiliations df_af) ->
      nth_error (affiliations df_af) (default_aff (affiliations df_af)) = Some BINUS
      /\ default_b_idx (affiliations df_af) = (default_aff (affiliations df_af) - 1)%nat)
  /\ (~ In BINUS (affiliations df_af) ->
      default_aff (affiliations df_af) = 0%nat
      /\ default_b_idx (affiliations df_af) = 0%nat)
  /\ (nth_error (affiliations df_af) (default_b_idx (affiliations df_af))
      = nth_error (affiliations df_af) (default_aff (affiliations df_af))
      <-> ~ In BINUS (affiliations df_af)
          \/ nth_error (affiliations df_af) 0 = Some BINUS).
Proof.
  set (affs := affiliations df_af).
  assert (Hnd : NoDup affs) by apply sorted_unique_NoDup.
  split; [exact Hnd|]. split.
  { intros a. unfold affs, affiliations. rewrite sorted_unique_In, in_map_iff.
    split; intros (r & H1 & H2); exists r; auto. }
  unfold default_aff, default_b_idx.
  destruct (list_index BINUS affs) as [i|] eqn:E.
  - pose proof (list_index_Some _ _ _ E) as Hi.
    assert (Hin : In BINUS affs) by (eapply nth_error_In; exact Hi).
    split; [intros _; split; [exact Hi | lia]|].
    split; [intros Hn; contradiction|].
    split.
    + intros Heq. right. destruct i as [|i]; [exact Hi|]. exfalso.
      replace (Nat.max 0 (S i - 1)) with i in Heq by lia.
      assert (i = S i); [|lia].
      apply (proj1 (NoDup_nth_error affs) Hnd); [|exact Heq].
      assert (S i < List.length affs)%nat by (apply nth_error_Some; congruence). lia.
    + intros [Hn|H0]; [contradiction|].
      assert (i = 0%nat).
      { apply (proj1 (NoDup_nth_error affs) Hnd); [|congruence].
        apply nth_error_Some. congruence. }
      subst i. reflexivity.
  - apply list_index_None in E.
    split; [intros Hin; contradiction|].
    split; [intros _; split; reflexivity|].
    split; [intros _; now left | reflexivity].
Qed.

Lemma default_selections_witness :
  In BINUS (affiliations (loaded_df_af (load_cluster_data stable_kind
                                          example_with_binus [])))
  /\ affiliations (loaded_df_af (load_cluster_data stable_kind example_with_binus []))
     = ["Institut Teknologi Bandung"; "Universitas Bina Nusantara";
        "Universitas Indonesia"]
  /\ nth_error (affiliations (loaded_df_af (load_cluster_data stable_kind
                                               example_with_binus [])))
               (default_aff (affiliations (loaded_df_af
                                             (load_cluster_data stable_kind
                                                example_with_binus []))))
     = Some BINUS
  /\ default_b_idx (affiliations (loaded_df_af (load_cluster_data stable_kind
                                                   example_with_binus [])))
     = (default_aff (affiliations (loaded_df_af (load_cluster_data stable_kind
                                                   example_with_binus []))) - 1)%nat
  /\ ~ In BINUS (affiliations (loaded_df_af (load_cluster_data stable_kind
                                               example_affiliations [])))
  /\ default_aff (affiliations (loaded_df_af (load_cluster_data stable_kind
                                                example_affiliations []))) = 0%nat.
Proof.
  assert (Hin : In BINUS (affiliations (loaded_df_af (load_cluster_data stable_kind
                                                        example_with_binus [])))).
  { right. left. reflexivity. }
  assert (Hn : ~ In BINUS (affiliations (loaded_df_af (load_cluster_data stable_kind
                                                         example_affiliations [])))).
  { intros H. vm_compute in H. intuition discriminate. }
  split; [exact Hin|]. split; [reflexivity|].
  destruct (default_selections (loaded_df_af (load_cluster_data stable_kind
                                                example_with_binus [])))
    as (_ & _ & Hp & _).
  split; [exact (proj1 (Hp Hin))|]. split; [exact (proj2 (Hp Hin))|].
  split; [exact Hn|].
  destruct (default_selections (loaded_df_af (load_cluster_data stable_kind
                                                example_affiliations [])))
    as (_ & _ & _ & H & _).
  exact (proj1 (H Hn)).
Defined.

(** ** More on the high-leverage scorer *)

Lemma filter_idempotent {A : Type} (p : A -> bool) (l : list A) :
  filter p (filter p l) = filter p l.
Proof.
  induction l as [|x l IH]; [reflexivity|].
  cbn. destruct (p x) eqn:E; cbn; rewrite ?E, IH; reflexivity.
Qed.

(** X24.  The high-leverage list depends only on the records of the selected
    affiliation; it is empty exactly when [top_k] is 0 or the affiliation has
    no record; and asking for fewer rows gives a prefix of what a larger
    [top_k] gives. *)
Theorem high_leverage_frame (K : sort_kind) (df_detail : list DetailCat)
    (selected_affiliation : string) (top_k more : nat) :
  get_high_leverage_metrics K df_detail selected_affiliation top_k
  = get_high_leverage_metrics K (rows_of df_detail selected_affiliation)
                              selected_affiliation top_k
  /\ (get_high_leverage_metrics K df_detail selected_affiliation top_k = []
      <-> top_k = 0%nat \/ rows_of df_detail selected_affiliation = [])
  /\ firstn top_k
       (get_high_leverage_metrics K df_detail selected_affiliation (top_k + more))
     = get_high_leverage_metrics K df_detail selected_affiliation top_k.
Proof.
  rewrite !get_high_leverage_metrics_eq.
  split; [|split].
  - unfold rows_of. now rewrite filter_idempotent.
  - set (sorted := sort_values K potential_gain false
                     (map add_potential_gain (rows_of df_detail selected_affiliation))).
    assert (Hlen : List.length sorted
                   = List.length (rows_of df_detail selected_affiliation)).
    { unfold sorted. now rewrite sort_values_length, length_map. }
    split.
    + intros H. apply (f_equal (@List.length HighRow)) in H.
      rewrite length_firstn, Hlen in H. cbn in H.
      destruct top_k as [|k]; [now left|]. right.
      destruct (rows_of df_detail selected_affiliation); [reflexivity | cbn in H; lia].
    + intros [->|H]; [reflexivity|].
      rewrite H in Hlen. change (List.length sorted = 0%nat) in Hlen.
      apply length_zero_iff_nil in Hlen. rewrite Hlen. apply firstn_nil.
  - rewrite firstn_firstn. f_equal. lia.
Qed.
